(* ===== verification/_CoqProject ===== *)
-Q . S2P
Prelude.v
Sheets.v
Retry.v
Registry.v
ReadCache.v
Upsert.v
App.v
Frames.v
Display.v
Filters.v
Concurrent.v
System.v
