(* ===== verification/Prelude.v ===== *)
(** * A verified model of the Google-Sheets data layer of Medium-Digest-Web

    The repository is a Streamlit page ([src/app.py]) over a data layer
    ([src/gsheets_io.py]) that keeps articles and per-article "read" flags
    in a Google spreadsheet.  The data layer has five parts:
    - an authenticator ([get_client]) that builds the client from the
      secrets or a credentials file, once per process;
    - a registry ([open_spreadsheet], [list_worksheets_map],
      [get_or_create_worksheet]) that caches spreadsheet handles and the
      title map of each spreadsheet, and adds missing worksheets;
    - a retry executor ([_need_retry], [with_retry], the [safe_*]
      wrappers): at most five attempts, sleeping 1, 2, 4, 8, 16 s after
      each transient failure;
    - a read cache ([read_sheet_to_df] under [st.cache_data(ttl=60)]) and
      the bulk writer [write_df_to_sheet];
    - the upsert engine ([upsert_read_status]): read all status rows, index
      them by key (the later row wins), rewrite one flag cell or append a
      row, clear the read cache.
    The page reads both worksheets through the cache ([load_articles]),
    derives a flag per article, upserts on each checkbox toggle
    ([on_toggle]), filters the articles by category, read state and a
    search term from its sidebar, sorts them by date, and pages the list
    eight at a time.  Streamlit reruns the page on every interaction; each
    browser tab has its own session state, and all tabs share the process
    and the spreadsheet, so their upserts interleave.

    ** Files
    - [Prelude]: the state/error monad [ST] with its [let!] notation
      (scope [st_scope]), [st_lift]/[st_state], frame conditions [keeps]
      with [keeps_auto], the hint databases [gsheets]/[gsheets_rw], Python
      string helpers ([contains], [lower]), grid updates ([set_pad]) and
      the later-occurrence-wins index [index_from] with its lemmas.
    - [Sheets]: the remote store (gspread and the Sheets API, modelled from
      the specification's external interface since that code is not in the
      repository) and the process state [World]: remote books, the fault
      schedule, clock, sleep and request logs, configuration and the four
      caches.  [attempt] is one remote request; the class [RemoteStable]
      states what the request machinery preserves.
    - [Retry]: [need_retry], [retry_loop]/[with_retry], the wrappers, and
      the reference [retry_plan] with the proof that the loop computes it.
    - [Registry]: [cached] ([st.cache_resource]), the authenticator, the
      spreadsheet and title-map caches, [get_or_create_worksheet]; the
      class [CacheStable] for frame conditions across the caches.
    - [ReadCache]: [to_frame], [read_sheet_to_df] with its TTL, [refresh],
      [write_df_to_sheet].
    - [Upsert]: [upsert_read_status], the page's reading of the status
      table ([status_flags]), the abstract specification [upsert_spec]
      (a map insert) and the refinement proof.
    - [App]: [load_articles], [on_toggle] and the tab's [Session]
      ([st.session_state]).
    - [Frames]: the typing judgement of the frames the page reads (one
      cell per column in every row) and its preservation by the read
      cache and the page's operations.
    - [Display]: [display_paginated_articles]: pagination, the drawing of
      each row ([row_html], [render_row], [stable_key]), the keyed
      checkbox ([checkbox]) and the buttons ([buttons]); a click on a
      checkbox ([click_checkbox]).
    - [Filters]: the rest of the script (lines 117-255): the sidebar
      ([sidebar], [sync_all], [picked]), the page reset ([reset_page]),
      the filters, the date sort and the search, composed as [page_run]
      on the session and [app_run] with [load_articles]; the reruns of a
      tab as the step relation [ui_step].
    - [Concurrent]: [upsert_read_status] split into its read and write
      halves, and the interleavings of several upserts as the step
      relation [cstep] on the shared [World].
    - [System]: several tabs over one process: reruns, checkbox clicks,
      passing time and network failures as the step relation [sys_step]
      on [Sys], with its invariant [sys_inv].

    ** How the code is modelled
    Every operation of the data layer is a function
    [World -> result Exn A * World]; the page's code is a function
    [Session -> result Exn A * Session] in the same monad.  A remote
    request is logged, then the head of [w_faults] decides whether the
    network fails it ([Some e]) or the service performs it ([None] or an
    empty schedule); the service side is a function of the books.  Python
    exceptions are the constructors of [Exn].  Time is an integer number of
    milliseconds: [time.sleep] advances the clock and is logged; the TTL is
    60000.  The loop of [with_retry] is structural recursion on the five
    attempts left, so no fuel is needed anywhere; termination of
    interleavings is proved by a measure (halves left to run).  The caches
    are fields of [World]: a [cache_resource] entry is stored on success
    only, a [cache_data] entry carries its time.  The Sheets API drops
    trailing blank cells and rows on reads ([trim_rows]) and gspread pads
    rows to the widest ([fill_gaps]).  Library functions of the page whose
    behaviour is not part of this program ([pd.to_datetime],
    [re.compile]/[re.search] behind [str.contains], [hashlib.md5],
    [strftime], and the [Date] column as [pd.to_datetime] converted it)
    are section parameters: the theorems hold for every implementation of
    them; the scenarios use simple stand-ins.
    Streamlit's session state, widget keys and reruns are modelled as the
    library documents them: a keyed widget shows the session's value when
    there is one, a callback runs before the rerun, [st.rerun()] ends the
    run; a widget key used twice in one run raises.

    ** What is proved
    - Upsert (C1-C7, C15, C19): on a well-formed status worksheet a
      successful upsert implements [upsert_spec] as the page reads the
      flags ([upsert_refines]); with the network up it succeeds
      ([upsert_total]), and so does every sequence of upserts, whose flags
      are the map inserts applied in order ([upserts_refine]); an absent
      key appends one row, a present key rewrites only its flag cell; the
      read cache is emptied; the index maps exactly the keys present, each
      to its last occurrence.  On the headerless status worksheet the
      page's first read creates, the first toggle's flag is read as the
      header and a second toggle makes the page raise [KeyError]
      ([headerless_flags_lost]).  Under any schedule of network failures an
      upsert takes effect whole or leaves every worksheet as it was (C15).
    - Retry (C8, C9, C11, C12): [with_retry] is [retry_plan] of the fault
      schedule; at most five attempts with delays a prefix of 1..16 s;
      k < 5 transient failures then success; five transient failures raise
      the last one after 31 s of sleep.
    - Read cache (C13, C14, C20, C21): hits within the TTL, refetch after
      it; write/read round trip; the bulk writer leaves stale snapshots.
    - Registry and authenticator (C16, C18, C22, C23): the title map is
      listed once; a worksheet created by the process is added again and
      fails; the client is built once; missing credentials raise.
    - Frames (C17): [load_articles] gives rows with one cell per column
      whose [ItemKey] is their own [URL] cell, and keeps the read cache
      typed.
    - Page (C10, C24, C25-C35): two rows of one [ItemKey] on the page
      make the run raise [StreamlitDuplicateElementKey]; a row's checkbox
      shows the session's value (the sheet's flag when there is none) and
      clicking it upserts that row's key with the negated value; pages
      partition the list, the clamped page is valid and non-empty, a run
      keeps the page in range whether drawing succeeds or not; when a page
      is shown after the page reset, it is
      the first page exactly when an input changed; select-all selects the
      categories present; the paginated list is the reference filter,
      sorted; the page number stays non-negative over every sequence of
      reruns; a bad search term raises [re.error]; the count in the status
      option makes a toggle reset the page (C33: the choice changes with
      the count; C35: the next run shows the first page whenever the
      choice remembered from the last run was made on another unread
      count); a toggle followed by the next load shows the new flag
      while every other flag is kept (composition of [on_toggle],
      [upsert_read_status], the cache and [load_articles]).
    - Concurrency (C36-C38, C40): two upserts of a key with no row that
      both read before either writes both succeed, append two rows and
      keep only the second flag ([racing_appends]); every interleaving
      keeps the status worksheet well-formed and every pending update
      aimed at a row of its own key; every pending upsert can complete; a
      write to a row that a later duplicate of its key follows succeeds
      and changes nothing the page reads ([stale_update_masked]).  The
      upsert is its read half then its write half ([upsert_split]), and
      scenarios run the races on concrete schedules.
    - System (C39): over any sequence of reruns of any tab, checkbox
      clicks, passing time and network failures, both worksheets stay
      known, the status worksheet well-formed, the read cache typed and
      every tab's page number non-negative.

    ** Not modelled, and why
    The layout and CSS of [st.markdown], [st.columns], the [st.title],
    [st.subheader] and [st.info] texts are output only.  gspread and the
    Sheets API are modelled from the specification, as far as the data
    layer uses them; their status stays "partly".  The sidebar's radio and
    checkboxes are modelled as keeping their values under their keys when
    their label or option texts change between runs; Streamlit versions
    differ on whether a keyed widget whose parameters change keeps its
    value; with either behaviour the status choice text changes when a
    count changes, so the page reset of C33 and C35 happens either way.
    In [System] each step (a rerun, a callback) runs to completion before
    the next; Streamlit serves tabs from several threads, and the
    interleaving of the requests of concurrent toggles is covered by
    [Concurrent] with the network up, not by [System].  [System] starts
    from a state where both worksheets exist and are known: the creation
    of a missing worksheet by the page is C18 and C19.
    Hash collisions of [hashlib.md5] are not ruled out: the drawing
    theorems are stated on the checkbox keys ([row_key]), and C10 on equal
    [ItemKey]s, which give equal keys for every hash function.
    Choices of the model that differ from the code only where it does not
    matter: [parse_read] lower-cases ASCII letters, where Python's
    [str.lower] lower-cases every letter; no other character lower-cases
    to a letter of "true" or "yes", so the accepted cells are the same.
    [update_cell] stores the text written, where gspread's
    [USER_ENTERED] makes the sheet store the booleans TRUE and FALSE; they
    read back as "TRUE" and "FALSE", which the case-insensitive parse
    reads as the same flags.  [page_slice] sends a negative page to the
    first page, where pandas slices from the end; the page is never
    negative (C26, C31).  [checkbox] keeps the session value of a widget
    that a run does not draw, where Streamlit deletes it at the end of
    the run; the page draws the checkboxes of the shown page only, so a
    row drawn again after a page change shows the flag of the sheet in
    Streamlit and may show its earlier value in the model.  [attempt]
    fails a request before the service performs it; a request the
    service performed whose response was lost (a retried append that
    duplicates its row) is not modelled.  The remaining lines of the sources are imports, [st.set_page_config],
    comments and blank lines. *)

From Stdlib Require Import Ascii String ZArith.
From stdpp Require Import base gmap strings list.

(** ** Results and the state/error monad

    Every operation of the data layer runs against the process state and
    can raise a Python exception.  We model such code as a function from a
    state to a [result] and a new state. *)

Inductive result (E A : Type) : Type :=
| Ok (a : A)
| Err (e : E).
Arguments Ok {E A} a.
Arguments Err {E A} e.

(** [result E] is a monad of stdpp's classes, so that pure code that
    raises reads with [x ← r; k]. *)
#[export] Instance result_ret {E} : MRet (result E) := fun A a => Ok a.
#[export] Instance result_bind {E} : MBind (result E) :=
  fun A B k r => match r with Ok a => k a | Err e => Err e end.

Definition ST (S E A : Type) : Type := S -> result E A * S.

Definition st_ret {S E A} (a : A) : ST S E A := fun s => (Ok a, s).

Definition st_bind {S E A B} (c : ST S E A) (k : A -> ST S E B) : ST S E B :=
  fun s => match c s with
           | (Ok a, s') => k a s'
           | (Err e, s') => (Err e, s')
           end.

Definition st_raise {S E A} (e : E) : ST S E A := fun s => (Err e, s).

(** [try: c except e: h e] *)
Definition st_catch {S E A} (c : ST S E A) (h : E -> ST S E A) : ST S E A :=
  fun s => match c s with
           | (Err e, s') => h e s'
           | r => r
           end.

Definition st_get {S E} : ST S E S := fun s => (Ok s, s).
Definition st_gets {S E A} (f : S -> A) : ST S E A := fun s => (Ok (f s), s).
Definition st_modify {S E} (f : S -> S) : ST S E unit := fun s => (Ok tt, f s).
(** A pure computation that may raise, run in the monad. *)
Definition st_lift {S E A} (r : result E A) : ST S E A := fun s => (r, s).
(** A step on the state that returns a value and cannot raise. *)
Definition st_state {S E A} (f : S -> S * A) : ST S E A := fun s => (Ok (f s).2, (f s).1).

Declare Scope st_scope.
Delimit Scope st_scope with st.
Notation "'let!' x ':=' c 'in' k" := (st_bind c (fun x => k))
  (at level 10, x binder, c at level 100, k at level 200) : st_scope.

Create HintDb gsheets discriminated.
Create Rewrite HintDb gsheets_rw.

(** Unfold the monad combinators and compute. *)
Ltac st_unfold :=
  unfold st_bind, st_ret, st_raise, st_catch, st_get, st_gets, st_modify, st_lift, st_state in *.

(** ** Monad lemmas *)

Section Monad.
Context {S E : Type}.

Lemma st_bind_ok {A B} (c : ST S E A) (k : A -> ST S E B) s a s' :
  c s = (Ok a, s') -> st_bind c k s = k a s'.
Proof. intros H. unfold st_bind. by rewrite H. Qed.

Lemma st_bind_err {A B} (c : ST S E A) (k : A -> ST S E B) s e s' :
  c s = (Err e, s') -> st_bind c k s = (Err e, s').
Proof. intros H. unfold st_bind. by rewrite H. Qed.

(** A successful sequence decomposes into two successful steps. *)
Lemma st_bind_ok_inv {A B} (c : ST S E A) (k : A -> ST S E B) s b s'' :
  st_bind c k s = (Ok b, s'') ->
  exists a s', c s = (Ok a, s') /\ k a s' = (Ok b, s'').
Proof.
  unfold st_bind. destruct (c s) as [[a|e] s'] eqn:Hc; [eauto|congruence].
Qed.

Lemma st_catch_ok {A} (c : ST S E A) h s a s' :
  c s = (Ok a, s') -> st_catch c h s = (Ok a, s').
Proof. intros H. unfold st_catch. by rewrite H. Qed.

Lemma st_catch_err {A} (c : ST S E A) h s e s' :
  c s = (Err e, s') -> st_catch c h s = h e s'.
Proof. intros H. unfold st_catch. by rewrite H. Qed.
End Monad.

#[export] Hint Resolve st_bind_ok st_bind_err st_catch_ok st_catch_err : gsheets.

(** ** Strings, as Python treats them *)


(** [pat in s]: Python substring test (the empty pattern occurs everywhere). *)
Fixpoint contains (pat s : string) : bool :=
  String.prefix pat s ||
  match s with
  | EmptyString => false
  | String _ s' => contains pat s'
  end.

(** [str.lower()] on the ASCII range. *)
Definition lower_ascii (c : ascii) : ascii :=
  let n := nat_of_ascii c in
  if Nat.leb 65 n && Nat.leb n 90 then ascii_of_nat (n + 32) else c.

Fixpoint lower (s : string) : string :=
  match s with
  | EmptyString => EmptyString
  | String c s' => String (lower_ascii c) (lower s')
  end.

Lemma contains_cons pat c s :
  contains pat (String c s) = String.prefix pat (String c s) || contains pat s.
Proof. reflexivity. Qed.

Lemma string_prefix_cons a s1 b s2 :
  String.prefix (String a s1) (String b s2) = if ascii_dec a b then String.prefix s1 s2 else false.
Proof. reflexivity. Qed.

Lemma contains_empty_r pat :
  contains pat EmptyString = String.prefix pat EmptyString.
Proof. simpl. by rewrite orb_false_r. Qed.

(** ** Lists related pointwise *)

Lemma Forall2_impl_Forall_l {A B} (P R : A -> B -> Prop) (Q : A -> Prop) l k :
  Forall2 P l k -> Forall Q l -> (forall x y, Q x -> P x y -> R x y) -> Forall2 R l k.
Proof. intros H HQ Himp. induction H; inversion_clear HQ; constructor; auto. Qed.

(** ** Lists updated by position, extending like a spreadsheet grid *)

Section PadSet.
Context {A : Type} (d : A).

(** [l[i] := x], growing [l] with [d] when [i] is past its end. *)
Definition set_pad (l : list A) (i : nat) (x : A) : list A :=
  if decide (i < length l) then <[i:=x]> l
  else l ++ replicate (i - length l) d ++ [x].

Lemma length_set_pad l i x : length (set_pad l i x) = Nat.max (length l) (S i).
Proof.
  unfold set_pad. case_decide.
  - rewrite length_insert. lia.
  - rewrite !length_app, length_replicate. simpl. lia.
Qed.

Lemma set_pad_lookup_eq l i x : set_pad l i x !! i = Some x.
Proof.
  unfold set_pad. case_decide.
  - by apply list_lookup_insert_eq.
  - rewrite lookup_app_r by lia. rewrite lookup_app_r; rewrite length_replicate; [|lia].
    by replace (i - length l - (i - length l)) with 0 by lia.
Qed.

Lemma set_pad_lookup_ne l i j x : j <> i -> j < length l -> set_pad l i x !! j = l !! j.
Proof.
  intros Hne Hj. unfold set_pad. case_decide.
  - by apply list_lookup_insert_ne.
  - by rewrite lookup_app_l.
Qed.

Lemma set_pad_in_range l i x : i < length l -> set_pad l i x = <[i:=x]> l.
Proof. intros H. unfold set_pad. by case_decide. Qed.
End PadSet.

#[export] Hint Rewrite @length_set_pad : gsheets_rw.

(** ** Frame conditions: what a computation never changes

    [keeps R m]: every run of [m] relates its initial and final states by
    [R].  With [R] a preorder this composes through the monad, so frame
    conditions of whole handlers follow from their steps by [keeps_auto]. *)

Section Keeps.
Context {S E : Type} (R : S -> S -> Prop) `{!PreOrder R}.

Definition keeps {A} (m : ST S E A) : Prop :=
  forall s r s', m s = (r, s') -> R s s'.

Lemma keeps_ret {A} (a : A) : keeps (st_ret a).
Proof. intros s r s' [= _ <-]. reflexivity. Qed.

Lemma keeps_raise {A} (e : E) : keeps (A:=A) (st_raise e).
Proof. intros s r s' [= _ <-]. reflexivity. Qed.

Lemma keeps_modify (f : S -> S) : (forall s, R s (f s)) -> keeps (st_modify f).
Proof. intros Hf s r s' [= _ <-]. apply Hf. Qed.

Lemma keeps_bind {A B} (c : ST S E A) (k : A -> ST S E B) :
  keeps c -> (forall a, keeps (k a)) -> keeps (st_bind c k).
Proof.
  intros Hc Hk s r s'. unfold st_bind.
  destruct (c s) as [[a|e] s1] eqn:H1.
  - intros H2. etrans; [exact (Hc _ _ _ H1)|exact (Hk _ _ _ _ H2)].
  - intros [= _ <-]. exact (Hc _ _ _ H1).
Qed.

Lemma keeps_catch {A} (c : ST S E A) (h : E -> ST S E A) :
  keeps c -> (forall e, keeps (h e)) -> keeps (st_catch c h).
Proof.
  intros Hc Hh s r s'. unfold st_catch.
  destruct (c s) as [[a|e] s1] eqn:H1.
  - intros [= _ <-]. exact (Hc _ _ _ H1).
  - intros H2. etrans; [exact (Hc _ _ _ H1)|exact (Hh _ _ _ _ H2)].
Qed.

Lemma keeps_if {A} (b : bool) (m1 m2 : ST S E A) :
  keeps m1 -> keeps m2 -> keeps (if b then m1 else m2).
Proof. by destruct b. Qed.

Lemma keeps_get : keeps st_get.
Proof. intros s r s' [= _ <-]. reflexivity. Qed.

Lemma keeps_lift {A} (r : result E A) : keeps (st_lift r).
Proof. intros s r' s' [= _ <-]. reflexivity. Qed.

Lemma keeps_state {A} (f : S -> S * A) : (forall s, R s (f s).1) -> keeps (st_state f).
Proof. intros Hf s r s' [= _ <-]. apply Hf. Qed.
End Keeps.

#[export] Hint Resolve keeps_ret keeps_raise keeps_bind keeps_catch keeps_if keeps_get keeps_lift : gsheets.

Ltac keeps_auto := repeat match goal with
  | |- keeps ?R (st_bind _ _) => apply (keeps_bind R); [|intro]
  | |- keeps ?R (st_catch _ _) => apply (keeps_catch R); [|intro]
  | |- keeps ?R (if _ then _ else _) => apply (keeps_if R)
  | |- keeps ?R (st_ret _) => apply (keeps_ret R)
  | |- keeps ?R (st_raise _) => apply (keeps_raise R)
  | |- keeps ?R st_get => apply (keeps_get R)
  | |- keeps ?R (st_lift _) => apply (keeps_lift R)
  end.

(** ** Indexing a list by key, the later occurrence winning

    [{key(a): val(i, a) for i, a in enumerate(l, start=i)}] in Python, and
    [drop_duplicates(keep="last")] followed by a lookup in pandas, both
    compute [index_from]. *)

Section IndexFrom.
Context {A K V : Type} `{Countable K} (key : A -> K) (val : nat -> A -> V).

Fixpoint index_from (i : nat) (l : list A) (m : gmap K V) : gmap K V :=
  match l with
  | [] => m
  | a :: l' => index_from (S i) l' (<[key a := val i a]> m)
  end.

Lemma index_from_app i l1 l2 m :
  index_from i (l1 ++ l2) m = index_from (i + length l1) l2 (index_from i l1 m).
Proof.
  revert i m. induction l1 as [|a l1 IH]; intros i m; cbn; [by rewrite Nat.add_0_r|].
  rewrite IH. f_equal. lia.
Qed.

Lemma index_from_insert_notin i l m k v :
  (forall a, a ∈ l -> key a <> k) ->
  index_from i l (<[k:=v]> m) = <[k:=v]> (index_from i l m).
Proof.
  revert i m. induction l as [|a l IH]; intros i m Hl; cbn; [done|].
  rewrite insert_insert_ne by (apply Hl; constructor).
  apply IH. intros b Hb. apply Hl. by constructor.
Qed.

Lemma index_from_lookup_notin i l m k :
  (forall a, a ∈ l -> key a <> k) -> index_from i l m !! k = m !! k.
Proof.
  revert i m. induction l as [|a l IH]; intros i m Hl; cbn; [done|].
  rewrite IH by (intros b Hb; apply Hl; by constructor).
  apply lookup_insert_ne. apply Hl. constructor.
Qed.

(** The entry of [k] comes from its last occurrence, or from [m] when [k]
    does not occur. *)
Lemma index_from_lookup i l m k v :
  index_from i l m !! k = Some v ->
  (exists pre a post, l = pre ++ a :: post /\ key a = k /\
     (forall b, b ∈ post -> key b <> k) /\ v = val (i + length pre) a) \/
  ((forall a, a ∈ l -> key a <> k) /\ m !! k = Some v).
Proof.
  revert i m. induction l as [|a l IH]; intros i m Hk; cbn in Hk.
  - right. split; [intros b Hb; inversion Hb|done].
  - destruct (IH _ _ Hk) as [(pre & b & post & -> & Hb & Hpost & ->)|[Hl Hm]].
    + left. exists (a :: pre), b, post. cbn. split_and!; [done|done|done|f_equal; lia].
    + destruct (decide (key a = k)) as [<-|Hne].
      * left. exists [], a, l. rewrite lookup_insert_eq in Hm. injection Hm as <-.
        cbn. split_and!; [done|done|done|f_equal; lia].
      * right. rewrite lookup_insert_ne in Hm by done. split; [|done].
        intros b Hb. apply elem_of_cons in Hb as [->|Hb]; [done|by apply Hl].
Qed.

(** Conversely, the last occurrence of a key gives its entry. *)
Lemma index_from_last i pre a post m :
  (forall b, b ∈ post -> key b <> key a) ->
  index_from i (pre ++ a :: post) m !! key a = Some (val (i + length pre) a).
Proof.
  intros Hpost. rewrite index_from_app. cbn.
  rewrite index_from_lookup_notin by done. apply lookup_insert_eq.
Qed.

(** An entry written before a later occurrence of its key is overwritten
    by it. *)
Lemma index_from_shadow i l m k v v' :
  (exists a, a ∈ l /\ key a = k) ->
  index_from i l (<[k:=v]> m) = index_from i l (<[k:=v']> m).
Proof.
  revert i m. induction l as [|a l IH]; intros i m (b & Hb & Hk); [by apply elem_of_nil in Hb|]. cbn.
  destruct (decide (key a = k)) as [<-|Hne].
  - by rewrite !insert_insert_eq.
  - apply elem_of_cons in Hb as [->|Hb]; [done|].
    rewrite !(insert_insert_ne _ (key a) k) by done. apply IH. eauto.
Qed.

(** Replacing an element that a later one of the same key shadows does
    not change the index. *)
Lemma index_from_insert_shadowed n l m i j x a b :
  l !! i = Some a -> l !! j = Some b -> i < j -> key x = key a -> key b = key a ->
  index_from n (<[i:=x]> l) m = index_from n l m.
Proof.
  intros Ha Hb Hij Hx Hba.
  destruct (list_elem_of_split_length l i a Ha) as (pre & rest & -> & ->).
  rewrite insert_app_r_alt, Nat.sub_diag by lia. cbn.
  rewrite !index_from_app. cbn. rewrite Hx. apply index_from_shadow.
  exists b. split; [|done].
  rewrite lookup_app_r in Hb by lia. destruct (j - length pre) as [|j'] eqn:E; [lia|].
  cbn in Hb. by eapply list_elem_of_lookup_2.
Qed.

Lemma index_from_lookup_None i l m k :
  index_from i l m !! k = None -> (forall a, a ∈ l -> key a <> k) /\ m !! k = None.
Proof.
  revert i m. induction l as [|a l IH]; intros i m Hk; cbn in Hk.
  - split; [intros b Hb; inversion Hb|done].
  - destruct (IH _ _ Hk) as [Hl Hm].
    destruct (decide (key a = k)) as [<-|Hne]; [by rewrite lookup_insert_eq in Hm|].
    rewrite lookup_insert_ne in Hm by done. split; [|done].
    intros b Hb. apply elem_of_cons in Hb as [->|Hb]; [done|by apply Hl].
Qed.
End IndexFrom.
