(* ===== verification/Sheets.v ===== *)
(** * Sheets: the remote spreadsheet store and the process state

    The repository talks to Google Sheets through gspread.  That library is
    not part of the repository, so the remote operations below are modelled
    from the external-interface section of the specification (what gspread
    and the Sheets API do), not from source: [open_by_key], [worksheets],
    [add_worksheet], [get_all_values], [update], [update_cell],
    [append_row], [clear].  A workbook is a list of worksheets, a worksheet
    a grid of string cells.

    The process state [World] gathers the remote books, the environment
    (fault schedule, clock, sleep log, request log, configuration) and the
    four process-wide caches of [src/gsheets_io.py]: the client handle of
    [get_client], the spreadsheets of [open_spreadsheet], the worksheet maps
    of [list_worksheets_map] (all three [st.cache_resource]) and the
    snapshots of [read_sheet_to_df] ([st.cache_data(ttl=60)]). *)

From Stdlib Require Import Ascii String ZArith.
From stdpp Require Import base gmap strings list.
From S2P Require Import Prelude.


(** ** Exceptions raised by the code and by the libraries it calls *)

Inductive Exn :=
| APIError (code : option Z) (text : string)
    (** [gspread.exceptions.APIError]: [code] is [e.response.status_code]
        ([None] when reading it raises); [text] is [str(e)]. *)
| RuntimeError (msg : string)
| KeyError (key : string)
| IndexError
| TypeError (msg : string)
| ReError (pattern : string)
    (** [re.error]: a search term that is not a regular expression. *)
| DuplicateElementKey (key : string)
    (** [StreamlitDuplicateElementKey]: a second widget with the same
        [key=] in one run of the script. *).

#[export] Instance Exn_eq_dec : EqDecision Exn.
Proof. solve_decision. Defined.

Definition not_found : Exn := APIError (Some 404%Z) "Requested entity was not found.".
Definition sheet_exists (title : string) : Exn :=
  APIError (Some 400%Z) ("Invalid requests[0].addSheet: A sheet with the name " +:+ title +:+ " already exists.").

(** ** Remote data *)

Abbreviation Grid := (list (list string)).

Record Sheet := mkSheet {
  sh_id : nat; sh_title : string; sh_rows : nat; sh_cols : nat; sh_cells : Grid }.

Record Book := mkBook { bk_sheets : list Sheet; bk_next : nat }.

(** Handles returned by gspread. *)
Record Spreadsheet := mkSpreadsheet { sp_key : string }.
Record Worksheet := mkWorksheet { ws_key : string; ws_id : nat; ws_title : string }.

#[export] Instance Spreadsheet_eq_dec : EqDecision Spreadsheet.
Proof. solve_decision. Defined.
#[export] Instance Worksheet_eq_dec : EqDecision Worksheet.
Proof. solve_decision. Defined.

Abbreviation Books := (gmap string Book).

(** ** Grids *)

Definition max_width (g : Grid) : nat := foldr (fun r n => Nat.max (length r) n) 0 g.

(** gspread's [fill_gaps]: every row padded with "" to the widest row. *)
Definition fill_gaps (g : Grid) : Grid :=
  map (fun r => r ++ replicate (max_width g - length r) "") g.

(** The Sheets API returns a range without its trailing empty cells and
    trailing empty rows. *)
Fixpoint rtrim_row (r : list string) : list string :=
  match r with
  | [] => []
  | c :: r' =>
      match rtrim_row r' with
      | [] => if String.eqb c "" then [] else [c]
      | r'' => c :: r''
      end
  end.

Fixpoint trim_rows (g : Grid) : Grid :=
  match g with
  | [] => []
  | r :: g' =>
      match trim_rows g' with
      | [] => match rtrim_row r with [] => [] | r' => [r'] end
      | g'' => rtrim_row r :: g''
      end
  end.

(** [ws.update('A1', vals)]: the block [vals] overwrites the grid from the
    top-left corner; cells outside the block keep their values. *)
Fixpoint write_block (g vals : Grid) : Grid :=
  match vals, g with
  | [], _ => g
  | v :: vs, [] => v :: write_block [] vs
  | v :: vs, r :: rs => (v ++ drop (length v) r) :: write_block rs vs
  end.

(** [ws.update_cell(r, c, v)], 1-based, growing the grid with blanks. *)
Definition set_cell (g : Grid) (r c : nat) (v : string) : Grid :=
  set_pad [] g (r - 1) (set_pad "" (default [] (g !! (r - 1))) (c - 1) v).

(** ** Remote operations on the books *)

Definition handle_of (key : string) (s : Sheet) : Worksheet :=
  mkWorksheet key (sh_id s) (sh_title s).

Definition find_sheet (id : nat) (b : Book) : option Sheet :=
  find (fun s => Nat.eqb (sh_id s) id) (bk_sheets b).

Definition open_by_key (key : string) (bs : Books) : result Exn Spreadsheet :=
  match bs !! key with
  | Some _ => Ok (mkSpreadsheet key)
  | None => Err not_found
  end.

Definition worksheets (sp : Spreadsheet) (bs : Books) : result Exn (list Worksheet) :=
  match bs !! sp_key sp with
  | Some b => Ok (map (handle_of (sp_key sp)) (bk_sheets b))
  | None => Err not_found
  end.

Definition has_title (title : string) (b : Book) : bool :=
  existsb (fun s => String.eqb (sh_title s) title) (bk_sheets b).

Definition add_worksheet (sp : Spreadsheet) (title : string) (rows cols : nat) (bs : Books)
  : result Exn (Worksheet * Books) :=
  match bs !! sp_key sp with
  | None => Err not_found
  | Some b =>
      if has_title title b then Err (sheet_exists title)
      else let s := mkSheet (bk_next b) title rows cols [] in
           Ok (handle_of (sp_key sp) s,
               <[sp_key sp := mkBook (bk_sheets b ++ [s]) (S (bk_next b))]> bs)
  end.

Definition sheet_of (ws : Worksheet) (bs : Books) : result Exn Sheet :=
  match bs !! ws_key ws with
  | Some b => match find_sheet (ws_id ws) b with
              | Some s => Ok s
              | None => Err not_found
              end
  | None => Err not_found
  end.

Definition with_cells (s : Sheet) (g : Grid) : Sheet :=
  mkSheet (sh_id s) (sh_title s) (sh_rows s) (sh_cols s) g.

(** Apply [f] to the cells of the worksheet [ws]. *)
Definition modify_cells (ws : Worksheet) (f : Grid -> Grid) (bs : Books) : result Exn Books :=
  match bs !! ws_key ws with
  | Some b =>
      match find_sheet (ws_id ws) b with
      | Some _ =>
          Ok (<[ws_key ws := mkBook
                  (map (fun s => if Nat.eqb (sh_id s) (ws_id ws)
                                 then with_cells s (f (sh_cells s)) else s) (bk_sheets b))
                  (bk_next b)]> bs)
      | None => Err not_found
      end
  | None => Err not_found
  end.

Definition get_all_values (ws : Worksheet) (bs : Books) : result Exn Grid :=
  match sheet_of ws bs with
  | Ok s => Ok (fill_gaps (trim_rows (sh_cells s)))
  | Err e => Err e
  end.

Definition update_A1 (ws : Worksheet) (vals : Grid) : Books -> result Exn Books :=
  modify_cells ws (fun g => write_block g vals).

Definition update_cell (ws : Worksheet) (r c : nat) (v : string) : Books -> result Exn Books :=
  modify_cells ws (fun g => set_cell g r c v).

Definition append_row (ws : Worksheet) (row : list string) : Books -> result Exn Books :=
  modify_cells ws (fun g => trim_rows g ++ [row]).

Definition clear (ws : Worksheet) : Books -> result Exn Books :=
  modify_cells ws (fun _ => []).

(** ** Requests, as logged *)

Inductive Call :=
| CallOpen (key : string)
| CallWorksheets (key : string)
| CallAddWorksheet (key title : string)
| CallGetAll (ws : Worksheet)
| CallUpdate (ws : Worksheet) (range : string)
| CallUpdateCell (ws : Worksheet) (r c : nat)
| CallAppend (ws : Worksheet)
| CallClear (ws : Worksheet).

#[export] Instance Call_eq_dec : EqDecision Call.
Proof. solve_decision. Defined.

(** ** Configuration, credentials and data frames *)

Record Config := mkConfig {
  cfg_secret : option (gmap string string);  (** [st.secrets["gcp_service_account"]] *)
  cfg_env_cred : option string;             (** [GOOGLE_APPLICATION_CREDENTIALS] *)
  cfg_files : list string }.                (** paths for which [os.path.exists] holds *)

Inductive Credentials :=
| FromInfo (svc : gmap string string)
| FromFile (path : string).

Record Client := mkClient { cl_creds : Credentials }.

(** A [pd.DataFrame] of strings: column labels and rows. *)
Record Frame := mkFrame { columns : list string; data : Grid }.

(** [df.empty]: some axis has length zero. *)
Definition frame_empty (f : Frame) : bool :=
  match columns f, data f with
  | [], _ | _, [] => true
  | _, _ => false
  end.

(** ** The process state *)

Record World := mkWorld {
  w_books : Books;
  w_faults : list (option Exn);  (** outcome forced on the next remote attempts *)
  w_clock : Z;                   (** [time.time()], in milliseconds *)
  w_sleeps : list Z;             (** every [time.sleep] so far, in milliseconds *)
  w_log : list Call;             (** every remote request so far *)
  w_config : Config;
  w_client : option Client;
  w_opened : gmap string Spreadsheet;
  w_wsmaps : gmap string (gmap string Worksheet);
  w_data : gmap (string * string) (Frame * Z) }.

Definition set_books (bs : Books) (w : World) : World :=
  mkWorld bs (w_faults w) (w_clock w) (w_sleeps w) (w_log w) (w_config w)
    (w_client w) (w_opened w) (w_wsmaps w) (w_data w).
Definition set_faults (fs : list (option Exn)) (w : World) : World :=
  mkWorld (w_books w) fs (w_clock w) (w_sleeps w) (w_log w) (w_config w)
    (w_client w) (w_opened w) (w_wsmaps w) (w_data w).
Definition log_call (c : Call) (w : World) : World :=
  mkWorld (w_books w) (w_faults w) (w_clock w) (w_sleeps w) (w_log w ++ [c]) (w_config w)
    (w_client w) (w_opened w) (w_wsmaps w) (w_data w).
Definition slept (d : Z) (w : World) : World :=
  mkWorld (w_books w) (w_faults w) (w_clock w + d) (w_sleeps w ++ [d]) (w_log w) (w_config w)
    (w_client w) (w_opened w) (w_wsmaps w) (w_data w).
Definition set_client (c : option Client) (w : World) : World :=
  mkWorld (w_books w) (w_faults w) (w_clock w) (w_sleeps w) (w_log w) (w_config w)
    c (w_opened w) (w_wsmaps w) (w_data w).
Definition set_opened (o : gmap string Spreadsheet) (w : World) : World :=
  mkWorld (w_books w) (w_faults w) (w_clock w) (w_sleeps w) (w_log w) (w_config w)
    (w_client w) o (w_wsmaps w) (w_data w).
Definition set_wsmaps (m : gmap string (gmap string Worksheet)) (w : World) : World :=
  mkWorld (w_books w) (w_faults w) (w_clock w) (w_sleeps w) (w_log w) (w_config w)
    (w_client w) (w_opened w) m (w_data w).
Definition set_data (d : gmap (string * string) (Frame * Z)) (w : World) : World :=
  mkWorld (w_books w) (w_faults w) (w_clock w) (w_sleeps w) (w_log w) (w_config w)
    (w_client w) (w_opened w) (w_wsmaps w) d.

Abbreviation M := (ST World Exn).

(** [time.sleep(d / 1000)] *)
Definition sleep (d : Z) : M unit := st_modify (slept d).

(** One remote request: it is logged, then the fault schedule decides
    whether the network fails it ([Some e]) or the service performs
    [body] ([None], or an exhausted schedule). *)
Definition attempt {A} (c : Call) (body : M A) : M A := fun w =>
  let w1 := log_call c w in
  match w_faults w1 with
  | Some e :: fs => (Err e, set_faults fs w1)
  | None :: fs => body (set_faults fs w1)
  | [] => body w1
  end.

(** The service's side of a request: a function of the books. *)
Definition on_books {A} (f : Books -> result Exn (A * Books)) : M A := fun w =>
  match f (w_books w) with
  | Ok (a, bs) => (Ok a, set_books bs w)
  | Err e => (Err e, w)
  end.

Definition reading {A} (f : Books -> result Exn A) (bs : Books) : result Exn (A * Books) :=
  match f bs with Ok a => Ok (a, bs) | Err e => Err e end.

Definition writing (f : Books -> result Exn Books) (bs : Books) : result Exn (unit * Books) :=
  match f bs with Ok bs' => Ok (tt, bs') | Err e => Err e end.

(** ** Relations between states *)

(** The snapshot cache is untouched. *)
Definition same_data (w w' : World) : Prop := w_data w' = w_data w.

#[export] Instance same_data_preorder : PreOrder same_data.
Proof. split; [intros w; done | intros w1 w2 w3 H12 H23; unfold same_data in *; congruence]. Qed.

(** What the remote-request machinery changes (books, fault schedule,
    request log, clock and sleeps) never breaks [R]. *)
Class RemoteStable (R : World -> World -> Prop) : Prop := {
  rs_preorder :: PreOrder R;
  rs_books bs w : R w (set_books bs w);
  rs_faults fs w : R w (set_faults fs w);
  rs_log c w : R w (log_call c w);
  rs_slept d w : R w (slept d w) }.

#[export] Instance same_data_stable : RemoteStable same_data.
Proof. split; [apply _| done..]. Qed.

Section Stable.
Context (R : World -> World -> Prop) `{!RemoteStable R}.

Lemma keeps_attempt {A} c (body : M A) : keeps R body -> keeps R (attempt c body).
Proof.
  intros Hb w r w'. unfold attempt.
  destruct (w_faults (log_call c w)) as [|[e|] fs].
  - intros H. transitivity (log_call c w); [apply rs_log|exact (Hb _ _ _ H)].
  - intros [= _ <-]. transitivity (log_call c w); [apply rs_log|apply rs_faults].
  - intros H. transitivity (log_call c w); [apply rs_log|].
    transitivity (set_faults fs (log_call c w)); [apply rs_faults|exact (Hb _ _ _ H)].
Qed.

Lemma keeps_on_books {A} (f : Books -> result Exn (A * Books)) : keeps R (on_books f).
Proof.
  intros w r w'. unfold on_books.
  destruct (f (w_books w)) as [[a bs]|e]; intros [= _ <-]; [apply rs_books|reflexivity].
Qed.

Lemma keeps_sleep d : keeps R (sleep d).
Proof. apply keeps_modify. apply rs_slept. Qed.
End Stable.

#[export] Hint Resolve keeps_attempt keeps_on_books keeps_sleep : gsheets.

(** ** Grid lemmas *)

(** A row the service returns unchanged: its last cell is not blank. *)
Definition row_ok (r : list string) : Prop := exists c, last r = Some c /\ c <> "".

Lemma rtrim_row_ok r : row_ok r -> rtrim_row r = r.
Proof.
  induction r as [|c r IH]; [by intros (? & ? & _)|].
  intros (c' & Hl & Hc). cbn.
  destruct r as [|c2 r].
  - cbn in Hl. injection Hl as <-. cbn. by destruct (String.eqb_spec c "").
  - rewrite IH by (exists c'; split; [exact Hl|exact Hc]). done.
Qed.

Lemma trim_rows_ok g : Forall row_ok g -> trim_rows g = g.
Proof.
  induction g as [|r g IH]; intros Hg; [done|].
  apply Forall_cons in Hg as [Hr Hg]. cbn. rewrite IH, rtrim_row_ok by done.
  destruct g; [|done]. destruct r; [by destruct Hr as (? & ? & _)|done].
Qed.

Lemma max_width_uniform g n : g <> [] -> Forall (fun r => length r = n) g -> max_width g = n.
Proof.
  induction g as [|r g IH]; intros Hne Hg; [done|].
  apply Forall_cons in Hg as [Hr Hg].
  destruct g as [|r' g']; [cbn; lia|].
  change (Nat.max (length r) (max_width (r' :: g')) = n). rewrite IH by done. lia.
Qed.

Lemma fill_gaps_uniform g n : Forall (fun r => length r = n) g -> fill_gaps g = g.
Proof.
  intros Hg. destruct g as [|r g']; [done|].
  unfold fill_gaps. rewrite (max_width_uniform _ n) by done.
  rewrite <- (map_id (r :: g')) at 2. apply map_ext_Forall.
  eapply Forall_impl; [exact Hg|]. intros x Hx. cbn. rewrite Hx, Nat.sub_diag. apply app_nil_r.
Qed.

Lemma write_block_nil vals : write_block [] vals = vals.
Proof. induction vals as [|v vs IH]; cbn; [done|]. by rewrite IH. Qed.

Lemma find_sheet_map id f b :
  (forall s, sh_id (f s) = sh_id s) ->
  find (fun s => Nat.eqb (sh_id s) id) (map (fun s => if Nat.eqb (sh_id s) id then f s else s) b) =
  option_map f (find (fun s => Nat.eqb (sh_id s) id) b).
Proof.
  intros Hid. induction b as [|s b IH]; [done|]. cbn.
  destruct (Nat.eqb (sh_id s) id) eqn:He; cbn; [by rewrite Hid, He|]. by rewrite He.
Qed.

(** Writing the cells of a worksheet that exists succeeds, and the
    worksheet then holds the new cells. *)
Lemma modify_cells_sheet ws f bs s :
  sheet_of ws bs = Ok s ->
  exists bs', modify_cells ws f bs = Ok bs' /\ sheet_of ws bs' = Ok (with_cells s (f (sh_cells s))).
Proof.
  unfold sheet_of, modify_cells, find_sheet.
  destruct (bs !! ws_key ws) as [b|] eqn:Hb; [|discriminate].
  destruct (find _ (bk_sheets b)) as [s0|] eqn:Hf; [|discriminate]. intros [= ->].
  eexists; split; [reflexivity|]. rewrite lookup_insert_eq. cbn.
  rewrite find_sheet_map by done. by rewrite Hf.
Qed.

Lemma sheet_of_with_cells ws f bs bs' s :
  sheet_of ws bs = Ok s -> modify_cells ws f bs = Ok bs' ->
  sheet_of ws bs' = Ok (with_cells s (f (sh_cells s))).
Proof.
  intros Hs Hm. destruct (modify_cells_sheet ws f bs s Hs) as (bs'' & Hm' & Hs').
  congruence.
Qed.

Lemma find_sheet_map_other id id' f b :
  id' <> id -> (forall s, sh_id (f s) = sh_id s) ->
  find (fun s => Nat.eqb (sh_id s) id') (map (fun s => if Nat.eqb (sh_id s) id then f s else s) b) =
  find (fun s => Nat.eqb (sh_id s) id') b.
Proof.
  intros Hne Hid. induction b as [|s b IH]; [done|]. cbn.
  destruct (Nat.eqb (sh_id s) id) eqn:He; cbn; [|by rewrite IH].
  apply Nat.eqb_eq in He. rewrite Hid, He, IH. by rewrite (proj2 (Nat.eqb_neq id id')) by congruence.
Qed.

(** Writing one worksheet leaves every other worksheet as it was. *)
Lemma modify_cells_other ws ws' f bs bs' :
  modify_cells ws f bs = Ok bs' -> (ws_key ws' <> ws_key ws \/ ws_id ws' <> ws_id ws) ->
  sheet_of ws' bs' = sheet_of ws' bs.
Proof.
  unfold modify_cells, sheet_of.
  destruct (bs !! ws_key ws) as [b|] eqn:Hb; [|discriminate].
  destruct (find_sheet (ws_id ws) b); [|discriminate]. intros [= <-] Hne.
  destruct (decide (ws_key ws' = ws_key ws)) as [Hk|Hk].
  - rewrite Hk, lookup_insert_eq, Hb. destruct Hne as [|Hid]; [done|].
    unfold find_sheet. cbn. by rewrite find_sheet_map_other.
  - by rewrite lookup_insert_ne by congruence.
Qed.
