(* ===== verification/Retry.v ===== *)
(** * Retry: [_need_retry], [with_retry] and the [safe_*] wrappers

    [with_retry] (src/gsheets_io.py, lines 72-86) is a loop of at most five
    attempts; a failure classified transient by [_need_retry] (lines 62-70)
    sleeps [delay] and doubles it, any other failure is re-raised, and
    running out of attempts re-raises the last failure.  The loop is
    modelled as [retry_loop] by structural recursion on the attempts left.

    [retry_plan] is a reference description of the same loop as a pure
    function of the fault schedule; [with_retry_plan] proves that the loop
    computes it, and the bounds and scenarios of the specification are
    corollaries about [retry_plan]. *)

From Stdlib Require Import Ascii String ZArith.
From stdpp Require Import base gmap strings list.
From S2P Require Import Prelude Sheets.

(** ** The classification predicate *)

Definition transient_codes : list Z := [429; 500; 503]%Z.

Definition need_retry (e : Exn) : bool :=
  match e with
  | APIError code text =>
      match code with
      | Some c => bool_decide (c ∈ transient_codes)
      | None => false
      end
      || contains "Quota exceeded" text || contains "rateLimitExceeded" text
  | _ => false
  end.

(** ** The loop *)

(** [raise last] with [last] still [None] would be a [TypeError]. *)
Definition reraise (last : option Exn) : Exn :=
  match last with
  | Some e => e
  | None => TypeError "exceptions must derive from BaseException"
  end.

Fixpoint retry_loop {A} (n : nat) (delay : Z) (last : option Exn) (func : M A) : M A :=
  match n with
  | O => st_raise (reraise last)
  | S n' =>
      st_catch func (fun e =>
        if need_retry e then
          (let! _ := sleep delay in retry_loop n' (delay * 2) (Some e) func)%st
        else st_raise e)
  end.

(** [delay = 1.0] second, kept in milliseconds. *)
Definition with_retry {A} (func : M A) : M A := retry_loop 5 1000%Z None func.

(** ** The wrappers: one remote request each, retried *)

Definition safe_update (ws : Worksheet) (vals : Grid) : M unit :=
  with_retry (attempt (CallUpdate ws "A1") (on_books (writing (update_A1 ws vals)))).

Definition safe_clear (ws : Worksheet) : M unit :=
  with_retry (attempt (CallClear ws) (on_books (writing (clear ws)))).

Definition safe_get_all_values (ws : Worksheet) : M Grid :=
  with_retry (attempt (CallGetAll ws) (on_books (reading (get_all_values ws)))).

Definition safe_append_row (ws : Worksheet) (row : list string) : M unit :=
  with_retry (attempt (CallAppend ws) (on_books (writing (append_row ws row)))).

Definition safe_update_cell (ws : Worksheet) (r c : nat) (v : string) : M unit :=
  with_retry (attempt (CallUpdateCell ws r c) (on_books (writing (update_cell ws r c v)))).

(** ** Frame conditions *)

Section Frames.
Context (R : World -> World -> Prop) `{!RemoteStable R}.
#[local] Instance frames_preorder : PreOrder R := rs_preorder.

Lemma keeps_retry_loop {A} n delay last (func : M A) :
  keeps R func -> keeps R (retry_loop n delay last func).
Proof.
  intros Hf. revert delay last. induction n; intros delay last; cbn;
    keeps_auto; eauto with gsheets.
Qed.

Lemma keeps_with_retry {A} (func : M A) : keeps R func -> keeps R (with_retry func).
Proof. apply keeps_retry_loop. Qed.

Lemma keeps_safe_update ws vals : keeps R (safe_update ws vals).
Proof. apply keeps_with_retry, keeps_attempt, keeps_on_books; apply _. Qed.
Lemma keeps_safe_clear ws : keeps R (safe_clear ws).
Proof. apply keeps_with_retry, keeps_attempt, keeps_on_books; apply _. Qed.
Lemma keeps_safe_get_all_values ws : keeps R (safe_get_all_values ws).
Proof. apply keeps_with_retry, keeps_attempt, keeps_on_books; apply _. Qed.
Lemma keeps_safe_append_row ws row : keeps R (safe_append_row ws row).
Proof. apply keeps_with_retry, keeps_attempt, keeps_on_books; apply _. Qed.
Lemma keeps_safe_update_cell ws r c v : keeps R (safe_update_cell ws r c v).
Proof. apply keeps_with_retry, keeps_attempt, keeps_on_books; apply _. Qed.
End Frames.

#[export] Hint Resolve keeps_safe_update keeps_safe_clear keeps_safe_get_all_values
  keeps_safe_append_row keeps_safe_update_cell : gsheets.

(** ** The reference: what the loop does with a fault schedule *)

Record Plan := mkPlan {
  p_error : option Exn;    (** [Some e]: the loop raises [e]; [None]: the request is served *)
  p_attempts : nat;        (** requests issued *)
  p_sleeps : list Z }.     (** delays slept, in order *)

Fixpoint retry_plan (n : nat) (delay : Z) (last : option Exn) (fs : list (option Exn)) : Plan :=
  match n with
  | O => mkPlan (Some (reraise last)) 0 []
  | S n' =>
      match fs with
      | Some e :: fs' =>
          if need_retry e then
            let p := retry_plan n' (delay * 2) (Some e) fs' in
            mkPlan (p_error p) (S (p_attempts p)) (delay :: p_sleeps p)
          else mkPlan (Some e) 1 []
      | _ => mkPlan None 1 []
      end
  end.

Definition zsum (l : list Z) : Z := foldr Z.add 0%Z l.

(** The state once the plan has run: faults consumed, requests logged,
    time slept. *)
Definition settle (c : Call) (p : Plan) (w : World) : World :=
  mkWorld (w_books w) (drop (p_attempts p) (w_faults w)) (w_clock w + zsum (p_sleeps p))
    (w_sleeps w ++ p_sleeps p) (w_log w ++ replicate (p_attempts p) c) (w_config w)
    (w_client w) (w_opened w) (w_wsmaps w) (w_data w).

Definition run_plan {A} (c : Call) (body : M A) (p : Plan) : M A := fun w =>
  match p_error p with
  | Some e => (Err e, settle c p w)
  | None => body (settle c p w)
  end.

(** The delays of [n] transient failures in a row. *)
Fixpoint backoff (n : nat) (delay : Z) : list Z :=
  match n with
  | O => []
  | S n' => delay :: backoff n' (delay * 2)
  end.

(** A request body whose own failures are never transient. *)
Definition fatal_body {A} (body : M A) : Prop :=
  forall w e w', body w = (Err e, w') -> need_retry e = false.

(** ** Bookkeeping lemmas *)

Lemma settle_one c x w :
  settle c (mkPlan x 1 []) w = set_faults (drop 1 (w_faults w)) (log_call c w).
Proof.
  destruct w; unfold settle, set_faults, log_call; cbn.
  by rewrite Z.add_0_r, app_nil_r.
Qed.

Lemma settle_step c x a d ds w :
  settle c (mkPlan x (S a) (d :: ds)) w =
  settle c (mkPlan x a ds) (slept d (set_faults (drop 1 (w_faults w)) (log_call c w))).
Proof.
  destruct w; unfold settle, slept, set_faults, log_call; cbn.
  rewrite drop_drop, Z.add_assoc, <- !app_assoc. done.
Qed.

Lemma set_faults_same fs w : w_faults w = fs -> set_faults fs w = w.
Proof. destruct w; cbn; intros ->; reflexivity. Qed.

Lemma catch_fatal {A} (m : M A) (h : Exn -> M A) w :
  (forall e w', m w = (Err e, w') -> need_retry e = false) ->
  st_catch m (fun e => if need_retry e then h e else st_raise e) w = m w.
Proof.
  intros Hf. unfold st_catch.
  destruct (m w) as [[a|e] w'] eqn:Hb; [done|].
  rewrite (Hf _ _ eq_refl). reflexivity.
Qed.

(** A served request: the attempt runs the body. *)
Lemma attempt_served {A} c (body : M A) w :
  (w_faults w = [] \/ exists fs, w_faults w = None :: fs) ->
  attempt c body w = body (settle c (mkPlan None 1 []) w).
Proof.
  intros [Hf|[fs Hf]]; unfold attempt; rewrite settle_one; cbn; rewrite Hf; cbn;
    [by rewrite set_faults_same | done].
Qed.

(** ** The loop computes the plan *)

Section Loop.
Context {A : Type} (c : Call) (body : M A) (Hfatal : fatal_body body).

Lemma retry_loop_plan n delay last w :
  retry_loop n delay last (attempt c body) w =
  run_plan c body (retry_plan n delay last (w_faults w)) w.
Proof.
  revert delay last w. induction n as [|n IH]; intros delay last w.
  - unfold run_plan, settle. cbn. destruct w; cbn.
    by rewrite Z.add_0_r, !app_nil_r.
  - cbn [retry_loop retry_plan].
    destruct (w_faults w) as [|[e|] fs] eqn:Hfs.
    + rewrite catch_fatal, attempt_served by (try rewrite attempt_served; eauto).
      done.
    + unfold st_catch at 1, attempt at 1. cbn. rewrite Hfs.
      destruct (need_retry e) eqn:He.
      * st_unfold. unfold sleep, st_modify. rewrite IH.
        unfold run_plan. rewrite settle_step, Hfs. cbn. done.
      * unfold run_plan; cbn. by rewrite settle_one, Hfs.
    + rewrite catch_fatal, attempt_served by (try rewrite attempt_served; eauto).
      done.
Qed.
End Loop.

(** ** Properties of the plan *)

Definition last_or (l : option Exn) (es : list Exn) : option Exn :=
  foldl (fun _ e => Some e) l es.

Lemma retry_plan_attempts n d l fs : p_attempts (retry_plan n d l fs) <= n.
Proof.
  revert d l fs. induction n as [|n IH]; intros d l fs; cbn; [lia|].
  destruct fs as [|[e|] fs]; cbn; try lia.
  destruct (need_retry e); cbn; [specialize (IH (d * 2)%Z (Some e) fs)|]; lia.
Qed.

Lemma retry_plan_sleeps n d l fs : p_sleeps (retry_plan n d l fs) `prefix_of` backoff n d.
Proof.
  revert d l fs. induction n as [|n IH]; intros d l fs; cbn; [done|].
  destruct fs as [|[e|] fs]; cbn; try apply prefix_nil.
  destruct (need_retry e); cbn; [apply prefix_cons, IH | apply prefix_nil].
Qed.

Lemma retry_plan_recovers n d l es fs :
  length es < n -> Forall (fun e => need_retry e = true) es ->
  retry_plan n d l (map Some es ++ None :: fs) = mkPlan None (S (length es)) (backoff (length es) d).
Proof.
  revert n d l. induction es as [|e es IH]; intros n d l Hlen Hall;
    destruct n as [|n]; cbn in *; try lia; [done|].
  apply Forall_cons in Hall as [He Hall]. rewrite He.
  rewrite IH by (done || lia). done.
Qed.

Lemma retry_plan_exhausted d l es fs :
  Forall (fun e => need_retry e = true) es ->
  retry_plan (length es) d l (map Some es ++ fs) =
  mkPlan (Some (reraise (last_or l es))) (length es) (backoff (length es) d).
Proof.
  revert d l. induction es as [|e es IH]; intros d l Hall; cbn; [done|].
  apply Forall_cons in Hall as [He Hall]. rewrite He, IH by done. done.
Qed.

Lemma zsum_backoff_5 : zsum (backoff 5 1000) = 31000%Z.
Proof. reflexivity. Qed.

Section Exhaust.
Context {A : Type} (c : Call) (body : M A).

Lemma retry_loop_exhausted es fs d l w :
  Forall (fun e => need_retry e = true) es ->
  w_faults w = map Some es ++ fs ->
  retry_loop (length es) d l (attempt c body) w =
  (Err (reraise (last_or l es)),
   settle c (mkPlan (Some (reraise (last_or l es))) (length es) (backoff (length es) d)) w).
Proof.
  revert d l w. induction es as [|e es IH]; intros d l w Hall Hfs.
  - unfold settle; cbn. destruct w; cbn. by rewrite Z.add_0_r, !app_nil_r.
  - apply Forall_cons in Hall as [He Hall].
    cbn [length retry_loop]. unfold st_catch at 1, attempt at 1. cbn. rewrite Hfs. cbn.
    rewrite He. st_unfold. unfold sleep, st_modify.
    rewrite IH by (done || (cbn; by rewrite Hfs)).
    rewrite (settle_step c _ (length es) d), Hfs. done.
Qed.
End Exhaust.

(** ** Remote request bodies never fail transiently *)

Lemma sheet_of_err ws bs e : sheet_of ws bs = Err e -> e = not_found.
Proof. unfold sheet_of. repeat case_match; congruence. Qed.

Lemma modify_cells_err ws f bs e : modify_cells ws f bs = Err e -> e = not_found.
Proof. unfold modify_cells. repeat case_match; congruence. Qed.

Lemma need_retry_not_found : need_retry not_found = false.
Proof. reflexivity. Qed.

Lemma on_books_fatal {A} (f : Books -> result Exn (A * Books)) :
  (forall bs e, f bs = Err e -> e = not_found) -> fatal_body (on_books f).
Proof.
  intros Hf w e w'. unfold on_books.
  destruct (f (w_books w)) as [[a bs]|e'] eqn:He; [congruence|].
  intros [= -> _]. by rewrite (Hf _ _ He).
Qed.

Lemma reading_get_all_values_fatal ws : fatal_body (on_books (reading (get_all_values ws))).
Proof.
  apply on_books_fatal. intros bs e. unfold reading, get_all_values.
  destruct (sheet_of ws bs) eqn:Hs; [congruence|]. intros [= <-]. by eapply sheet_of_err.
Qed.

Lemma writing_cells_fatal ws f : fatal_body (on_books (writing (modify_cells ws f))).
Proof.
  apply on_books_fatal. intros bs e. unfold writing.
  destruct (modify_cells ws f bs) eqn:Hs; [congruence|]. intros [= <-]. by eapply modify_cells_err.
Qed.

#[export] Hint Resolve reading_get_all_values_fatal writing_cells_fatal : gsheets.

(** ** The retry policy *)

(** C8: [with_retry] is the reference loop: whatever the fault schedule,
    running a request through [with_retry] issues the attempts, sleeps the
    delays and returns the outcome that [retry_plan] computes from the
    schedule, provided the request's own failures are not transient. *)
Theorem with_retry_plan {A} (c : Call) (body : M A) (w : World) :
  fatal_body body ->
  with_retry (attempt c body) w = run_plan c body (retry_plan 5 1000 None (w_faults w)) w.
Proof. intros Hf. by apply retry_loop_plan. Qed.

(** C9: at most five attempts are made, and the delays slept are a prefix
    of the schedule 1 s, 2 s, 4 s, 8 s, 16 s (clock in milliseconds). *)
Theorem with_retry_bounded {A} (c : Call) (body : M A) (w : World) :
  fatal_body body ->
  exists p, p_attempts p <= 5 /\ p_sleeps p `prefix_of` [1000; 2000; 4000; 8000; 16000]%Z /\
            with_retry (attempt c body) w = run_plan c body p w.
Proof.
  intros Hf. exists (retry_plan 5 1000 None (w_faults w)).
  split; [apply retry_plan_attempts|]. split; [apply retry_plan_sleeps|].
  by apply retry_loop_plan.
Qed.

(** A failure classified fatal on the first attempt is raised at once:
    one request, no sleep. *)
Theorem with_retry_fatal_first {A} (c : Call) (body : M A) (w : World) e fs :
  w_faults w = Some e :: fs -> need_retry e = false ->
  with_retry (attempt c body) w = (Err e, set_faults fs (log_call c w)).
Proof.
  intros Hfs He. unfold with_retry. cbn. unfold st_catch, attempt. cbn.
  rewrite Hfs. cbn. by rewrite He.
Qed.

(** C11: after k < 5 transient failures the request is served on attempt
    k+1, having slept the first k delays of 1, 2, 4, 8 s (clock in milliseconds). *)
Theorem with_retry_recovers {A} (c : Call) (body : M A) (w : World) es fs :
  fatal_body body ->
  w_faults w = map Some es ++ None :: fs ->
  length es < 5 ->
  Forall (fun e => need_retry e = true) es ->
  with_retry (attempt c body) w =
  body (settle c (mkPlan None (S (length es)) (backoff (length es) 1000)) w).
Proof.
  intros Hf Hfs Hlen Hall. unfold with_retry; rewrite retry_loop_plan, Hfs by done.
  unfold run_plan. by rewrite retry_plan_recovers.
Qed.

(** C12: five transient failures in a row exhaust the loop: the last
    failure is raised after five requests and five sleeps, 31 s in all;
    the 16 s sleep comes after the final attempt. *)
Theorem with_retry_exhausted {A} (c : Call) (body : M A) (w : World) es fs :
  w_faults w = map Some es ++ fs ->
  length es = 5 ->
  Forall (fun e => need_retry e = true) es ->
  with_retry (attempt c body) w =
  (Err (reraise (last_or None es)),
   settle c (mkPlan (Some (reraise (last_or None es))) 5 [1000; 2000; 4000; 8000; 16000]%Z) w).
Proof.
  intros Hfs Hlen Hall. unfold with_retry.
  rewrite <- Hlen. rewrite (retry_loop_exhausted c body es fs) by done.
  by rewrite Hlen.
Qed.

(** ** Scenarios *)

Definition e503 : Exn := APIError (Some 503%Z) "APIError: [503]: The service is currently unavailable.".
Definition e403 : Exn := APIError (Some 403%Z) "APIError: [403]: The caller does not have permission".
Definition demo_ws : Worksheet := mkWorksheet "s1" 0 "ReadStatus".
Definition demo_books : Books :=
  {[ "s1" := mkBook [mkSheet 0 "ReadStatus" 2000 26 [["ItemKey"; "Read"]]] 1 ]}.
Definition demo_world (fs : list (option Exn)) : World :=
  mkWorld demo_books fs 0 [] [] (mkConfig None None []) None ∅ ∅ ∅.

Lemma with_retry_plan_witness :
  fatal_body (on_books (reading (get_all_values demo_ws))) /\
  with_retry (attempt (CallGetAll demo_ws) (on_books (reading (get_all_values demo_ws))))
    (demo_world [Some e503; None]) =
  run_plan (CallGetAll demo_ws) (on_books (reading (get_all_values demo_ws)))
    (retry_plan 5 1000 None [Some e503; None]) (demo_world [Some e503; None]).
Proof.
  split; [apply reading_get_all_values_fatal|].
  apply (with_retry_plan _ _ (demo_world _)), reading_get_all_values_fatal.
Defined.

Lemma with_retry_bounded_witness :
  fatal_body (on_books (reading (get_all_values demo_ws))) /\
  exists p, p_attempts p <= 5 /\ p_sleeps p `prefix_of` [1000; 2000; 4000; 8000; 16000]%Z /\
    with_retry (attempt (CallGetAll demo_ws) (on_books (reading (get_all_values demo_ws))))
      (demo_world [Some e503; Some e503; None]) =
    run_plan (CallGetAll demo_ws) (on_books (reading (get_all_values demo_ws))) p
      (demo_world [Some e503; Some e503; None]).
Proof.
  split; [apply reading_get_all_values_fatal|].
  apply with_retry_bounded, reading_get_all_values_fatal.
Defined.

Lemma with_retry_fatal_first_witness :
  w_faults (demo_world [Some e403]) = [Some e403] /\ need_retry e403 = false /\
  safe_get_all_values demo_ws (demo_world [Some e403]) =
  (Err e403, set_faults [] (log_call (CallGetAll demo_ws) (demo_world [Some e403]))).
Proof.
  split; [reflexivity|]. split; [vm_compute; reflexivity|].
  apply with_retry_fatal_first; [reflexivity | vm_compute; reflexivity].
Defined.

(** The specification's scenario: 503 twice, then served, after sleeping
    1 s and then 2 s. *)
Lemma with_retry_recovers_witness :
  fatal_body (on_books (reading (get_all_values demo_ws))) /\
  safe_get_all_values demo_ws (demo_world [Some e503; Some e503; None]) =
  on_books (reading (get_all_values demo_ws))
    (settle (CallGetAll demo_ws) (mkPlan None 3 [1000; 2000]%Z) (demo_world [Some e503; Some e503; None])).
Proof.
  split; [apply reading_get_all_values_fatal|].
  apply (with_retry_recovers _ _ _ [e503; e503] []);
    [apply reading_get_all_values_fatal | reflexivity | cbn; lia |
     repeat constructor].
Defined.

Example recovers_scenario :
  let '(r, w) := safe_get_all_values demo_ws (demo_world [Some e503; Some e503; None]) in
  r = Ok [["ItemKey"; "Read"]] /\ w_sleeps w = [1000; 2000]%Z /\ length (w_log w) = 3.
Proof. vm_compute. auto. Qed.

Lemma with_retry_exhausted_witness :
  let es := [e503; e503; e503; e503; e503] in
  w_faults (demo_world (map Some es)) = map Some es ++ [] /\ length es = 5 /\
  Forall (fun e => need_retry e = true) es /\
  safe_get_all_values demo_ws (demo_world (map Some es)) =
  (Err e503, settle (CallGetAll demo_ws) (mkPlan (Some e503) 5 [1000; 2000; 4000; 8000; 16000]%Z)
               (demo_world (map Some es))).
Proof.
  cbv zeta. split; [reflexivity|]. split; [reflexivity|]. split; [repeat constructor|].
  apply (with_retry_exhausted _ _ _ [e503; e503; e503; e503; e503] []);
    [reflexivity | reflexivity | repeat constructor].
Defined.

(** ** Served requests *)

(** The next request is not failed by the network. *)
Definition served (w : World) : Prop :=
  w_faults w = [] \/ exists fs, w_faults w = None :: fs.

Lemma served_nil w : w_faults w = [] -> served w.
Proof. by left. Qed.

Lemma settle_faults_nil c p w : w_faults w = [] -> w_faults (settle c p w) = [].
Proof. intros H. cbn. rewrite H. apply drop_nil. Qed.

Lemma settle_served_books c w : w_books (settle c (mkPlan None 1 []) w) = w_books w.
Proof. reflexivity. Qed.

Lemma with_retry_served {A} c (body : M A) w :
  fatal_body body -> served w ->
  with_retry (attempt c body) w = body (settle c (mkPlan None 1 []) w).
Proof.
  intros Hf [Hw|[fs Hw]].
  - unfold with_retry; rewrite retry_loop_plan, Hw by done. done.
  - unfold with_retry; rewrite retry_loop_plan, Hw by done. done.
Qed.

Lemma safe_get_all_values_served ws w s :
  sheet_of ws (w_books w) = Ok s -> served w ->
  safe_get_all_values ws w =
  (Ok (fill_gaps (trim_rows (sh_cells s))), settle (CallGetAll ws) (mkPlan None 1 []) w).
Proof.
  intros Hs Hw. unfold safe_get_all_values.
  rewrite with_retry_served by auto with gsheets.
  unfold on_books, reading, get_all_values. cbn [settle w_books]. rewrite Hs.
  by destruct w.
Qed.

Lemma safe_write_served c ws f w s :
  sheet_of ws (w_books w) = Ok s -> served w ->
  exists bs', modify_cells ws f (w_books w) = Ok bs' /\
    sheet_of ws bs' = Ok (with_cells s (f (sh_cells s))) /\
    with_retry (attempt c (on_books (writing (modify_cells ws f)))) w =
    (Ok tt, set_books bs' (settle c (mkPlan None 1 []) w)).
Proof.
  intros Hs Hw. destruct (modify_cells_sheet ws f _ _ Hs) as (bs' & Hm & Hs').
  exists bs'. split; [done|]. split; [done|].
  rewrite with_retry_served by auto with gsheets.
  unfold on_books, writing. cbn [settle w_books]. by rewrite Hm.
Qed.

(** A retried request that succeeded was served once, on the books as
    they were. *)
Lemma with_retry_ok_inv {A} c (f : Books -> result Exn (A * Books)) w a w' :
  fatal_body (on_books f) ->
  with_retry (attempt c (on_books f)) w = (Ok a, w') ->
  exists p bs, f (w_books w) = Ok (a, bs) /\ w' = set_books bs (settle c p w).
Proof.
  intros Hf H. unfold with_retry in H; rewrite retry_loop_plan in H by done. unfold run_plan in H.
  destruct (p_error _); [discriminate|].
  unfold on_books in H. change (w_books (settle c ?p w)) with (w_books w) in H.
  destruct (f (w_books w)) as [[a' bs]|e] eqn:Hfb; [|discriminate].
  injection H as <- <-. eauto.
Qed.

(** A failed request leaves the books as they were: a fault stops the
    attempt before the service acts, and a failing service changes
    nothing. *)
Lemma with_retry_err_inv {A} c (f : Books -> result Exn (A * Books)) w e w' :
  fatal_body (on_books f) ->
  with_retry (attempt c (on_books f)) w = (Err e, w') -> exists p, w' = settle c p w.
Proof.
  intros Hf H. unfold with_retry in H; rewrite retry_loop_plan in H by done. unfold run_plan in H.
  destruct (p_error _); [injection H as _ <-; eauto|].
  unfold on_books in H. destruct (f _) as [[a bs]|e']; [discriminate|]. injection H as _ <-. eauto.
Qed.

Lemma safe_write_err_inv c ws f w e w' :
  with_retry (attempt c (on_books (writing (modify_cells ws f)))) w = (Err e, w') ->
  w_books w' = w_books w.
Proof. intros H. by apply with_retry_err_inv in H as [p ->]; [|apply writing_cells_fatal]. Qed.

Lemma safe_write_ok_inv c ws f w w' :
  with_retry (attempt c (on_books (writing (modify_cells ws f)))) w = (Ok tt, w') ->
  exists p bs, modify_cells ws f (w_books w) = Ok bs /\ w' = set_books bs (settle c p w).
Proof.
  intros H. apply with_retry_ok_inv in H as (p & bs & Hf & ->); [|apply writing_cells_fatal].
  exists p, bs. split; [|done]. unfold writing in Hf.
  destruct (modify_cells ws f (w_books w)); congruence.
Qed.

Lemma safe_get_all_values_ok_inv ws w vals w' :
  safe_get_all_values ws w = (Ok vals, w') ->
  exists p, get_all_values ws (w_books w) = Ok vals /\ w' = settle (CallGetAll ws) p w.
Proof.
  intros H. apply with_retry_ok_inv in H as (p & bs & Hf & ->); [|apply reading_get_all_values_fatal].
  exists p. unfold reading in Hf.
  destruct (get_all_values ws (w_books w)); [|congruence]. injection Hf as -> <-.
  split; [done|]. by destruct w.
Qed.
