(* ===== verification/ReadCache.v ===== *)
(** * ReadCache: [read_sheet_to_df] behind [st.cache_data(ttl=60)], and
      the bulk writer [write_df_to_sheet]

    [read_sheet_to_df] (src/gsheets_io.py, lines 106-117) resolves the
    worksheet, fetches all its values through the retry executor and
    builds a frame: no values give an empty frame, otherwise the first row
    is the header.  The decorator memoises the frame per
    [(sheet_id, sheet_name)] with the time it was stored; an entry younger
    than [TTL] (60 s) is served without any request.  A call that raises
    stores nothing.  Expired entries are left in the map: the clock only
    grows, so they are never served again, as in the library where they
    are dropped on access.

    [write_df_to_sheet] (lines 119-126) clears a worksheet and writes a
    frame back from A1; it does not touch the snapshot cache. *)

From Stdlib Require Import Ascii String ZArith.
From stdpp Require Import base gmap strings list.
From S2P Require Import Prelude Sheets Retry Registry.

Local Open Scope st_scope.

(** 60 seconds, in milliseconds. *)
Definition TTL : Z := 60000.

(** Lines 111-117. *)
Definition to_frame (vals : Grid) : Frame :=
  match vals with
  | [] => mkFrame [] []
  | header :: rows =>
      match rows with
      | [] => mkFrame header []
      | _ => mkFrame header rows
      end
  end.

(** The decorated function's body. *)
Definition read_sheet_uncached (sheet_id sheet_name : string) : M Frame :=
  let! ws := get_or_create_worksheet sheet_id sheet_name [] in
  let! vals := safe_get_all_values ws in
  st_ret (to_frame vals).

Definition fresh_entry (now : Z) (e : Frame * Z) : bool :=
  bool_decide (now < snd e + TTL)%Z.

(** A miss: run the body, store its frame stamped with the time. *)
Definition refresh (sheet_id sheet_name : string) : M Frame := fun w =>
  match read_sheet_uncached sheet_id sheet_name w with
  | (Ok f, w') => (Ok f, set_data (<[(sheet_id, sheet_name) := (f, w_clock w')]> (w_data w')) w')
  | r => r
  end.

(** [st.cache_data(ttl=60)] around it. *)
Definition read_sheet_to_df (sheet_id sheet_name : string) : M Frame := fun w =>
  match w_data w !! (sheet_id, sheet_name) with
  | Some e => if fresh_entry (w_clock w) e then (Ok (fst e), w) else refresh sheet_id sheet_name w
  | None => refresh sheet_id sheet_name w
  end.

(** [st.cache_data.clear()] *)
Definition cache_data_clear : M unit := st_modify (set_data ∅).

(** [df.astype(str).values.tolist()]: the cells are strings already. *)
Definition write_df_to_sheet (sheet_id sheet_name : string) (df : Frame) : M unit :=
  let! ws := get_or_create_worksheet sheet_id sheet_name (columns df) in
  let! _ := safe_clear ws in
  if frame_empty df then safe_update ws [columns df]
  else safe_update ws (columns df :: data df).

(** ** Lemmas *)

Lemma keeps_read_sheet_uncached R `{!CacheStable R} sid n : keeps R (read_sheet_uncached sid n).
Proof.
  assert (PreOrder R) by apply rs_preorder.
  unfold read_sheet_uncached. keeps_auto; eauto using keeps_get_or_create_worksheet,
    keeps_safe_get_all_values with typeclass_instances.
Qed.

Lemma keeps_write_df_to_sheet R `{!CacheStable R} sid n df : keeps R (write_df_to_sheet sid n df).
Proof.
  assert (PreOrder R) by apply rs_preorder.
  unfold write_df_to_sheet. keeps_auto; eauto using keeps_get_or_create_worksheet,
    keeps_safe_clear, keeps_safe_update with typeclass_instances.
Qed.

Lemma set_data_clock d w : w_clock (set_data d w) = w_clock w.
Proof. reflexivity. Qed.

Lemma settle_clock_one c w : w_clock (settle c (mkPlan None 1 []) w) = w_clock w.
Proof. cbn. lia. Qed.

(** With the worksheet in the cached title map and the network up, the
    body of [read_sheet_to_df] issues exactly one request. *)
Lemma read_sheet_uncached_served sid n w m ws s :
  w_wsmaps w !! sid = Some m -> m !! n = Some ws -> sheet_of ws (w_books w) = Ok s -> served w ->
  read_sheet_uncached sid n w =
  (Ok (to_frame (fill_gaps (trim_rows (sh_cells s)))), settle (CallGetAll ws) (mkPlan None 1 []) w).
Proof.
  intros Hm Hn Hs Hw. unfold read_sheet_uncached.
  rewrite (st_bind_ok _ _ _ ws w) by (by eapply get_or_create_hit).
  unfold st_bind. by rewrite (safe_get_all_values_served ws w s).
Qed.

(** A refetch of a worksheet in the cached title map, with the network up. *)
Lemma refresh_served sid n w m ws s :
  w_wsmaps w !! sid = Some m -> m !! n = Some ws -> sheet_of ws (w_books w) = Ok s -> served w ->
  let f := to_frame (fill_gaps (trim_rows (sh_cells s))) in
  refresh sid n w =
  (Ok f, set_data (<[(sid, n) := (f, w_clock w)]> (w_data w)) (settle (CallGetAll ws) (mkPlan None 1 []) w)).
Proof.
  intros Hm Hn Hs Hw f. unfold refresh.
  rewrite (read_sheet_uncached_served sid n w m ws s) by done. by rewrite settle_clock_one.
Qed.

Lemma read_sheet_fresh sid n w e :
  w_data w !! (sid, n) = Some e -> fresh_entry (w_clock w) e = true ->
  read_sheet_to_df sid n w = (Ok e.1, w).
Proof. unfold read_sheet_to_df. by intros -> ->. Qed.

Lemma read_sheet_miss sid n w :
  w_data w !! (sid, n) = None -> read_sheet_to_df sid n w = refresh sid n w.
Proof. unfold read_sheet_to_df. by intros ->. Qed.

(** ** Properties *)

(** C13: a snapshot younger than the TTL is returned as cached, with no
    request and no change of state. *)
Theorem read_sheet_hit sid n w f t :
  w_data w !! (sid, n) = Some (f, t) -> (w_clock w < t + TTL)%Z ->
  read_sheet_to_df sid n w = (Ok f, w).
Proof.
  intros He Ht. unfold read_sheet_to_df, fresh_entry. rewrite He. cbn.
  by rewrite bool_decide_eq_true_2.
Qed.

(** C14: a snapshot of age TTL or more is refetched: the call is the body
    followed by storing its frame. *)
Theorem read_sheet_expired sid n w f t :
  w_data w !! (sid, n) = Some (f, t) -> (t + TTL <= w_clock w)%Z ->
  read_sheet_to_df sid n w = refresh sid n w.
Proof.
  intros He Ht. unfold read_sheet_to_df, fresh_entry. rewrite He. cbn.
  rewrite bool_decide_eq_false_2 by lia. done.
Qed.

(** A refetch with the worksheet known and the network up issues
    exactly one [get_all_values] request and stores the fetched frame
    stamped with the current time; every read for the next 60 seconds
    that finds this entry is then served from it. *)
Theorem refresh_one_request sid n w m ws s :
  w_wsmaps w !! sid = Some m -> m !! n = Some ws -> sheet_of ws (w_books w) = Ok s -> served w ->
  let f := to_frame (fill_gaps (trim_rows (sh_cells s))) in
  exists w1,
    refresh sid n w = (Ok f, w1) /\
    w_log w1 = w_log w ++ [CallGetAll ws] /\
    w_data w1 !! (sid, n) = Some (f, w_clock w) /\
    (forall w2, w_data w2 !! (sid, n) = Some (f, w_clock w) -> (w_clock w2 < w_clock w + TTL)%Z ->
                read_sheet_to_df sid n w2 = (Ok f, w2)).
Proof.
  intros Hm Hn Hs Hw f. unfold refresh.
  rewrite (read_sheet_uncached_served sid n w m ws s) by done.
  eexists; split; [reflexivity|]. split; [reflexivity|]. split.
  - cbn [w_data set_data]. rewrite lookup_insert_eq, settle_clock_one. done.
  - intros w2 H2 Ht. apply (read_sheet_fresh _ _ _ _ H2). unfold fresh_entry. by apply bool_decide_eq_true_2.
Qed.

(** The cells [write_df_to_sheet] writes for a frame. *)
Definition frame_cells (df : Frame) : Grid :=
  if frame_empty df then [columns df] else columns df :: data df.

Lemma frame_cells_read df :
  columns df <> [] -> Forall (fun r => length r = length (columns df)) (data df) ->
  Forall row_ok (columns df :: data df) ->
  to_frame (fill_gaps (trim_rows (write_block [] (frame_cells df)))) = df.
Proof.
  intros Hc Hlen Hok. rewrite write_block_nil.
  destruct df as [cols rows]; cbn [columns data] in *.
  destruct cols as [|c cs]; [done|].
  apply Forall_cons in Hok as [Hh Hrows].
  unfold frame_cells; destruct rows as [|r rs]; cbn [frame_empty columns data].
  - rewrite (trim_rows_ok [c :: cs]) by (by constructor).
    by rewrite (fill_gaps_uniform _ (length (c :: cs))) by (by constructor).
  - rewrite trim_rows_ok by (by constructor).
    rewrite (fill_gaps_uniform _ (length (c :: cs))) by (by constructor). done.
Qed.

(** C21: writing a frame and reading the worksheet back gives the same
    frame, for a frame the service returns unchanged: a non-empty header,
    rows as wide as the header, no row ending in a blank cell. *)
Theorem write_df_roundtrip sid n df w m ws s :
  w_wsmaps w !! sid = Some m -> m !! n = Some ws -> sheet_of ws (w_books w) = Ok s ->
  w_faults w = [] ->
  columns df <> [] -> Forall (fun r => length r = length (columns df)) (data df) ->
  Forall row_ok (columns df :: data df) ->
  exists w1, write_df_to_sheet sid n df w = (Ok tt, w1) /\ fst (read_sheet_uncached sid n w1) = Ok df.
Proof.
  intros Hm Hn Hs Hf Hc Hlen Hok. unfold write_df_to_sheet.
  rewrite (st_bind_ok _ _ _ ws w) by (by eapply get_or_create_hit).
  destruct (safe_write_served (CallClear ws) ws (fun _ => []) w s Hs (served_nil _ Hf))
    as (bs1 & _ & Hs1 & Hcl).
  unfold st_bind at 1. unfold safe_clear, clear. rewrite Hcl.
  set (w1 := set_books bs1 (settle (CallClear ws) (mkPlan None 1 []) w)).
  assert (Hf1 : w_faults w1 = []) by (cbn; rewrite Hf; done).
  destruct (safe_write_served (CallUpdate ws "A1") ws (fun g => write_block g (frame_cells df))
              w1 _ Hs1 (served_nil _ Hf1)) as (bs2 & _ & Hs2 & Hup).
  replace (if frame_empty df then safe_update ws [columns df] else safe_update ws (columns df :: data df))
    with (safe_update ws (frame_cells df)) by (unfold frame_cells; by destruct (frame_empty df)).
  unfold safe_update, update_A1. rewrite Hup.
  eexists; split; [reflexivity|].
  rewrite (read_sheet_uncached_served sid n
             (set_books bs2 (settle (CallUpdate ws "A1") (mkPlan None 1 []) w1)) m ws _ Hm Hn Hs2)
    by (apply served_nil; exact (settle_faults_nil _ _ w1 Hf1)).
  cbn [fst sh_cells with_cells]. by rewrite frame_cells_read.
Qed.

(** C20: [write_df_to_sheet] leaves the snapshot cache as it was: a read of
    the same worksheet within the TTL of an earlier snapshot returns that
    snapshot, not the frame just written. *)
Theorem write_df_keeps_stale_snapshot sid n df w r w1 f t :
  w_data w !! (sid, n) = Some (f, t) -> write_df_to_sheet sid n df w = (r, w1) ->
  (w_clock w1 < t + TTL)%Z ->
  read_sheet_to_df sid n w1 = (Ok f, w1).
Proof.
  intros He Hw Ht. apply (read_sheet_fresh _ _ _ (f, t)); [|by apply bool_decide_eq_true_2].
  rewrite (keeps_write_df_to_sheet same_data _ _ _ _ _ _ Hw). exact He.
Qed.

(** ** Witnesses *)

Definition rc_books : Books :=
  {[ "s1" := mkBook [mkSheet 0 "Articles" 2000 26 [["Date"; "Title"]; ["2024-01-01"; "Intro"]];
                     mkSheet 1 "ReadStatus" 2000 26 [["ItemKey"; "Read"]]] 2 ]}.
Definition rc_map : gmap string Worksheet :=
  title_map [mkWorksheet "s1" 0 "Articles"; mkWorksheet "s1" 1 "ReadStatus"].
Definition old_frame : Frame := mkFrame ["Date"; "Title"] [].
Definition rc_world (clock : Z) : World :=
  mkWorld rc_books [] clock [] [] (mkConfig (Some ∅) None []) (Some (mkClient (FromInfo ∅)))
    {[ "s1" := mkSpreadsheet "s1" ]} {[ "s1" := rc_map ]} {[ ("s1", "Articles") := (old_frame, 0%Z) ]}.
Definition new_frame : Frame := mkFrame ["Date"; "Title"] [["2024-02-02"; "News"]].

Ltac rows_ok :=
  repeat (apply Forall_cons_2; [unfold row_ok; eexists; split; [reflexivity|discriminate]|]);
  apply Forall_nil_2.

Lemma read_sheet_hit_witness : read_sheet_to_df "s1" "Articles" (rc_world 30000) = (Ok old_frame, rc_world 30000).
Proof. apply (read_sheet_hit _ _ _ _ 0); [reflexivity | vm_compute; reflexivity]. Defined.

Lemma read_sheet_expired_witness :
  read_sheet_to_df "s1" "Articles" (rc_world 75000) = refresh "s1" "Articles" (rc_world 75000).
Proof. apply (read_sheet_expired _ _ _ old_frame 0); [reflexivity | vm_compute; discriminate]. Defined.

Lemma refresh_one_request_witness :
  let f := to_frame (fill_gaps (trim_rows [["Date"; "Title"]; ["2024-01-01"; "Intro"]])) in
  exists w1,
    refresh "s1" "Articles" (rc_world 75000) = (Ok f, w1) /\
    w_log w1 = w_log (rc_world 75000) ++ [CallGetAll (mkWorksheet "s1" 0 "Articles")] /\
    w_data w1 !! ("s1", "Articles") = Some (f, w_clock (rc_world 75000)) /\
    (forall w2, w_data w2 !! ("s1", "Articles") = Some (f, w_clock (rc_world 75000)) ->
       (w_clock w2 < w_clock (rc_world 75000) + TTL)%Z ->
       read_sheet_to_df "s1" "Articles" w2 = (Ok f, w2)).
Proof.
  apply (refresh_one_request _ _ _ rc_map _
           (mkSheet 0 "Articles" 2000 26 [["Date"; "Title"]; ["2024-01-01"; "Intro"]]));
    [vm_compute; reflexivity .. | by left].
Defined.

Lemma write_df_roundtrip_witness :
  exists w1, write_df_to_sheet "s1" "Articles" new_frame (rc_world 30000) = (Ok tt, w1) /\
             fst (read_sheet_uncached "s1" "Articles" w1) = Ok new_frame.
Proof.
  apply (write_df_roundtrip _ _ _ _ rc_map (mkWorksheet "s1" 0 "Articles")
           (mkSheet 0 "Articles" 2000 26 [["Date"; "Title"]; ["2024-01-01"; "Intro"]]));
    [vm_compute; reflexivity .. | discriminate | cbn; repeat constructor | cbn; rows_ok].
Defined.

Lemma write_df_keeps_stale_snapshot_witness :
  (w_clock (snd (write_df_to_sheet "s1" "Articles" new_frame (rc_world 30000))) < 0 + TTL)%Z /\
  read_sheet_to_df "s1" "Articles" (snd (write_df_to_sheet "s1" "Articles" new_frame (rc_world 30000))) =
  (Ok old_frame, snd (write_df_to_sheet "s1" "Articles" new_frame (rc_world 30000))).
Proof.
  split; [vm_compute; reflexivity|].
  apply (write_df_keeps_stale_snapshot _ _ new_frame (rc_world 30000)
           (fst (write_df_to_sheet "s1" "Articles" new_frame (rc_world 30000))) _ old_frame 0);
    [reflexivity | apply surjective_pairing | vm_compute; reflexivity].
Defined.
