(* ===== verification/Upsert.v ===== *)
(** * Upsert: [upsert_read_status] and the read flags the page derives

    [upsert_read_status] (src/gsheets_io.py, lines 131-147) fetches the
    status worksheet through the retry executor, bypassing the snapshot
    cache, indexes its data rows by their first cell (a later row winning),
    then either rewrites the flag cell of the indexed row or appends a new
    two-cell row, and finally clears the whole snapshot cache.

    The page (src/app.py, lines 32-41) turns the status snapshot into a
    flag per item: [status_flags] lower-cases the [Read] column, tests it
    against ["true"; "1"; "yes"], keeps the last row of each [ItemKey] and
    defaults to [false].

    The abstract specification of the status table is a finite map from
    item keys to flags, and an upsert is [insert]; [upsert_refines] proves
    that the code implements it, as seen through [status_flags], on every
    well-formed status worksheet, and [upsert_atomic] that under any
    schedule of network failures an upsert takes effect whole or leaves
    every worksheet as it was; [upserts_refine] extends the refinement to
    any sequence of upserts on a served network.  [headerless_flags_lost]
    follows the upsert on the headerless worksheet the page's first read
    creates: the first flag row is read as the header, and the second
    makes the page's read raise [KeyError]. *)

From Stdlib Require Import Ascii String ZArith.
From stdpp Require Import base gmap strings list.
From S2P Require Import Prelude Sheets Retry Registry ReadCache.

Local Open Scope st_scope.

Definition READ_STATUS : string := "ReadStatus".
Definition status_headers : list string := ["ItemKey"; "Read"].

(** ["true" if read_state else "false"] *)
Definition flag_text (b : bool) : string := if b then "true" else "false".

(** [rows = vals[1:] if len(vals) > 1 else []] *)
Definition data_rows (vals : Grid) : Grid :=
  if Nat.ltb 1 (length vals) then tail vals else [].

(** [{r[0]: i for i, r in enumerate(rows, start=2)}]: [r[0]] of an empty
    row raises [IndexError]. *)
Fixpoint index_rows (i : nat) (rows : Grid) (acc : gmap string nat) : result Exn (gmap string nat) :=
  match rows with
  | [] => Ok acc
  | [] :: _ => Err IndexError
  | (k :: _) :: rs => index_rows (S i) rs (<[k := i]> acc)
  end.

Definition build_index (rows : Grid) : result Exn (gmap string nat) := index_rows 2 rows ∅.

Definition upsert_read_status (sheet_id item_key : string) (read_state : bool) : M unit :=
  let! ws := get_or_create_worksheet sheet_id READ_STATUS status_headers in
  let! vals := safe_get_all_values ws in
  match build_index (data_rows vals) with
  | Err e => st_raise e
  | Ok index =>
      let! _ := match index !! item_key with
                | Some row_no => safe_update_cell ws row_no 2 (flag_text read_state)
                | None => safe_append_row ws [item_key; flag_text read_state]
                end in
      cache_data_clear
  end.

(** ** The page's view of the status table (src/app.py, lines 32-41) *)

(** [.astype(str).str.lower().isin(["true", "1", "yes"])] *)
Definition parse_read (s : string) : bool :=
  bool_decide (lower s ∈ ["true"; "1"; "yes"]).

Definition column_index (cols : list string) (name : string) : option nat :=
  fst <$> list_find (fun c => c = name) cols.

(** [rs[["ItemKey", "Read"]].drop_duplicates(subset=["ItemKey"], keep="last")],
    as a map from item key to flag; an empty frame gives no flags. *)
Definition status_flags (rs : Frame) : result Exn (gmap string bool) :=
  if frame_empty rs then Ok ∅ else
  match column_index (columns rs) "ItemKey", column_index (columns rs) "Read" with
  | Some ik, Some ir =>
      Ok (index_from (fun r => nth ik r "") (fun _ r => parse_read (nth ir r "")) 0 (data rs) ∅)
  | None, _ => Err (KeyError "ItemKey")
  | _, None => Err (KeyError "Read")
  end.

(** [df.merge(rs, how="left", on="ItemKey")] then [fillna(False)]. *)
Definition item_read (flags : gmap string bool) (item_key : string) : bool :=
  default false (flags !! item_key).

(** The flags the page derives from the cells of the status worksheet. *)
Definition status_of_grid (g : Grid) : result Exn (gmap string bool) :=
  status_flags (to_frame (fill_gaps (trim_rows g))).

(** ** Well-formed status worksheets *)

(** The header written by [upsert_read_status] and data rows of two cells,
    the last one not blank. *)
Definition status_row_ok (r : list string) : Prop := length r = 2 /\ row_ok r.

Definition status_wf (g : Grid) : Prop :=
  exists rows, g = status_headers :: rows /\ Forall status_row_ok rows.

(** The abstract specification: the status table as a map. *)
Definition upsert_spec (k : string) (b : bool) (sigma : gmap string bool) : gmap string bool :=
  <[k := b]> sigma.

(** ** Lemmas *)

Definition row_key (r : list string) : string := nth 0 r "".

Definition flags_of (rows : Grid) : gmap string bool :=
  index_from row_key (fun _ r => parse_read (nth 1 r "")) 0 rows ∅.

(** The upsert's effect on the cells of the status worksheet. *)
Definition upsert_cells (g : Grid) (k : string) (b : bool) : result Exn Grid :=
  match build_index (data_rows (fill_gaps (trim_rows g))) with
  | Err e => Err e
  | Ok index =>
      Ok (match index !! k with
          | Some row_no => set_cell g row_no 2 (flag_text b)
          | None => trim_rows g ++ [[k; flag_text b]]
          end)
  end.

Lemma parse_flag_text b : parse_read (flag_text b) = b.
Proof. by destruct b. Qed.

Lemma flag_text_ok k b : status_row_ok [k; flag_text b].
Proof. split; [done|]. exists (flag_text b). split; [done|]. by destruct b. Qed.

Lemma index_rows_ok i rows acc :
  Forall (fun r => r <> []) rows ->
  index_rows i rows acc = Ok (index_from row_key (fun j _ => j) i rows acc).
Proof.
  revert i acc. induction rows as [|r rows IH]; intros i acc Hr; [done|].
  apply Forall_cons in Hr as [Hr Hrows]. destruct r as [|k r]; [done|].
  cbn. by apply IH.
Qed.

Lemma status_wf_rows g rows :
  g = status_headers :: rows -> Forall status_row_ok rows ->
  fill_gaps (trim_rows g) = g /\ data_rows g = rows /\
  status_of_grid g = Ok (flags_of rows) /\
  build_index rows = Ok (index_from row_key (fun j _ => j) 2 rows ∅).
Proof.
  intros -> Hrows.
  assert (Htrim : trim_rows (status_headers :: rows) = status_headers :: rows).
  { apply trim_rows_ok. constructor.
    - exists "Read". split; [done|discriminate].
    - eapply Forall_impl; [exact Hrows|]. by intros r [_ Hr]. }
  assert (Hfill : fill_gaps (status_headers :: rows) = status_headers :: rows).
  { apply (fill_gaps_uniform _ 2). constructor; [done|].
    eapply Forall_impl; [exact Hrows|]. by intros r [Hr _]. }
  split_and!.
  - by rewrite Htrim, Hfill.
  - unfold data_rows. destruct rows; done.
  - unfold status_of_grid. rewrite Htrim, Hfill. destruct rows as [|r rs]; done.
  - apply index_rows_ok. eapply Forall_impl; [exact Hrows|].
    intros r [Hr _] ->. discriminate.
Qed.

(** Replacing the last row of key [k] by another row of key [k] changes
    only the flag of [k]. *)
Lemma flags_of_middle pre x post k :
  row_key x = k -> (forall r, r ∈ post -> row_key r <> k) ->
  flags_of (pre ++ x :: post) =
  <[k := parse_read (nth 1 x "")]>
    (index_from row_key (fun _ r => parse_read (nth 1 r "")) (S (length pre)) post (flags_of pre)).
Proof.
  intros Hx Hpost. unfold flags_of. rewrite index_from_app. cbn. rewrite Hx.
  by rewrite index_from_insert_notin.
Qed.

Lemma flags_of_snoc rows x :
  flags_of (rows ++ [x]) = <[row_key x := parse_read (nth 1 x "")]> (flags_of rows).
Proof. unfold flags_of. by rewrite index_from_app. Qed.

Lemma set_cell_middle h pre a post k v old :
  a = [k; old] ->
  set_cell (h :: pre ++ a :: post) (2 + length pre) 2 v = h :: pre ++ [k; v] :: post.
Proof.
  intros ->. unfold set_cell. replace (2 + length pre - 1) with (S (length pre)) by lia.
  rewrite lookup_cons, list_lookup_middle by done. cbn [from_option id].
  replace (2 - 1) with 1 by lia.
  rewrite (set_pad_in_range "" [k; old] 1 v) by (cbn; lia).
  rewrite set_pad_in_range by (cbn [length]; rewrite length_app; cbn; lia).
  transitivity (<[length (h :: pre) + 0 := [k; v]]> ((h :: pre) ++ [k; old] :: post)).
  - f_equal. cbn. lia.
  - by rewrite insert_app_r.
Qed.

(** The last row of a key is determined by the rows. *)
Lemma last_occurrence_unique pre (old : string) post pre' old' post' k :
  pre ++ [k; old] :: post = pre' ++ [k; old'] :: post' ->
  (forall r, r ∈ post -> row_key r <> k) -> (forall r, r ∈ post' -> row_key r <> k) ->
  pre = pre' /\ old = old' /\ post = post'.
Proof.
  revert pre'. induction pre as [|x pre IH]; intros pre' Heq Hp Hp';
    destruct pre' as [|x' pre']; cbn in Heq.
  - injection Heq as -> ->. done.
  - injection Heq as _ Heq. exfalso. apply (Hp [k; old']); [rewrite Heq; set_solver|done].
  - injection Heq as _ Heq. exfalso. apply (Hp' [k; old]); [rewrite <- Heq; set_solver|done].
  - injection Heq as -> Heq. destruct (IH pre' Heq Hp Hp') as (-> & -> & ->). done.
Qed.

(** The two branches of the upsert on a well-formed status worksheet. *)
Lemma upsert_cells_cases rows k b :
  Forall status_row_ok rows ->
  (exists pre old post, rows = pre ++ [k; old] :: post /\
     (forall r, r ∈ post -> row_key r <> k) /\
     upsert_cells (status_headers :: rows) k b =
     Ok (status_headers :: pre ++ [k; flag_text b] :: post)) \/
  ((forall r, r ∈ rows -> row_key r <> k) /\
   upsert_cells (status_headers :: rows) k b = Ok (status_headers :: rows ++ [[k; flag_text b]])).
Proof.
  intros Hrows.
  destruct (status_wf_rows _ rows eq_refl Hrows) as (Hread & Hdata & _ & Hidx).
  unfold upsert_cells. rewrite Hread, Hdata, Hidx.
  destruct (index_from row_key (fun j _ => j) 2 rows ∅ !! k) as [p|] eqn:Hk.
  - left. destruct (index_from_lookup _ _ _ _ _ _ _ Hk)
      as [(pre & a & post & -> & Ha & Hpost & ->)|[_ He]]; [|by rewrite lookup_empty in He].
    assert (Hlen : status_row_ok a) by (eapply Forall_forall; [exact Hrows|]; set_solver).
    destruct Hlen as [Hlen _]. destruct a as [|x [|old [|]]]; cbn in Hlen; try lia.
    cbn in Ha. subst x. exists pre, old, post. split_and!; [done|done|].
    by erewrite set_cell_middle.
  - right. destruct (index_from_lookup_None _ _ _ _ _ _ Hk) as [Hnot _].
    split; [done|]. f_equal.
    rewrite trim_rows_ok; [done|]. constructor; [exists "Read"; split; [done|discriminate]|].
    eapply Forall_impl; [exact Hrows|]. by intros r [_ Hr].
Qed.

Lemma upsert_cells_refines rows k b :
  Forall status_row_ok rows ->
  exists g', upsert_cells (status_headers :: rows) k b = Ok g' /\ status_wf g' /\
             status_of_grid g' = Ok (upsert_spec k b (flags_of rows)).
Proof.
  intros Hrows.
  destruct (upsert_cells_cases rows k b Hrows) as [(pre & old & post & -> & Hpost & Hu)|[Hnot Hu]].
  - apply Forall_app in Hrows as [Hpre Hrest]. apply Forall_cons in Hrest as [_ Hpost'].
    assert (Hok : Forall status_row_ok (pre ++ [k; flag_text b] :: post)).
    { apply Forall_app; split; [done|]. constructor; [apply flag_text_ok|done]. }
    eexists; split; [exact Hu|]. split; [by eexists|].
    destruct (status_wf_rows _ _ eq_refl Hok) as (_ & _ & -> & _). f_equal.
    unfold upsert_spec. rewrite !(flags_of_middle _ _ _ k) by done.
    cbn [nth]. rewrite parse_flag_text. by rewrite insert_insert_eq.
  - assert (Hok : Forall status_row_ok (rows ++ [[k; flag_text b]])).
    { apply Forall_app; split; [done|]. constructor; [apply flag_text_ok|done]. }
    eexists; split; [exact Hu|]. split; [by eexists|].
    destruct (status_wf_rows _ _ eq_refl Hok) as (_ & _ & -> & _). f_equal.
    unfold upsert_spec. rewrite flags_of_snoc. cbn [nth]. by rewrite parse_flag_text.
Qed.

(** A successful upsert with the status worksheet in the cached title map
    writes the cells [upsert_cells] computes from the cells it read, and
    leaves the snapshot cache empty. *)
Lemma upsert_run sid k b w w' m ws s :
  w_wsmaps w !! sid = Some m -> m !! READ_STATUS = Some ws -> sheet_of ws (w_books w) = Ok s ->
  upsert_read_status sid k b w = (Ok tt, w') ->
  exists g', upsert_cells (sh_cells s) k b = Ok g' /\
             sheet_of ws (w_books w') = Ok (with_cells s g') /\ w_data w' = ∅.
Proof.
  intros Hm Hn Hs H. unfold upsert_read_status in H.
  rewrite (st_bind_ok _ _ _ ws w) in H by (by eapply get_or_create_hit).
  apply st_bind_ok_inv in H as (vals & w1 & Hget & H).
  apply safe_get_all_values_ok_inv in Hget as (p1 & Hvals & ->).
  unfold get_all_values in Hvals. rewrite Hs in Hvals. injection Hvals as <-.
  unfold upsert_cells. destruct (build_index _) as [index|e]; [|discriminate].
  apply st_bind_ok_inv in H as ([] & w2 & Hw & Hclear).
  unfold cache_data_clear, st_modify in Hclear. injection Hclear as <-.
  eexists; split; [reflexivity|]. cbn [w_data set_data]. split; [|done].
  destruct (index !! k) as [row_no|].
  - apply safe_write_ok_inv in Hw as (p2 & bs & Hbs & ->).
    exact (sheet_of_with_cells _ _ _ _ _ Hs Hbs).
  - apply safe_write_ok_inv in Hw as (p2 & bs & Hbs & ->).
    exact (sheet_of_with_cells _ _ _ _ _ Hs Hbs).
Qed.

(** The cells the write of lines 141-145 leaves, for the row the index
    gave ([None]: the key is absent). *)
Definition flag_written (cells : Grid) (k : string) (b : bool) (o : option nat) : Grid :=
  match o with
  | Some row_no => set_cell cells row_no 2 (flag_text b)
  | None => trim_rows cells ++ [[k; flag_text b]]
  end.

(** With the network up, the write of lines 141-145 succeeds with one
    request, writes [flag_written] and leaves every other worksheet alone. *)
Lemma flag_write_served ws k b o w s :
  sheet_of ws (w_books w) = Ok s -> served w ->
  exists c bs, sheet_of ws bs = Ok (with_cells s (flag_written (sh_cells s) k b o)) /\
    (forall ws', ws_key ws' <> ws_key ws \/ ws_id ws' <> ws_id ws -> sheet_of ws' bs = sheet_of ws' (w_books w)) /\
    (match o with
     | Some row_no => safe_update_cell ws row_no 2 (flag_text b)
     | None => safe_append_row ws [k; flag_text b]
     end) w = (Ok tt, set_books bs (settle c (mkPlan None 1 []) w)).
Proof.
  intros Hs Hw. destruct o as [r|].
  - destruct (safe_write_served (CallUpdateCell ws r 2) ws (fun g => set_cell g r 2 (flag_text b))
                w s Hs Hw) as (bs & Hmod & Hs' & Hrun).
    exists (CallUpdateCell ws r 2), bs. split_and!; [exact Hs'| |exact Hrun].
    intros ws' Hne. exact (modify_cells_other _ _ _ _ _ Hmod Hne).
  - destruct (safe_write_served (CallAppend ws) ws (fun g => trim_rows g ++ [[k; flag_text b]])
                w s Hs Hw) as (bs & Hmod & Hs' & Hrun).
    exists (CallAppend ws), bs. split_and!; [exact Hs'| |exact Hrun].
    intros ws' Hne. exact (modify_cells_other _ _ _ _ _ Hmod Hne).
Qed.

(** With the status worksheet in the cached title map and well-formed,
    and the network up, the upsert reads the worksheet once, writes it
    once (the cells [upsert_cells] computes), leaves every other worksheet
    alone and clears the snapshot cache. *)
Lemma upsert_served sid k b w m ws s :
  w_wsmaps w !! sid = Some m -> m !! READ_STATUS = Some ws -> sheet_of ws (w_books w) = Ok s ->
  status_wf (sh_cells s) -> w_faults w = [] ->
  exists c g bs', upsert_cells (sh_cells s) k b = Ok g /\ sheet_of ws bs' = Ok (with_cells s g) /\
    (forall ws', ws_key ws' <> ws_key ws \/ ws_id ws' <> ws_id ws -> sheet_of ws' bs' = sheet_of ws' (w_books w)) /\
    upsert_read_status sid k b w =
    (Ok tt, set_data ∅ (set_books bs' (settle c (mkPlan None 1 []) (settle (CallGetAll ws) (mkPlan None 1 []) w)))).
Proof.
  intros Hm Hn Hs (rows & Hcells & Hrows) Hf. unfold upsert_read_status, upsert_cells.
  rewrite (st_bind_ok _ _ _ ws w) by (by eapply get_or_create_hit).
  rewrite (st_bind_ok _ _ _ _ _ (safe_get_all_values_served ws w s Hs (served_nil _ Hf))).
  destruct (status_wf_rows _ _ Hcells Hrows) as (Hread & Hdata & _ & Hidx).
  assert (Hi : build_index (data_rows (fill_gaps (trim_rows (sh_cells s)))) =
               Ok (index_from row_key (fun j _ => j) 2 rows ∅)) by by rewrite Hread, Hdata.
  rewrite Hi. set (w1 := settle (CallGetAll ws) (mkPlan None 1 []) w).
  destruct (flag_write_served ws k b (index_from row_key (fun j _ => j) 2 rows ∅ !! k) w1 s Hs
              (served_nil _ (settle_faults_nil _ _ _ Hf))) as (c & bs & Hs' & Hother & Hrun).
  exists c, (flag_written (sh_cells s) k b (index_from row_key (fun j _ => j) 2 rows ∅ !! k)), bs.
  split_and!; [|exact Hs'|exact Hother|].
  - by destruct (_ !! k).
  - unfold st_bind at 1. by rewrite Hrun.
Qed.

(** The same for any status worksheet, well-formed or not: with the
    network up, the upsert of a known worksheet whose rows index succeeds,
    writes [flag_written] for the row the index gives, and keeps the title
    maps and the served network. *)
Lemma upsert_served_cells sid k b w m ws s idx :
  w_wsmaps w !! sid = Some m -> m !! READ_STATUS = Some ws -> sheet_of ws (w_books w) = Ok s ->
  w_faults w = [] -> build_index (data_rows (fill_gaps (trim_rows (sh_cells s)))) = Ok idx ->
  exists w', upsert_read_status sid k b w = (Ok tt, w') /\
    sheet_of ws (w_books w') = Ok (with_cells s (flag_written (sh_cells s) k b (idx !! k))) /\
    w_wsmaps w' = w_wsmaps w /\ w_faults w' = [].
Proof.
  intros Hm Hn Hs Hf Hi. unfold upsert_read_status.
  rewrite (st_bind_ok _ _ _ ws w) by (by eapply get_or_create_hit).
  rewrite (st_bind_ok _ _ _ _ _ (safe_get_all_values_served ws w s Hs (served_nil _ Hf))).
  rewrite Hi. set (w1 := settle (CallGetAll ws) (mkPlan None 1 []) w).
  destruct (flag_write_served ws k b (idx !! k) w1 s Hs
              (served_nil _ (settle_faults_nil _ _ _ Hf))) as (c & bs & Hs' & _ & Hrun).
  eexists; split; [unfold st_bind at 1; by rewrite Hrun|].
  split_and!; [exact Hs'|done|]. cbn [w_faults set_data set_books]. by do 2 apply settle_faults_nil.
Qed.

Lemma upsert_cells_written cells k b idx :
  build_index (data_rows (fill_gaps (trim_rows cells))) = Ok idx ->
  upsert_cells cells k b = Ok (flag_written cells k b (idx !! k)).
Proof. intros Hi. unfold upsert_cells. rewrite Hi. by destruct (idx !! k). Qed.

(** One upsert on a served network, from a well-formed worksheet: it
    succeeds, refines [upsert_spec], and leaves the network served and the
    title maps as they were, so that another upsert can follow. *)
Lemma upsert_step sid k b w m ws s sigma :
  w_wsmaps w !! sid = Some m -> m !! READ_STATUS = Some ws -> sheet_of ws (w_books w) = Ok s ->
  w_faults w = [] -> status_wf (sh_cells s) -> status_of_grid (sh_cells s) = Ok sigma ->
  exists w' s', upsert_read_status sid k b w = (Ok tt, w') /\ w_wsmaps w' = w_wsmaps w /\
    w_faults w' = [] /\ sheet_of ws (w_books w') = Ok s' /\ status_wf (sh_cells s') /\
    status_of_grid (sh_cells s') = Ok (upsert_spec k b sigma).
Proof.
  intros Hm Hn Hs Hf (rows & Hcells & Hrows) Hsig.
  destruct (status_wf_rows _ _ Hcells Hrows) as (Hread & Hdata & Hsig0 & Hidx).
  assert (Hi : build_index (data_rows (fill_gaps (trim_rows (sh_cells s)))) =
               Ok (index_from row_key (fun j _ => j) 2 rows ∅)) by by rewrite Hread, Hdata.
  destruct (upsert_served_cells _ k b _ _ _ _ _ Hm Hn Hs Hf Hi) as (w' & Hrun & Hs' & Hm' & Hf').
  destruct (upsert_cells_refines rows k b Hrows) as (g & Hu & Hwf & Hflags).
  rewrite <- Hcells, (upsert_cells_written _ _ _ _ Hi) in Hu. injection Hu as Hg.
  rewrite Hsig0 in Hsig. injection Hsig as <-.
  exists w', (with_cells s g). rewrite Hg in Hs'. by split_and!.
Qed.

(** Rows of two cells, the last not blank, are read back as written. *)
Lemma status_rows_read rows : Forall status_row_ok rows -> fill_gaps (trim_rows rows) = rows.
Proof.
  intros Hrows. rewrite trim_rows_ok.
  - apply (fill_gaps_uniform _ 2). eapply Forall_impl; [exact Hrows|]. by intros r [].
  - eapply Forall_impl; [exact Hrows|]. by intros r [].
Qed.

(** ** Properties *)

(** C1: refinement.  On a well-formed status worksheet known to the
    cached title map, a successful [upsert_read_status k b] leaves a
    well-formed worksheet whose flags, as the page reads them, are the old
    flags updated by [k := b]: the code implements the map-insert
    specification [upsert_spec]. *)
Theorem upsert_refines sid k b w w' m ws s sigma :
  w_wsmaps w !! sid = Some m -> m !! READ_STATUS = Some ws -> sheet_of ws (w_books w) = Ok s ->
  status_wf (sh_cells s) -> status_of_grid (sh_cells s) = Ok sigma ->
  upsert_read_status sid k b w = (Ok tt, w') ->
  exists s', sheet_of ws (w_books w') = Ok s' /\ status_wf (sh_cells s') /\
             status_of_grid (sh_cells s') = Ok (upsert_spec k b sigma).
Proof.
  intros Hm Hn Hs (rows & Hcells & Hrows) Hsig H.
  destruct (upsert_run _ _ _ _ _ _ _ _ Hm Hn Hs H) as (g' & Hu & Hs' & _).
  destruct (status_wf_rows _ _ Hcells Hrows) as (_ & _ & Hsig0 & _).
  rewrite Hsig0 in Hsig. injection Hsig as <-.
  destruct (upsert_cells_refines rows k b Hrows) as (g'' & Hu' & Hwf & Hflags).
  rewrite Hcells in Hu. rewrite Hu in Hu'. injection Hu' as <-.
  eexists; split; [exact Hs'|]. by split.
Qed.

(** C2: with the network up, the upsert of a well-formed status worksheet
    known to the cached title map succeeds. *)
Theorem upsert_total sid k b w m ws s :
  w_wsmaps w !! sid = Some m -> m !! READ_STATUS = Some ws -> sheet_of ws (w_books w) = Ok s ->
  status_wf (sh_cells s) -> w_faults w = [] ->
  exists w', upsert_read_status sid k b w = (Ok tt, w').
Proof.
  intros Hm Hn Hs (rows & Hcells & Hrows) Hf. unfold upsert_read_status.
  rewrite (st_bind_ok _ _ _ ws w) by (by eapply get_or_create_hit).
  rewrite (st_bind_ok _ _ _ _ _ (safe_get_all_values_served ws w s Hs (served_nil _ Hf))).
  destruct (status_wf_rows _ _ Hcells Hrows) as (Hread & Hdata & _ & Hidx).
  rewrite Hread, Hdata, Hidx.
  set (w1 := settle (CallGetAll ws) (mkPlan None 1 []) w).
  assert (Hs1 : sheet_of ws (w_books w1) = Ok s) by exact Hs.
  assert (Hf1 : served w1) by (apply served_nil, settle_faults_nil, Hf).
  destruct (_ !! k) as [row_no|].
  - destruct (safe_write_served (CallUpdateCell ws row_no 2) ws
                (fun g => set_cell g row_no 2 (flag_text b)) w1 s Hs1 Hf1) as (bs & _ & _ & Hw).
    unfold safe_update_cell, update_cell. unfold st_bind at 1. rewrite Hw. by eexists.
  - destruct (safe_write_served (CallAppend ws) ws
                (fun g => trim_rows g ++ [[k; flag_text b]]) w1 s Hs1 Hf1) as (bs & _ & _ & Hw).
    unfold safe_append_row, append_row. unfold st_bind at 1. rewrite Hw. by eexists.
Qed.

(** C3: an upsert of a key absent from the status rows appends exactly
    one row, [k; "true"|"false"], after the existing ones. *)
Theorem upsert_appends_absent sid k b w w' m ws s rows :
  w_wsmaps w !! sid = Some m -> m !! READ_STATUS = Some ws -> sheet_of ws (w_books w) = Ok s ->
  sh_cells s = status_headers :: rows -> Forall status_row_ok rows ->
  (forall r, r ∈ rows -> row_key r <> k) ->
  upsert_read_status sid k b w = (Ok tt, w') ->
  sheet_of ws (w_books w') = Ok (with_cells s (sh_cells s ++ [[k; flag_text b]])).
Proof.
  intros Hm Hn Hs Hcells Hrows Hnot H.
  destruct (upsert_run _ _ _ _ _ _ _ _ Hm Hn Hs H) as (g' & Hu & Hs' & _).
  rewrite Hcells in Hu |- *.
  destruct (upsert_cells_cases rows k b Hrows) as [(pre & old & post & -> & _ & _)|[_ Hu']].
  - exfalso. apply (Hnot [k; old]); [set_solver|done].
  - rewrite Hu' in Hu. injection Hu as <-. exact Hs'.
Qed.

(** C4: an upsert of a key present in the status rows rewrites the flag
    cell of its last row and nothing else: same row count, no append. *)
Theorem upsert_updates_present sid k b w w' m ws s pre old post :
  w_wsmaps w !! sid = Some m -> m !! READ_STATUS = Some ws -> sheet_of ws (w_books w) = Ok s ->
  sh_cells s = status_headers :: pre ++ [k; old] :: post ->
  Forall status_row_ok (pre ++ [k; old] :: post) ->
  (forall r, r ∈ post -> row_key r <> k) ->
  upsert_read_status sid k b w = (Ok tt, w') ->
  sheet_of ws (w_books w') = Ok (with_cells s (status_headers :: pre ++ [k; flag_text b] :: post)).
Proof.
  intros Hm Hn Hs Hcells Hrows Hpost H.
  destruct (upsert_run _ _ _ _ _ _ _ _ Hm Hn Hs H) as (g' & Hu & Hs' & _).
  rewrite Hcells in Hu.
  destruct (upsert_cells_cases _ k b Hrows) as [(pre' & old' & post' & Heq & Hpost' & Hu')|[Hnot _]].
  - destruct (last_occurrence_unique pre old post pre' old' post' k Heq Hpost Hpost') as (<- & _ & <-).
    rewrite Hu' in Hu. injection Hu as <-. exact Hs'.
  - exfalso. apply (Hnot [k; old]); [set_solver|done].
Qed.

Lemma upsert_clears w sid k b w' :
  upsert_read_status sid k b w = (Ok tt, w') -> w_data w' = ∅.
Proof.
  unfold upsert_read_status. intros H.
  apply st_bind_ok_inv in H as (ws & w1 & _ & H).
  apply st_bind_ok_inv in H as (vals & w2 & _ & H).
  destruct (build_index _) as [index|e]; [|discriminate].
  apply st_bind_ok_inv in H as (u & w3 & _ & H).
  unfold cache_data_clear, st_modify in H. by injection H as <-.
Qed.

(** C5: after a successful upsert no snapshot is served from the cache:
    the next read of any worksheet refetches it. *)
Theorem upsert_invalidates_cache sid k b w w' sid' n' :
  upsert_read_status sid k b w = (Ok tt, w') ->
  read_sheet_to_df sid' n' w' = refresh sid' n' w'.
Proof.
  intros H. unfold read_sheet_to_df. by rewrite (upsert_clears _ _ _ _ _ H), lookup_empty.
Qed.

(** The title maps are not touched by an upsert of a known worksheet. *)
Definition same_wsmaps (w w' : World) : Prop := w_wsmaps w' = w_wsmaps w.

#[export] Instance same_wsmaps_stable : RemoteStable same_wsmaps.
Proof.
  split; [split; [intros w; done|intros w1 w2 w3 H12 H23; unfold same_wsmaps in *; congruence]|done..].
Qed.

Lemma upsert_keeps_wsmaps sid k b w m ws r w' :
  w_wsmaps w !! sid = Some m -> m !! READ_STATUS = Some ws ->
  upsert_read_status sid k b w = (r, w') -> w_wsmaps w' = w_wsmaps w.
Proof.
  intros Hm Hn H. unfold upsert_read_status in H.
  rewrite (st_bind_ok _ _ _ ws w) in H by (by eapply get_or_create_hit).
  revert H. apply (keeps_bind same_wsmaps); [apply keeps_safe_get_all_values, _|intros vals].
  case_match; keeps_auto; [|apply keeps_modify; done].
  case_match; [apply keeps_safe_update_cell|apply keeps_safe_append_row]; apply _.
Qed.

(** A failed upsert of a known worksheet leaves every worksheet as it was:
    the read changes nothing, and the single write either happens whole
    or not at all. *)
Lemma upsert_err_books sid k b w m ws e w' :
  w_wsmaps w !! sid = Some m -> m !! READ_STATUS = Some ws ->
  upsert_read_status sid k b w = (Err e, w') -> w_books w' = w_books w.
Proof.
  intros Hm Hn H. unfold upsert_read_status in H.
  rewrite (st_bind_ok _ _ _ ws w) in H by (by eapply get_or_create_hit).
  unfold st_bind at 1 in H. destruct (safe_get_all_values ws w) as [[vals|e1] w1] eqn:Hg.
  - apply safe_get_all_values_ok_inv in Hg as (p & _ & ->).
    destruct (build_index _) as [index|e2]; [|by injection H as _ <-].
    unfold st_bind at 1 in H.
    destruct (index !! k) as [row_no|];
      [destruct (safe_update_cell _ _ _ _ _) as [[[]|e3] w2] eqn:Hw|
       destruct (safe_append_row _ _ _) as [[[]|e3] w2] eqn:Hw]; try discriminate;
      injection H as _ <-; exact (safe_write_err_inv _ _ _ _ _ _ Hw).
  - injection H as _ <-.
    by apply with_retry_err_inv in Hg as [p ->]; [|apply reading_get_all_values_fatal].
Qed.

(** A successful upsert of a known, well-formed status worksheet leaves
    it well-formed. *)
Lemma upsert_ok_wf sid k b w m ws s w' :
  w_wsmaps w !! sid = Some m -> m !! READ_STATUS = Some ws -> sheet_of ws (w_books w) = Ok s ->
  status_wf (sh_cells s) -> upsert_read_status sid k b w = (Ok tt, w') ->
  exists s', sheet_of ws (w_books w') = Ok s' /\ status_wf (sh_cells s').
Proof.
  intros Hm Hn Hs (rows & Hcells & Hrows) H.
  destruct (upsert_run _ _ _ _ _ _ _ _ Hm Hn Hs H) as (g' & Hu & Hs' & _).
  destruct (upsert_cells_refines rows k b Hrows) as (g'' & Hu' & Hwf & _).
  rewrite Hcells in Hu. rewrite Hu in Hu'. injection Hu' as <-. by exists (with_cells s g').
Qed.

(** C15: failure atomicity of the upsert, whatever the network does.  On
    a well-formed status worksheet known to the cached title map, every
    run of [upsert_read_status] keeps the title maps, and either succeeds
    with the worksheet still well-formed and its flags those of
    [upsert_spec], or raises with every worksheet as it was. *)
Theorem upsert_atomic sid k b w m ws s sigma r w' :
  w_wsmaps w !! sid = Some m -> m !! READ_STATUS = Some ws -> sheet_of ws (w_books w) = Ok s ->
  status_wf (sh_cells s) -> status_of_grid (sh_cells s) = Ok sigma ->
  upsert_read_status sid k b w = (r, w') ->
  w_wsmaps w' = w_wsmaps w /\
  match r with
  | Ok _ => exists s', sheet_of ws (w_books w') = Ok s' /\ status_wf (sh_cells s') /\
                       status_of_grid (sh_cells s') = Ok (upsert_spec k b sigma)
  | Err _ => w_books w' = w_books w
  end.
Proof.
  intros Hm Hn Hs (rows & Hcells & Hrows) Hsig H.
  split; [exact (upsert_keeps_wsmaps _ _ _ _ _ _ _ _ Hm Hn H)|].
  destruct r as [[]|e]; [|exact (upsert_err_books _ _ _ _ _ _ _ _ Hm Hn H)].
  destruct (upsert_run _ _ _ _ _ _ _ _ Hm Hn Hs H) as (g' & Hu & Hs' & _).
  destruct (status_wf_rows _ _ Hcells Hrows) as (_ & _ & Hsig0 & _).
  rewrite Hsig0 in Hsig. injection Hsig as <-.
  destruct (upsert_cells_refines rows k b Hrows) as (g'' & Hu' & Hwf & Hflags).
  rewrite Hcells in Hu. rewrite Hu in Hu'. injection Hu' as <-. by exists (with_cells s g').
Qed.

Lemma index_rows_Ok_inv i rows acc idx :
  index_rows i rows acc = Ok idx -> idx = index_from row_key (fun j _ => j) i rows acc.
Proof.
  revert i acc. induction rows as [|r rows IH]; intros i acc H; cbn in H |- *; [congruence|].
  destruct r as [|k r]; [discriminate|]. by apply IH.
Qed.

(** C6: the index of the status rows maps a key to a row exactly when
    that row is the key's last occurrence, and then to its sheet row
    (rows numbered from 2, below the header): every key present is
    indexed, earlier duplicates are ignored, and nothing else is in the
    index. *)
Theorem build_index_last rows idx k p :
  build_index rows = Ok idx ->
  idx !! k = Some p <->
  exists pre r post, rows = pre ++ r :: post /\ row_key r = k /\
    (forall r', r' ∈ post -> row_key r' <> k) /\ p = 2 + length pre.
Proof.
  intros H. apply index_rows_Ok_inv in H as ->. split.
  - intros Hk.
    destruct (index_from_lookup _ _ _ _ _ _ _ Hk) as [(pre & r & post & ? & ? & ? & ?)|[_ He]];
      [by exists pre, r, post | by rewrite lookup_empty in He].
  - intros (pre & r & post & -> & <- & Hpost & ->). exact (index_from_last row_key (fun j _ => j) 2 pre r post ∅ Hpost).
Qed.

(** ** Scenarios *)

Definition status_ws : Worksheet := mkWorksheet "s1" 1 "ReadStatus".

Definition status_cells (w : World) : Grid :=
  match sheet_of status_ws (w_books w) with Ok s => sh_cells s | Err _ => [] end.

(** Run upserts one after the other, stopping at the first failure. *)
Fixpoint upserts (l : list (string * bool)) (w : World) : result Exn unit * World :=
  match l with
  | [] => (Ok tt, w)
  | (k, b) :: l' =>
      match upsert_read_status "s1" k b w with
      | (Ok _, w') => upserts l' w'
      | r => r
      end
  end.

(** C7: a sequence of toggles refines the sequence of map inserts.  On
    a well-formed status worksheet known to the cached title map, with the
    network up, [upserts l] runs every upsert of [l] to success, and the
    worksheet stays well-formed with the flags of [upsert_spec] applied
    to the old flags in the order of [l]: a later toggle of a key
    overrides an earlier one, and toggles of other keys are kept. *)
Theorem upserts_refine l w m ws s sigma :
  w_wsmaps w !! "s1" = Some m -> m !! READ_STATUS = Some ws -> sheet_of ws (w_books w) = Ok s ->
  w_faults w = [] -> status_wf (sh_cells s) -> status_of_grid (sh_cells s) = Ok sigma ->
  exists w' s', upserts l w = (Ok tt, w') /\ sheet_of ws (w_books w') = Ok s' /\
    status_wf (sh_cells s') /\
    status_of_grid (sh_cells s') = Ok (foldl (fun acc kb => upsert_spec kb.1 kb.2 acc) sigma l).
Proof.
  revert w s sigma. induction l as [|[k b] l IH]; intros w s sigma Hm Hn Hs Hf Hwf Hsig.
  - by exists w, s.
  - destruct (upsert_step _ k b _ _ _ _ _ Hm Hn Hs Hf Hwf Hsig)
      as (w1 & s1 & Hrun & Hm1 & Hf1 & Hs1 & Hwf1 & Hsig1).
    rewrite <- Hm1 in Hm. cbn. rewrite Hrun. exact (IH _ _ _ Hm Hn Hs1 Hf1 Hwf1 Hsig1).
Qed.

(** The specification's scenario: from an empty status table, upserts
    of (a, true), (b, false), (a, false) give the rows (a, false),
    (b, false): the third call rewrites the first row in place. *)
Example upsert_scenario :
  let '(r, w) := upserts [("http://a", true); ("http://b", false); ("http://a", false)] (rc_world 30000) in
  r = Ok tt /\
  status_cells w = [["ItemKey"; "Read"]; ["http://a"; "false"]; ["http://b"; "false"]] /\
  status_of_grid (status_cells w) = Ok (<["http://b" := false]> (<["http://a" := false]> ∅)).
Proof. vm_compute. auto. Qed.

Definition restarted (w : World) : World := fresh_world (w_books w).

(** The headerless worksheet in a whole session.  The status worksheet
    the page creates on first load has no header ([read_sheet_to_df]
    passes none).  In the same process the toggle then fails: the cached
    title map does not know the new worksheet, so the upsert tries to add
    it again.  After a restart the upsert appends to the headerless
    worksheet, whose first row the page takes for the header
    ([headerless_flags_lost] in general). *)
Example headerless_status_scenario :
  let w0 := fresh_world articles_only in
  let '(r1, w1) := read_sheet_to_df "s1" "ReadStatus" w0 in
  let '(r2, _) := upsert_read_status "s1" "http://a" true w1 in
  let '(r3, w3) := upsert_read_status "s1" "http://a" true (restarted w1) in
  let '(r4, w4) := upsert_read_status "s1" "http://b" false w3 in
  r1 = Ok (mkFrame [] []) /\
  r2 = Err (sheet_exists "ReadStatus") /\
  r3 = Ok tt /\ status_of_grid (status_cells w3) = Ok ∅ /\
  r4 = Ok tt /\ status_of_grid (status_cells w4) = Err (KeyError "ItemKey").
Proof. vm_compute. auto 10. Qed.

(** C19: an upsert on a headerless status worksheet loses its flag.  On
    a known status worksheet with no cells (the one [read_sheet_to_df]
    creates), with the network up, the first toggle of [k1] succeeds and
    appends the row [k1, b1], which the page takes for the header: the
    flags it reads are empty.  Any second toggle (of any key, [k1]
    included, since the index skips the first row) succeeds and appends a
    second row, after which the page's read of the status table raises
    [KeyError "ItemKey"], unless the first key was itself ["ItemKey"]. *)
Theorem headerless_flags_lost sid k1 b1 k2 b2 w m ws s :
  w_wsmaps w !! sid = Some m -> m !! READ_STATUS = Some ws -> sheet_of ws (w_books w) = Ok s ->
  sh_cells s = [] -> w_faults w = [] -> k1 <> "ItemKey" ->
  exists w1 w2 s1 s2,
    upsert_read_status sid k1 b1 w = (Ok tt, w1) /\ sheet_of ws (w_books w1) = Ok s1 /\
    sh_cells s1 = [[k1; flag_text b1]] /\ status_of_grid (sh_cells s1) = Ok ∅ /\
    upsert_read_status sid k2 b2 w1 = (Ok tt, w2) /\ sheet_of ws (w_books w2) = Ok s2 /\
    sh_cells s2 = [[k1; flag_text b1]; [k2; flag_text b2]] /\
    status_of_grid (sh_cells s2) = Err (KeyError "ItemKey").
Proof.
  intros Hm Hn Hs He Hf Hk.
  destruct (upsert_served_cells _ k1 b1 _ _ _ _ ∅ Hm Hn Hs Hf) as (w1 & H1 & Hs1 & Hm1 & Hf1);
    [by rewrite He|].
  rewrite He, lookup_empty in Hs1. cbn [flag_written trim_rows app] in Hs1. rewrite <- Hm1 in Hm.
  assert (Hr1 : fill_gaps (trim_rows [[k1; flag_text b1]]) = [[k1; flag_text b1]])
    by (apply status_rows_read; repeat constructor; apply flag_text_ok).
  destruct (upsert_served_cells _ k2 b2 _ _ _ _ ∅ Hm Hn Hs1 Hf1) as (w2 & H2 & Hs2 & _ & _);
    [cbn [sh_cells with_cells]; by rewrite Hr1|].
  rewrite lookup_empty in Hs2. cbn [sh_cells with_cells flag_written] in Hs2.
  rewrite (trim_rows_ok [[k1; flag_text b1]]) in Hs2
    by (repeat constructor; apply flag_text_ok). cbn [app] in Hs2.
  eexists w1, w2, _, _. split_and!; [exact H1|exact Hs1|done| |exact H2|exact Hs2|done|].
  - unfold status_of_grid. cbn [sh_cells with_cells]. by rewrite Hr1.
  - unfold status_of_grid. cbn [sh_cells with_cells].
    rewrite (status_rows_read [[k1; flag_text b1]; [k2; flag_text b2]])
      by (repeat constructor; apply flag_text_ok).
    cbn -[column_index]. unfold column_index.
    rewrite (proj2 (list_find_None _ _)); [done|].
    repeat constructor; [exact Hk|by destruct b1].
Qed.

(** ** Witnesses *)

Definition status_sheet0 : Sheet := mkSheet 1 "ReadStatus" 2000 26 [["ItemKey"; "Read"]].
Definition world_a : World := snd (upsert_read_status "s1" "http://a" true (rc_world 30000)).
Definition status_sheet_a : Sheet :=
  mkSheet 1 "ReadStatus" 2000 26 [["ItemKey"; "Read"]; ["http://a"; "true"]].

Lemma status_wf_header : status_wf [["ItemKey"; "Read"]].
Proof. exists []. split; [reflexivity|constructor]. Qed.

Lemma upsert_refines_witness :
  exists s', sheet_of status_ws (w_books world_a) = Ok s' /\ status_wf (sh_cells s') /\
             status_of_grid (sh_cells s') = Ok (upsert_spec "http://a" true ∅).
Proof.
  apply (upsert_refines "s1" "http://a" true (rc_world 30000) world_a rc_map status_ws status_sheet0 ∅);
    [vm_compute; reflexivity .. | apply status_wf_header | vm_compute; reflexivity |
     apply surjective_pairing].
Defined.

Lemma upsert_total_witness : exists w', upsert_read_status "s1" "http://b" false (rc_world 30000) = (Ok tt, w').
Proof.
  apply (upsert_total _ _ _ _ rc_map status_ws status_sheet0);
    [vm_compute; reflexivity .. | apply status_wf_header | reflexivity].
Defined.

(** A fatal failure of the write: the read is served, the append is
    refused. *)
Lemma upsert_atomic_witness :
  let res := upsert_read_status "s1" "http://b" false (set_faults [None; Some e403] (rc_world 30000)) in
  w_wsmaps res.2 = w_wsmaps (set_faults [None; Some e403] (rc_world 30000)) /\
  match res.1 with
  | Ok _ => exists s', sheet_of status_ws (w_books res.2) = Ok s' /\ status_wf (sh_cells s') /\
                       status_of_grid (sh_cells s') = Ok (upsert_spec "http://b" false ∅)
  | Err _ => w_books res.2 = w_books (set_faults [None; Some e403] (rc_world 30000))
  end.
Proof.
  apply (upsert_atomic "s1" "http://b" false _ rc_map status_ws status_sheet0 ∅);
    [vm_compute; reflexivity .. | apply status_wf_header | vm_compute; reflexivity |
     apply surjective_pairing].
Defined.

Lemma upsert_appends_absent_witness :
  sheet_of status_ws (w_books world_a) =
  Ok (with_cells status_sheet0 (sh_cells status_sheet0 ++ [["http://a"; flag_text true]])).
Proof.
  apply (upsert_appends_absent "s1" "http://a" true (rc_world 30000) world_a rc_map status_ws
           status_sheet0 []);
    [vm_compute; reflexivity .. | constructor | intros r Hr; inversion Hr |
     apply surjective_pairing].
Defined.

Lemma upsert_updates_present_witness :
  sheet_of status_ws (w_books (snd (upsert_read_status "s1" "http://a" false world_a))) =
  Ok (with_cells status_sheet_a (status_headers :: [] ++ ["http://a"; flag_text false] :: [])).
Proof.
  apply (upsert_updates_present "s1" "http://a" false world_a _ rc_map status_ws status_sheet_a
           [] "true" []);
    [vm_compute; reflexivity .. | repeat constructor; eexists; split; [reflexivity|discriminate] |
     intros r Hr; inversion Hr | apply surjective_pairing].
Defined.

Lemma upsert_invalidates_cache_witness :
  read_sheet_to_df "s1" "Articles" world_a = refresh "s1" "Articles" world_a.
Proof.
  apply (upsert_invalidates_cache "s1" "http://a" true (rc_world 30000)).
  vm_compute. reflexivity.
Defined.

Lemma build_index_last_witness :
  let rows := [["a"; "true"]; ["b"; "x"]; ["a"; "false"]] in
  let idx := index_from row_key (fun j _ => j) 2 rows ∅ in
  idx !! "a" = Some 4 <->
  exists pre r post, rows = pre ++ r :: post /\
    row_key r = "a" /\ (forall r', r' ∈ post -> row_key r' <> "a") /\ 4 = 2 + length pre.
Proof. intros rows idx. apply build_index_last. vm_compute. reflexivity. Defined.

Lemma upserts_refine_witness :
  exists w' s', upserts [("http://a", true); ("http://b", false); ("http://a", false)] (rc_world 30000) = (Ok tt, w') /\
    sheet_of status_ws (w_books w') = Ok s' /\ status_wf (sh_cells s') /\
    status_of_grid (sh_cells s') =
      Ok (foldl (fun acc kb => upsert_spec kb.1 kb.2 acc) ∅
                [("http://a", true); ("http://b", false); ("http://a", false)]).
Proof.
  apply (upserts_refine _ (rc_world 30000) rc_map status_ws status_sheet0 ∅);
    [vm_compute; reflexivity .. | apply status_wf_header | vm_compute; reflexivity].
Defined.

(** The status worksheet emptied, as the page's first load leaves it, with
    the title map that a restarted process reads. *)
Definition headerless_world : World :=
  set_books (match clear status_ws rc_books with Ok bs => bs | Err _ => rc_books end) (rc_world 30000).

Lemma headerless_flags_lost_witness :
  exists w1 w2 s1 s2,
    upsert_read_status "s1" "http://a" true headerless_world = (Ok tt, w1) /\
    sheet_of status_ws (w_books w1) = Ok s1 /\
    sh_cells s1 = [["http://a"; flag_text true]] /\ status_of_grid (sh_cells s1) = Ok ∅ /\
    upsert_read_status "s1" "http://a" false w1 = (Ok tt, w2) /\ sheet_of status_ws (w_books w2) = Ok s2 /\
    sh_cells s2 = [["http://a"; flag_text true]; ["http://a"; flag_text false]] /\
    status_of_grid (sh_cells s2) = Err (KeyError "ItemKey").
Proof.
  apply (headerless_flags_lost _ _ _ _ _ _ rc_map status_ws (mkSheet 1 "ReadStatus" 2000 26 []));
    [vm_compute; reflexivity .. | discriminate].
Defined.
