(* ===== verification/App.v ===== *)
(** * App: what the page of src/app.py does with the data layer

    [load_articles] (lines 21-43) reads the article and status worksheets
    through the snapshot cache and gives each article its read flag;
    [on_toggle] (lines 45-49) waits the debounce delay and upserts the
    value the tab's session holds for the checkbox.  The tab's
    [st.session_state] is the record [Session]; the page runs in the state
    and error monad of the prelude over it.  How the page is drawn and
    paginated is in [Display], the sidebar, filters and search in
    [Filters].  The [Date] cells stay strings here; [pd.to_datetime] is
    applied where they are used.

    The theorem: a toggle followed by the next load shows the new flag
    (C34). *)

From Stdlib Require Import Ascii String ZArith.
From stdpp Require Import base gmap strings list pretty.
From S2P Require Import Prelude Sheets Retry Registry ReadCache Upsert.

Local Open Scope st_scope.

Definition SHEET_ID : string := "1ams3xdaxMB_iAEpbAK0CT3yZwv9ME-5jZINiiXN0p7Q".
Definition DATA_SHEET_NAME : string := "Articles".
Definition READ_SHEET_NAME : string := "ReadStatus".
Definition REQUIRED_COLS : list string :=
  ["Date"; "Author"; "Title"; "Subtitle"; "URL"; "Category (20-class)"].

(** [DEBOUNCE_MS], the clock being in milliseconds. *)
Definition DEBOUNCE_MS : Z := 300.

(** A row of the article frame with the two columns the page adds. *)
Record Article := mkArticle { art_cells : list string; art_key : string; art_read : bool }.

(** The frame [load_articles] returns: the sheet's column labels (the
    added [ItemKey] and [Read] columns are the record fields) and its rows. *)
Record ArticleFrame := mkArticleFrame { af_cols : list string; af_rows : list Article }.

(** [load_articles]: [None] when the article worksheet is empty (after
    making sure it exists with the required header).  The merge of line 40
    raises [KeyError "Read"] on line 41 when the article worksheet has a
    [Read] column of its own and the status table has rows.  The conversion of
    [Date] by [pd.to_datetime] (lines 28-29) is applied where the column is
    used, in [Filters]. *)
Definition load_articles : M (option ArticleFrame) :=
  let! df := read_sheet_to_df SHEET_ID DATA_SHEET_NAME in
  if frame_empty df then
    let! _ := get_or_create_worksheet SHEET_ID DATA_SHEET_NAME REQUIRED_COLS in
    st_ret None
  else
    match column_index (columns df) "URL" with
    | None => st_raise (KeyError "URL")
    | Some iu =>
        let! rs := read_sheet_to_df SHEET_ID READ_SHEET_NAME in
        match status_flags rs with
        | Err e => st_raise e
        | Ok flags =>
            (* [df.merge(rs, on="ItemKey")] suffixes a [Read] column of the
               article sheet and the status [Read] column ([Read_x],
               [Read_y]), so [df["Read"]] on line 41 raises. *)
            if negb (frame_empty rs) && bool_decide ("Read" ∈ columns df) then st_raise (KeyError "Read")
            else
            st_ret (Some (mkArticleFrame (columns df)
              (map (fun row => mkArticle row (nth iu row "")
                                 (item_read flags (nth iu row ""))) (data df))))
        end
    end.

(** ** The session of one browser tab ([st.session_state])

    [ss_page] is [session_state.page] ([None] before it is set);
    [ss_bools] holds the checkbox widgets' values under their keys and the
    [ai__all_prev] / [nonai__all_prev] flags; [ss_search] is the text of
    the search box and [ss_status] the index of the status option picked;
    the [ss_last_*] fields are [last_search], [last_selected] and
    [last_status]. *)
Record Session := mkSession {
  ss_page : option Z;
  ss_bools : gmap string bool;
  ss_search : string;
  ss_status : nat;
  ss_last_search : option string;
  ss_last_selected : option (list string);
  ss_last_status : option string }.

Definition set_page (p : Z) (s : Session) : Session :=
  mkSession (Some p) (ss_bools s) (ss_search s) (ss_status s)
    (ss_last_search s) (ss_last_selected s) (ss_last_status s).
Definition set_bools (m : gmap string bool) (s : Session) : Session :=
  mkSession (ss_page s) m (ss_search s) (ss_status s)
    (ss_last_search s) (ss_last_selected s) (ss_last_status s).
Definition set_last_search (x : string) (s : Session) : Session :=
  mkSession (ss_page s) (ss_bools s) (ss_search s) (ss_status s)
    (Some x) (ss_last_selected s) (ss_last_status s).
Definition set_last_selected (x : list string) (s : Session) : Session :=
  mkSession (ss_page s) (ss_bools s) (ss_search s) (ss_status s)
    (ss_last_search s) (Some x) (ss_last_status s).
Definition set_last_status (x : string) (s : Session) : Session :=
  mkSession (ss_page s) (ss_bools s) (ss_search s) (ss_status s)
    (ss_last_search s) (ss_last_selected s) (Some x).

(** [st.session_state.get(key, False)] for a checkbox key. *)
Definition get_bool (s : Session) (key : string) : bool := default false (ss_bools s !! key).

(** [on_toggle]: the new state is the checkbox's value in the session,
    [False] when absent. *)
Definition on_toggle (s : Session) (chk_key item_key : string) : M unit :=
  let! _ := sleep DEBOUNCE_MS in
  upsert_read_status SHEET_ID item_key (get_bool s chk_key).

(** ** A toggle, then the next load *)

Lemma item_read_insert flags k b : item_read (<[k := b]> flags) k = b.
Proof. unfold item_read. by rewrite lookup_insert_eq. Qed.

(** C34: composition of [on_toggle] and [load_articles].  With both
    worksheets in the cached title map, a well-formed status worksheet and
    the network up, a toggle whose checkbox holds [b] succeeds, and the
    next [load_articles] refetches both worksheets and gives every row of
    the article worksheet the flag of the updated map [k := b]: the toggled
    article reads [b], every other keeps its flag. *)
Theorem toggle_then_load s chk k w m wr wa sr sa sigma iu :
  w_wsmaps w !! SHEET_ID = Some m ->
  m !! READ_SHEET_NAME = Some wr -> m !! DATA_SHEET_NAME = Some wa ->
  (ws_key wa <> ws_key wr \/ ws_id wa <> ws_id wr) ->
  sheet_of wr (w_books w) = Ok sr -> status_wf (sh_cells sr) -> status_of_grid (sh_cells sr) = Ok sigma ->
  sheet_of wa (w_books w) = Ok sa ->
  let fa := to_frame (fill_gaps (trim_rows (sh_cells sa))) in
  frame_empty fa = false -> column_index (columns fa) "URL" = Some iu -> "Read" ∉ columns fa ->
  w_faults w = [] ->
  let flags := upsert_spec k (get_bool s chk) sigma in
  exists w1 w2,
    on_toggle s chk k w = (Ok tt, w1) /\
    load_articles w1 =
    (Ok (Some (mkArticleFrame (columns fa)
       (map (fun row => mkArticle row (nth iu row "") (item_read flags (nth iu row ""))) (data fa)))), w2) /\
    item_read flags k = get_bool s chk.
Proof.
  intros Hm Hr Ha Hdiff Hsr Hwf Hsig Hsa fa Hne Hiu Hread Hf flags.
  set (b := get_bool s chk). set (w0 := slept DEBOUNCE_MS w).
  destruct (upsert_served SHEET_ID k b w0 m wr sr Hm Hr Hsr Hwf Hf)
    as (c & g & bs & Hg & Hsr' & Hother & Hrun).
  destruct Hwf as (rows & Hcells & Hrows).
  destruct (status_wf_rows _ _ Hcells Hrows) as (_ & _ & Hsig0 & _).
  rewrite Hsig in Hsig0. injection Hsig0 as ->.
  destruct (upsert_cells_refines rows k b Hrows) as (g' & Hg' & _ & Hflags).
  rewrite <- Hcells, Hg in Hg'. injection Hg' as <-.
  set (w1 := set_data ∅ (set_books bs (settle c (mkPlan None 1 [])
                (settle (CallGetAll wr) (mkPlan None 1 []) w0)))) in Hrun.
  assert (Hf1 : served w1) by (apply served_nil; cbn; by rewrite Hf).
  assert (Hsa1 : sheet_of wa (w_books w1) = Ok sa) by (cbn; by rewrite Hother).
  assert (Htog : on_toggle s chk k w = (Ok tt, w1))
    by (unfold on_toggle; by rewrite (st_bind_ok _ _ w tt w0)).
  exists w1. eexists. split; [exact Htog|]. split; [|apply item_read_insert].
  unfold load_articles.
  rewrite (st_bind_ok _ _ _ _ _ (eq_trans (read_sheet_miss _ _ w1 eq_refl)
                                   (refresh_served _ _ w1 m wa sa Hm Ha Hsa1 Hf1))).
  fold fa. rewrite Hne, Hiu.
  set (w2 := set_data _ (settle (CallGetAll wa) (mkPlan None 1 []) w1)).
  assert (Hsr2 : sheet_of wr (w_books w2) = Ok (with_cells sr g)) by exact Hsr'.
  assert (Hf2 : served w2) by (apply served_nil; cbn; by rewrite Hf).
  assert (Hmiss : w_data w2 !! (SHEET_ID, READ_SHEET_NAME) = None) by (cbn; by rewrite lookup_insert_ne).
  rewrite (st_bind_ok _ _ _ _ _ (eq_trans (read_sheet_miss _ _ w2 Hmiss)
                                   (refresh_served _ _ w2 m wr _ Hm Hr Hsr2 Hf2))).
  cbn [sh_cells with_cells]. unfold status_of_grid in Hflags. rewrite Hflags.
  by rewrite bool_decide_eq_false_2, andb_false_r.
Qed.

(** ** Witnesses *)

Definition app_articles : Sheet :=
  mkSheet 0 "Articles" 2000 26
    [REQUIRED_COLS;
     ["2024-01-02"; "Ann"; "Agents"; "On agents"; "http://a"; "Agentic AI & AI Agents"];
     ["2024-01-01"; "Bo"; "RAG"; "On RAG"; "http://b"; "Retrieval-Augmented Generation (RAG)"]].
Definition app_status : Sheet := mkSheet 1 "ReadStatus" 2000 26 [["ItemKey"; "Read"]; ["http://a"; "false"]].
Definition app_map : gmap string Worksheet :=
  title_map [mkWorksheet SHEET_ID 0 "Articles"; mkWorksheet SHEET_ID 1 "ReadStatus"].
Definition app_world : World :=
  mkWorld {[ SHEET_ID := mkBook [app_articles; app_status] 2 ]} [] 0 [] []
    (mkConfig (Some ∅) None []) (Some (mkClient (FromInfo ∅)))
    {[ SHEET_ID := mkSpreadsheet SHEET_ID ]} {[ SHEET_ID := app_map ]} ∅.
Definition ticked : Session := mkSession None {[ "readchk_a" := true ]} "" 0 None None None.

Lemma toggle_then_load_witness :
  let fa := to_frame (fill_gaps (trim_rows (sh_cells app_articles))) in
  let flags := upsert_spec "http://a" (get_bool ticked "readchk_a") (<["http://a" := false]> ∅) in
  exists w1 w2,
    on_toggle ticked "readchk_a" "http://a" app_world = (Ok tt, w1) /\
    load_articles w1 =
    (Ok (Some (mkArticleFrame (columns fa)
       (map (fun row => mkArticle row (nth 4 row "") (item_read flags (nth 4 row ""))) (data fa)))), w2) /\
    item_read flags "http://a" = get_bool ticked "readchk_a".
Proof.
  apply (toggle_then_load ticked "readchk_a" "http://a" app_world app_map
           (mkWorksheet SHEET_ID 1 "ReadStatus") (mkWorksheet SHEET_ID 0 "Articles")
           app_status app_articles (<["http://a" := false]> ∅) 4);
    [reflexivity | reflexivity | reflexivity | right; cbn; lia | reflexivity |
     | vm_compute; reflexivity | reflexivity | reflexivity | reflexivity | vm_compute; set_solver |
     reflexivity].
  exists [["http://a"; "false"]]. split; [reflexivity|].
  repeat constructor. eexists; split; [reflexivity|discriminate].
Defined.
