(* ===== verification/Frames.v ===== *)
(** * Frames: the shape of the DataFrames the page reads

    [read_sheet_to_df] (src/gsheets_io.py, lines 106-117) builds
    [pd.DataFrame(rows, columns=header)] from [get_all_values], which
    gspread pads to the widest row ([fill_gaps]); pandas raises when a
    row is longer or shorter than the header.  The typing judgement
    [frame_typed] says that every row has one cell per column (the shape
    predicate of a matrix); [cache_typed] says that every snapshot of the
    read cache is typed.

    Theorems: every frame [read_sheet_to_df] returns is typed and the
    read cache stays typed; every operation of the page on the process
    state keeps the cache typed; [load_articles] (src/app.py, lines 21-43)
    gives rows with one cell per column whose [ItemKey] is their [URL]
    cell (C17). *)

From Stdlib Require Import Ascii String ZArith.
From stdpp Require Import base gmap strings list.
From S2P Require Import Prelude Sheets Retry Registry ReadCache Upsert App.

Local Open Scope st_scope.

(** One cell per column in every row. *)
Definition frame_typed (f : Frame) : Prop := Forall (fun r => length r = length (columns f)) (data f).

Definition cache_typed (w : World) : Prop := map_Forall (fun _ e => frame_typed e.1) (w_data w).

(** The relation of states an operation keeps the cache typed across. *)
Definition keeps_typed (w w' : World) : Prop := cache_typed w -> cache_typed w'.

#[export] Instance keeps_typed_preorder : PreOrder keeps_typed.
Proof. split; [by intros w ?|]. intros w1 w2 w3 H12 H23 H. by apply H23, H12. Qed.

#[export] Instance keeps_typed_cache_stable : CacheStable keeps_typed.
Proof. split; [split; [apply _| |..]|..]; intros; by intros ?. Qed.

(** ** The frames [get_all_values] gives *)

Lemma max_width_ge g r : r ∈ g -> length r <= max_width g.
Proof.
  induction g as [|r' g IH]; [by intros ?%elem_of_nil|].
  change (max_width (r' :: g)) with (Nat.max (length r') (max_width g)).
  intros [->|Hin]%elem_of_cons; [apply Nat.le_max_l|].
  etransitivity; [exact (IH Hin)|apply Nat.le_max_r].
Qed.

Lemma fill_gaps_width g : Forall (fun r => length r = max_width g) (fill_gaps g).
Proof.
  unfold fill_gaps. apply Forall_fmap, Forall_forall. intros r Hr. cbn.
  rewrite length_app, length_replicate. pose proof (max_width_ge g r Hr). lia.
Qed.

Lemma to_frame_typed g : frame_typed (to_frame (fill_gaps g)).
Proof.
  pose proof (fill_gaps_width g) as Hw. unfold frame_typed, to_frame.
  destruct (fill_gaps g) as [|h rows]; [constructor|].
  inversion_clear Hw as [|? ? Hh Hrows]. destruct rows; cbn; [constructor|].
  eapply Forall_impl; [exact Hrows|]. intros r Hr. cbn in Hr |- *. lia.
Qed.

(** What [safe_get_all_values] returns is a grid gspread padded. *)
Lemma safe_get_all_values_grid ws w vals w' :
  safe_get_all_values ws w = (Ok vals, w') -> exists g, vals = fill_gaps g.
Proof.
  unfold safe_get_all_values, with_retry.
  rewrite (retry_loop_plan _ _ (reading_get_all_values_fatal ws)). unfold run_plan.
  destruct (p_error _); [discriminate|]. unfold on_books, reading, get_all_values.
  destruct (sheet_of ws _); [|discriminate]. intros [= <- _]. by eexists.
Qed.

Lemma read_sheet_uncached_typed sid n w f w' :
  read_sheet_uncached sid n w = (Ok f, w') -> frame_typed f.
Proof.
  unfold read_sheet_uncached. intros H.
  apply st_bind_ok_inv in H as (ws & w1 & _ & H). apply st_bind_ok_inv in H as (vals & w2 & Hv & H).
  injection H as <- _. destruct (safe_get_all_values_grid _ _ _ _ Hv) as [g ->]. apply to_frame_typed.
Qed.

(** ** The read cache stays typed *)

Lemma read_sheet_typed sid n w r w' :
  cache_typed w -> read_sheet_to_df sid n w = (r, w') ->
  cache_typed w' /\ (forall f, r = Ok f -> frame_typed f).
Proof.
  intros Hw. unfold read_sheet_to_df.
  assert (Hmiss : refresh sid n w = (r, w') -> cache_typed w' /\ (forall f, r = Ok f -> frame_typed f)).
  { unfold refresh. destruct (read_sheet_uncached sid n w) as [[f|e] w1] eqn:Hr.
    - intros [= <- <-]. pose proof (read_sheet_uncached_typed _ _ _ _ _ Hr) as Hf.
      split; [|by intros ? [= <-]]. apply map_Forall_insert_2; [done|].
      exact (keeps_read_sheet_uncached keeps_typed sid n _ _ _ Hr Hw).
    - intros [= <- <-]. split; [|done]. exact (keeps_read_sheet_uncached keeps_typed sid n _ _ _ Hr Hw). }
  destruct (w_data w !! (sid, n)) as [e|] eqn:He; [|exact Hmiss].
  destruct (fresh_entry (w_clock w) e); [|exact Hmiss].
  intros [= <- <-]. split; [done|]. intros f [= <-]. exact (Hw _ _ He).
Qed.

Lemma keeps_read_sheet_typed sid n : keeps keeps_typed (read_sheet_to_df sid n).
Proof. intros w r w' H Hw. exact (proj1 (read_sheet_typed _ _ _ _ _ Hw H)). Qed.

Lemma keeps_cache_data_clear : keeps keeps_typed cache_data_clear.
Proof. apply keeps_modify. intros w _. apply map_Forall_empty. Qed.

#[export] Hint Resolve keeps_read_sheet_typed keeps_cache_data_clear : gsheets.

(** Every operation of the page on the process state keeps the cache
    typed: loading, toggling, and the bulk writer when it writes a typed
    frame (the cache keeps its snapshots). *)
Lemma keeps_typed_load_articles : keeps keeps_typed load_articles.
Proof.
  unfold load_articles. keeps_auto; auto with gsheets;
    repeat (case_match; keeps_auto; auto with gsheets).
  apply keeps_get_or_create_worksheet, _.
Qed.

Lemma keeps_typed_on_toggle s chk k : keeps keeps_typed (on_toggle s chk k).
Proof.
  unfold on_toggle, upsert_read_status. keeps_auto; auto with gsheets;
    repeat (case_match; keeps_auto; auto with gsheets);
    first [apply keeps_sleep | apply keeps_get_or_create_worksheet | apply keeps_safe_get_all_values |
           apply keeps_safe_update_cell | apply keeps_safe_append_row]; apply _.
Qed.

Lemma keeps_typed_write_df sid n df : keeps keeps_typed (write_df_to_sheet sid n df).
Proof. apply keeps_write_df_to_sheet, _. Qed.

(** ** The article frame *)

Lemma column_index_lt cols name i : column_index cols name = Some i -> i < length cols.
Proof.
  unfold column_index. destruct (list_find _ cols) as [[j c]|] eqn:Hf; [|discriminate].
  intros [= <-]. apply list_find_Some in Hf as (Hj & _). by eapply lookup_lt_Some.
Qed.

(** C17: the type of the frame [load_articles] returns.  From a typed
    read cache, a load that shows articles leaves the cache typed and
    gives rows with one cell per column of the frame, each with the
    [ItemKey] that is its own [URL] cell (the column exists, and the key is
    never a default). *)
Theorem load_articles_typed w df w' :
  cache_typed w -> load_articles w = (Ok (Some df), w') ->
  cache_typed w' /\
  exists iu, column_index (af_cols df) "URL" = Some iu /\
    Forall (fun a => length (art_cells a) = length (af_cols df) /\ art_cells a !! iu = Some (art_key a))
      (af_rows df).
Proof.
  intros Hw H. split; [exact (keeps_typed_load_articles _ _ _ H Hw)|].
  unfold load_articles in H. apply st_bind_ok_inv in H as (f & w1 & H1 & H).
  destruct (read_sheet_typed _ _ _ _ _ Hw H1) as (_ & Hf). specialize (Hf f eq_refl).
  destruct (frame_empty f).
  { apply st_bind_ok_inv in H as (? & ? & _ & H). discriminate. }
  destruct (column_index (columns f) "URL") as [iu|] eqn:Hiu; [|discriminate].
  apply st_bind_ok_inv in H as (rs & w2 & _ & H).
  destruct (status_flags rs); [|discriminate]. destruct (_ && _); [discriminate|]. injection H as <- _.
  exists iu. split; [done|]. cbn. apply Forall_fmap.
  eapply Forall_impl; [exact Hf|]. intros r Hr. cbn in Hr |- *. split; [done|].
  pose proof (column_index_lt _ _ _ Hiu).
  destruct (nth_lookup_or_length r iu "") as [Hl|Hl]; [done|lia].
Qed.

(** ** Witness *)

Lemma load_articles_typed_witness :
  match load_articles app_world with
  | (Ok (Some df), w') =>
      cache_typed w' /\
      exists iu, column_index (af_cols df) "URL" = Some iu /\
        Forall (fun a => length (art_cells a) = length (af_cols df) /\ art_cells a !! iu = Some (art_key a))
          (af_rows df)
  | _ => False
  end.
Proof.
  assert (Hs : match (load_articles app_world).1 with Ok (Some _) => True | _ => False end)
    by (vm_compute; exact I).
  destruct (load_articles app_world) as [[[df|]|e] w'] eqn:H; cbn in Hs; [|contradiction..].
  exact (load_articles_typed app_world df w' (map_Forall_empty _) H).
Defined.
