(* ===== verification/Display.v ===== *)
(** * Display: [display_paginated_articles] (src/app.py, lines 18-19 and
      52-115)

    The function clamps the page number of the session, draws the rows of
    the page and then the previous/next buttons, which move the page and
    rerun the script.  Each row is drawn as HTML fragments (title,
    subtitle when there is one, author, date and links) in a [div] whose
    class dims read articles, followed by a checkbox keyed by
    [stable_key("readchk", ItemKey)] whose [on_change] callback is
    [on_toggle(chk_key, ItemKey)].

    Two library functions are parameters of the section [Render]:
    [hashlib.md5(...).hexdigest()] and [Timestamp.strftime('%Y-%m-%d')].
    The [Date] cell of a row, as [pd.to_datetime] converted it in
    [load_articles], is the function [date].  A Streamlit checkbox with a
    key shows the value the session holds under that key when there is
    one, and its [value=] argument only otherwise, then stores what it
    shows under its key; a second widget with the same key in one run
    raises [StreamlitDuplicateElementKey].  [checkbox] models both, with
    the keys already drawn in the run as an explicit set (the other
    widgets of the page, in the sidebar, have keys of other prefixes).

    Theorems: the pages partition the list (C25), the clamped page is
    valid and not empty (C26), a run keeps the page in range (C27),
    two rows of one key on the page make the run raise (C10), the rows
    drawn are the page's articles with their keys and flags, and clicking
    the checkbox of a row upserts that row's key with the negation of
    what the box showed (C24). *)

From Stdlib Require Import Ascii String ZArith.
From stdpp Require Import base gmap gmap strings list pretty.
From S2P Require Import Prelude Sheets Retry Registry ReadCache Upsert App.

Local Open Scope st_scope.

(** [df[name]] and [row[name]]: [KeyError] when the column is absent. *)
Definition column (cols : list string) (name : string) : result Exn nat :=
  match column_index cols name with Some i => Ok i | None => Err (KeyError name) end.

(** ** Pagination (lines 60-66 and 105-115) *)

Definition items_per_page : Z := 8.

(** [(len(df) + items_per_page - 1) // items_per_page] *)
Definition total_pages (n : nat) : Z := (Z.of_nat n + items_per_page - 1) / items_per_page.

(** [min(page, max(total_pages - 1, 0))] *)
Definition clamp_page (page : Z) (n : nat) : Z := Z.min page (Z.max (total_pages n - 1) 0).

(** [df.iloc[start:end]] for [start = page * items_per_page >= 0]. *)
Definition page_slice {A} (page : Z) (l : list A) : list A :=
  take (Z.to_nat items_per_page) (drop (Z.to_nat (page * items_per_page)) l).

(** The buttons pressed in a run: Streamlit reports a click in the run
    that follows it, and a run sees one click at most. *)
Inductive Click := NoClick | ClickPrev | ClickNext.

(** Lines 106-114: the buttons read [st.session_state.page]; the result
    is [True] when a button calls [st.rerun()], which ends the run. *)
Definition buttons (click : Click) (total : Z) : ST Session Exn bool :=
  let! s := st_get in
  let page := default 0%Z (ss_page s) in
  match click with
  | ClickPrev =>
      if (0 <? page)%Z then let! _ := st_modify (set_page (page - 1)%Z) in st_ret true
      else st_ret false
  | ClickNext =>
      if (page <? total - 1)%Z then let! _ := st_modify (set_page (page + 1)%Z) in st_ret true
      else st_ret false
  | NoClick => st_ret false
  end.

(** ** Drawing a row (lines 75-103) *)

(** What one row is drawn with. *)
Record RowView := mkRowView {
  rv_html : list string;         (** the [st.markdown] blocks, in order *)
  rv_chk_key : string;           (** the checkbox's key *)
  rv_checked : bool;             (** what the checkbox shows *)
  rv_args : string * string }.   (** the arguments of [on_toggle] *)

(** [f"<div class='{wrapper_class}'>{body}</div>"] *)
Definition div (cls body : string) : string := "<div class='" +:+ cls +:+ "'>" +:+ body +:+ "</div>".

(** [col_a.checkbox(..., value=value, key=key)]: the keys already drawn
    in this run are [used]. *)
Definition checkbox (key : string) (value : bool) (used : gset string) : ST Session Exn bool :=
  if bool_decide (key ∈ used) then st_raise (DuplicateElementKey key)
  else
    let! s := st_get in
    let checked := default value (ss_bools s !! key) in
    let! _ := st_modify (set_bools (<[key := checked]> (ss_bools s))) in
    st_ret checked.

Section Render.

(** [hashlib.md5(s.encode('utf-8'), usedforsecurity=False).hexdigest()] *)
Context (md5_hex : string -> string).
(** [Timestamp.strftime('%Y-%m-%d')] *)
Context (strftime_ymd : Z -> string).
(** The frame's columns, and the [Date] cell of each row as converted. *)
Context (cols : list string) (date : Article -> option Z).

(** [stable_key(prefix, s)] (lines 18-19) *)
Definition stable_key (prefix s : string) : string := prefix +:+ "_" +:+ md5_hex s.

Definition row_key (a : Article) : string := stable_key "readchk" (art_key a).

(** Lines 76-89: the markdown blocks of a row. *)
Definition row_html (a : Article) : result Exn (list string) :=
  let cell i := nth i (art_cells a) "" in
  let wrapper_class := if art_read a then "read-dim" else "" in
  it ← column cols "Title";
  let title_html := "<font size=5>♦ <b>" +:+ cell it +:+ "</b></font>" in
  isub ← column cols "Subtitle";
  let subtitle_html := cell isub in
  _ ← column cols "Date";
  let date_str := match date a with Some d => strftime_ymd d | None => "N/A" end in
  iauth ← column cols "Author";
  iurl ← column cols "URL";
  let link_html :=
    cell iauth +:+ ",  " +:+ date_str +:+ ", " +:+
    "<a href='" +:+ cell iurl +:+ "' target='_blank' style='margin-right:15px'>🔗全文連結</a>" +:+
    "<a href='https://freedium.cfd/" +:+ cell iurl +:+ "' target='_blank'>🔗破解連結</a>" in
  mret ([div wrapper_class title_html] ++
      (match subtitle_html with EmptyString => [] | _ => [div wrapper_class subtitle_html] end) ++
      [div wrapper_class link_html]).

(** One iteration of the loop of line 75. *)
Definition render_row (used : gset string) (a : Article) : ST Session Exn RowView :=
  let! html := st_lift (row_html a) in
  let chk_key := row_key a in
  let! checked := checkbox chk_key (art_read a) used in
  st_ret (mkRowView html chk_key checked (chk_key, art_key a)).

(** The loop of line 75 over the rows of the page. *)
Fixpoint render_rows (used : gset string) (items : list Article) : ST Session Exn (list RowView) :=
  match items with
  | [] => st_ret []
  | a :: items' =>
      let! v := render_row used a in
      let! vs := render_rows ({[rv_chk_key v]} ∪ used) items' in
      st_ret (v :: vs)
  end.

(** What [display_paginated_articles] shows. *)
Inductive Shown :=
| NoArticles
    (** [st.info("無文章。")] *)
| PageOf (items : list Article) (views : list RowView) (page total : Z)
    (** the rows of the page, as drawn, and [頁碼: page + 1 / total] *).

(** [display_paginated_articles(df)] on the rows of [df]; the boolean is
    [True] when a button reruns the script. *)
Definition display_paginated_articles (click : Click) (rows : list Article) :
    ST Session Exn (Shown * bool) :=
  match rows with
  | [] => st_ret (NoArticles, false)
  | _ :: _ =>
      let! s := st_get in
      let total := total_pages (length rows) in
      let page := clamp_page (default 0%Z (ss_page s)) (length rows) in
      let! _ := st_modify (set_page page) in
      let page_df := page_slice page rows in
      let! views := render_rows ∅ page_df in
      let! rerun := buttons click total in
      st_ret (PageOf page_df views page total, rerun)
  end.

End Render.

(** A click on a checkbox: Streamlit stores the new value under its key,
    then calls [on_change] with its [args]. *)
Definition click_checkbox (v : RowView) (s : Session) : Session :=
  set_bools (<[rv_chk_key v := negb (rv_checked v)]> (ss_bools s)) s.

(** ** Pagination lemmas *)

Lemma total_pages_nat n : Z.to_nat (total_pages n) = (n + 7) / 8.
Proof.
  unfold total_pages, items_per_page.
  replace (Z.of_nat n + 8 - 1)%Z with (Z.of_nat (n + 7)) by lia.
  rewrite Z2Nat.inj_div by lia. rewrite !Nat2Z.id. reflexivity.
Qed.

Lemma page_slices_prefix {A} (l : list A) k :
  concat (map (fun p => page_slice (Z.of_nat p) l) (seq 0 k)) = take (k * 8) l.
Proof.
  induction k as [|k IH]; [done|].
  rewrite seq_S, map_app, concat_app, IH. cbn. rewrite app_nil_r.
  unfold page_slice, items_per_page.
  replace (Z.to_nat (Z.of_nat k * 8)) with (k * 8) by lia.
  rewrite take_take_drop. f_equal. cbn. lia.
Qed.

Lemma total_pages_pos n : n <> 0 -> (1 <= total_pages n)%Z.
Proof.
  intros Hn. unfold total_pages, items_per_page.
  apply Z.div_le_lower_bound; lia.
Qed.

Lemma clamp_page_range page n :
  (0 <= page)%Z -> n <> 0 -> (0 <= clamp_page page n < total_pages n)%Z.
Proof.
  intros Hp Hn. pose proof (total_pages_pos n Hn). unfold clamp_page.
  apply Z.min_case_strong; intros; lia.
Qed.

(** The first row of the clamped page exists. *)
Lemma clamp_page_before_end page n :
  (0 <= page)%Z -> n <> 0 -> (clamp_page page n * items_per_page < Z.of_nat n)%Z.
Proof.
  intros Hp Hn. unfold clamp_page, total_pages, items_per_page.
  pose proof (Z.div_mod (Z.of_nat n + 8 - 1) 8 ltac:(lia)).
  pose proof (Z.mod_pos_bound (Z.of_nat n + 8 - 1) 8 ltac:(lia)).
  assert (Hs : (Z.max ((Z.of_nat n + 8 - 1) / 8 - 1) 0 * 8 < Z.of_nat n)%Z)
    by (apply Z.max_case_strong; intros; lia).
  apply Z.min_case_strong; intros; lia.
Qed.

Lemma buttons_run click total s :
  let p := default 0%Z (ss_page s) in
  exists rr, buttons click total s =
    (Ok rr, match click with
            | ClickPrev => if (0 <? p)%Z then set_page (p - 1) s else s
            | ClickNext => if (p <? total - 1)%Z then set_page (p + 1) s else s
            | NoClick => s
            end).
Proof.
  unfold buttons. st_unfold. cbv zeta.
  destruct click; [|destruct (0 <? _)%Z|destruct (_ <? _ - 1)%Z]; by eexists.
Qed.

(** ** Checkboxes *)

Lemma checkbox_fresh key value used s :
  key ∉ used ->
  let c := default value (ss_bools s !! key) in
  checkbox key value used s = (Ok c, set_bools (<[key := c]> (ss_bools s)) s).
Proof. intros Hk. unfold checkbox. rewrite bool_decide_false by done. reflexivity. Qed.

Lemma checkbox_dup key value used s :
  key ∈ used -> checkbox key value used s = (Err (DuplicateElementKey key), s).
Proof. intros Hk. unfold checkbox. by rewrite bool_decide_true. Qed.

(** Drawing changes the checkbox values of the session and nothing else. *)
Definition only_bools (s s' : Session) : Prop := s' = set_bools (ss_bools s') s.

#[export] Instance only_bools_preorder : PreOrder only_bools.
Proof.
  split; [intros []; reflexivity|].
  intros s1 s2 s3 -> ->. reflexivity.
Qed.

Lemma keeps_checkbox key value used : keeps only_bools (checkbox key value used).
Proof.
  unfold checkbox. keeps_auto. apply keeps_modify. intros s'. reflexivity.
Qed.

#[export] Hint Resolve keeps_checkbox : gsheets.

(** ** Drawing the rows *)

Section Rows.
Context (md5_hex : string -> string) (strftime_ymd : Z -> string).
Context (cols : list string) (date : Article -> option Z).

Notation row_key := (row_key md5_hex).
Notation row_html := (row_html strftime_ymd cols date).
Notation render_rows := (render_rows md5_hex strftime_ymd cols date).

(** The columns a row is drawn from. *)
Definition drawable : Prop := Forall (fun n => n ∈ cols) ["Title"; "Subtitle"; "Date"; "Author"; "URL"].

Lemma column_present n : n ∈ cols -> exists i, column cols n = Ok i.
Proof.
  unfold column, column_index. intros Hn.
  destruct (list_find (fun c => c = n) cols) as [[i c]|] eqn:Hf; [by eexists|].
  apply list_find_None in Hf. apply Forall_forall with (x := n) in Hf; done.
Qed.

Lemma row_html_ok a : drawable -> exists h, row_html a = Ok h.
Proof.
  unfold drawable. rewrite !Forall_cons. intros (H1 & H2 & H3 & H4 & H5 & _).
  destruct (column_present _ H1) as [i1 E1], (column_present _ H2) as [i2 E2],
    (column_present _ H3) as [i3 E3], (column_present _ H4) as [i4 E4],
    (column_present _ H5) as [i5 E5].
  unfold Display.row_html. rewrite E1, E2, E3, E4, E5. eexists; reflexivity.
Qed.

Lemma keeps_render_rows used items : keeps only_bools (render_rows used items).
Proof.
  revert used. induction items as [|a items IH]; intros used; cbn; keeps_auto; auto.
  unfold render_row. keeps_auto; auto with gsheets.
Qed.

(** A key that no row of the run has is left as it was. *)
Lemma render_rows_other used items s r s' k :
  render_rows used items s = (r, s') -> k ∉ map row_key items -> ss_bools s' !! k = ss_bools s !! k.
Proof.
  revert used s r. induction items as [|a items IH]; intros used s r H Hk; cbn in H.
  - by injection H as _ <-.
  - cbn [map] in Hk. rewrite not_elem_of_cons in Hk. destruct Hk as [Hka Hk].
    unfold st_bind at 1, render_row at 1 in H. st_unfold.
    destruct (row_html a); [|by injection H as _ <-].
    unfold checkbox in H. case_bool_decide; [by injection H as _ <-|].
    cbn in H. destruct (render_rows _ items _) as [[vs|e] s2] eqn:Hr;
      injection H as _ <-; rewrite (IH _ _ _ Hr Hk); cbn; by rewrite lookup_insert_ne.
Qed.

(** What a row is drawn as, in the session [s] the page starts from. *)
Definition drawn (s : Session) (a : Article) (v : RowView) : Prop :=
  row_html a = Ok (rv_html v) /\ rv_chk_key v = row_key a /\ rv_args v = (row_key a, art_key a) /\
  rv_checked v = default (art_read a) (ss_bools s !! row_key a).

Lemma render_rows_sound used items s vs s' :
  render_rows used items s = (Ok vs, s') ->
  NoDup (map row_key items) /\ Forall (fun a => row_key a ∉ used) items /\
  Forall2 (drawn s) items vs /\
  Forall2 (fun a v => ss_bools s' !! row_key a = Some (rv_checked v)) items vs.
Proof.
  revert used s vs. induction items as [|a items IH]; intros used s vs H; cbn in H.
  { injection H as <- _. split_and!; constructor. }
  unfold st_bind at 1, render_row at 1 in H. st_unfold.
  destruct (row_html a) as [h|] eqn:Hh; [|discriminate].
  unfold checkbox in H. case_bool_decide as Hu; [discriminate|]. cbn in H.
  destruct (render_rows _ items _) as [[vs'|e] s2] eqn:Hr; [|discriminate].
  injection H as <- <-.
  destruct (IH _ _ _ Hr) as (Hnd & Hfr & Hdr & Hlk).
  assert (Hne : row_key a ∉ map row_key items).
  { intros Hin. apply list_elem_of_fmap in Hin as (b & Hb & Hin).
    apply (proj1 (Forall_forall _ _) Hfr b Hin). rewrite <- Hb. by apply elem_of_union_l, elem_of_singleton. }
  split_and!.
  - by constructor.
  - constructor; [done|]. eapply Forall_impl; [exact Hfr|]. intros b Hb Hu'. by apply Hb, elem_of_union_r.
  - constructor; [done|]. apply (Forall2_impl_Forall_l _ _ _ _ _ Hdr Hfr).
    intros b v Hb (? & ? & ? & Hc). split_and!; [done..|]. rewrite Hc. cbn.
    rewrite lookup_insert_ne; [done|]. intros Heq. apply Hb, elem_of_union_l, elem_of_singleton. done.
  - constructor; [|done]. cbn. rewrite (render_rows_other _ _ _ _ _ _ Hr Hne). cbn.
    by rewrite lookup_insert_eq.
Qed.

End Rows.

(** ** The page *)

Section Page.
Context (md5_hex : string -> string) (strftime_ymd : Z -> string).
Context (cols : list string) (date : Article -> option Z).

Notation row_key := (row_key md5_hex).
Notation render_rows := (render_rows md5_hex strftime_ymd cols date).
Notation display := (display_paginated_articles md5_hex strftime_ymd cols date).

Lemma display_run click rows s :
  rows <> [] ->
  let p := clamp_page (default 0%Z (ss_page s)) (length rows) in
  let t := total_pages (length rows) in
  display click rows s =
  (let! views := render_rows ∅ (page_slice p rows) in
   let! rerun := buttons click t in
   st_ret (PageOf (page_slice p rows) views p t, rerun)) (set_page p s).
Proof. by destruct rows. Qed.

(** What a run shows: the clamped page, its rows, drawn from the session
    the run started with, and a session that holds what each box shows. *)
Lemma display_shows click rows s items views p t rr s' :
  display click rows s = (Ok (PageOf items views p t, rr), s') ->
  p = clamp_page (default 0%Z (ss_page s)) (length rows) /\ items = page_slice p rows /\
  t = total_pages (length rows) /\
  Forall2 (drawn md5_hex strftime_ymd cols date s) items views /\
  Forall2 (fun a v => ss_bools s' !! row_key a = Some (rv_checked v)) items views.
Proof.
  intros H. destruct (decide (rows = [])) as [->|Hl]; [discriminate|].
  rewrite display_run in H by done.
  apply st_bind_ok_inv in H as (vs & s2 & Hr & H).
  apply st_bind_ok_inv in H as (rr' & s3 & Hb & H). injection H as <- <- <- <- <- <-.
  destruct (render_rows_sound _ _ _ _ _ _ _ _ _ Hr) as (_ & _ & Hdr & Hlk).
  split_and!; [done..| |].
  - exact Hdr.
  - destruct (buttons_run click (total_pages (length rows)) s2) as [rr'' Hb'].
    rewrite Hb in Hb'. injection Hb' as _ ->.
    destruct click; [|destruct (0 <? _)%Z|destruct (_ <? _ - 1)%Z]; exact Hlk.
Qed.

(** The page number a run leaves in the session: the clamped page, moved
    by one when a button allows it. *)
Lemma display_page click rows s res s' :
  rows <> [] -> display click rows s = (res, s') ->
  let p := clamp_page (default 0%Z (ss_page s)) (length rows) in
  exists p', ss_page s' = Some p' /\
    (p' = p \/ (p' = p - 1 /\ 0 < p) \/ (p' = p + 1 /\ p < total_pages (length rows) - 1))%Z.
Proof.
  intros Hl H p. rewrite display_run in H by done. fold p in H.
  destruct (render_rows ∅ (page_slice p rows) (set_page p s)) as [[vs|e] s2] eqn:Hr.
  - pose proof (keeps_render_rows _ _ _ _ _ _ _ _ _ Hr) as Hs2.
    assert (Hp : ss_page s2 = Some p) by (rewrite Hs2; reflexivity).
    rewrite (st_bind_ok _ _ _ _ _ Hr) in H.
    destruct (buttons_run click (total_pages (length rows)) s2) as [rr Hb]. rewrite Hp in Hb.
    rewrite (st_bind_ok _ _ _ _ _ Hb) in H. injection H as _ <-. cbv zeta in Hb.
    destruct click; [|destruct (0 <? p)%Z eqn:E|destruct (p <? _ - 1)%Z eqn:E];
      try rewrite ?Z.ltb_lt, ?Z.ltb_ge in E; eexists; (split; [done|]); lia.
  - rewrite (st_bind_err _ _ _ _ _ Hr) in H. injection H as _ <-.
    exists p. split; [|by left]. rewrite (keeps_render_rows _ _ _ _ _ _ _ _ _ Hr). reflexivity.
Qed.

End Page.

(** With the columns present, the only way drawing fails is a key drawn
    twice. *)
Lemma render_rows_errors md5_hex strftime_ymd cols date used items s e s' :
  drawable cols -> render_rows md5_hex strftime_ymd cols date used items s = (Err e, s') ->
  exists k, e = DuplicateElementKey k.
Proof.
  intros Hd. revert used s. induction items as [|a items IH]; intros used s H; cbn in H; [discriminate|].
  unfold st_bind at 1, render_row at 1 in H. st_unfold.
  destruct (row_html_ok strftime_ymd cols date a Hd) as [h Hh]. rewrite Hh in H.
  unfold checkbox in H. case_bool_decide; [injection H as <- _; by eexists|]. cbn in H.
  destruct (render_rows _ _ _ _ _ items _) as [[vs|e'] s2] eqn:Hr; [discriminate|].
  injection H as -> ->. exact (IH _ _ Hr).
Qed.

(** ** Properties *)

(** C25: the pages partition the article list: the slices of pages
    [0 .. total_pages - 1], in order, are the whole list. *)
Theorem pages_partition {A} (l : list A) :
  concat (map (fun p => page_slice (Z.of_nat p) l) (seq 0 (Z.to_nat (total_pages (length l))))) = l.
Proof.
  rewrite page_slices_prefix, total_pages_nat. apply take_ge.
  pose proof (Nat.div_mod (length l + 7) 8). pose proof (Nat.mod_upper_bound (length l + 7) 8).
  lia.
Qed.

(** C26: the clamped page of a non-empty list is a valid page and shows at
    least one article. *)
Theorem clamp_page_nonempty {A} (l : list A) page :
  (0 <= page)%Z -> l <> [] ->
  (0 <= clamp_page page (length l) < total_pages (length l))%Z /\
  page_slice (clamp_page page (length l)) l <> [].
Proof.
  intros Hp Hl. assert (Hn : length l <> 0) by (destruct l; cbn; [done|lia]).
  split; [by apply clamp_page_range|].
  pose proof (clamp_page_before_end page (length l) Hp Hn) as Hs.
  pose proof (clamp_page_range page (length l) Hp Hn) as Hr.
  unfold page_slice, items_per_page in *. intros Hnil.
  apply (f_equal length) in Hnil. rewrite length_take, length_drop in Hnil. cbn in Hnil. lia.
Qed.

(** C27: a run of [display_paginated_articles] on a non-empty list, from
    a non-negative page and whatever button was clicked, leaves the page
    number in the session within [0, total_pages - 1], whether the rows
    are drawn or drawing raises. *)
Theorem display_keeps_page_in_range md5_hex strftime_ymd cols date click rows s res s' :
  rows <> [] -> (0 <= default 0%Z (ss_page s))%Z ->
  display_paginated_articles md5_hex strftime_ymd cols date click rows s = (res, s') ->
  exists p, ss_page s' = Some p /\ (0 <= p < total_pages (length rows))%Z.
Proof.
  intros Hl Hp H. assert (Hn : length rows <> 0) by (destruct rows; cbn; [done|lia]).
  pose proof (clamp_page_range _ _ Hp Hn) as Hr.
  destruct (display_page _ _ _ _ _ _ _ _ _ Hl H) as (p' & -> & Hp'). eexists; split; [reflexivity|].
  lia.
Qed.

(** C10: two articles with the same [ItemKey] on the page being shown
    make the run raise [StreamlitDuplicateElementKey]: their checkboxes
    get the same key. *)
Theorem display_duplicate_key md5_hex strftime_ymd cols date click rows s i j a b :
  drawable cols ->
  let p := clamp_page (default 0%Z (ss_page s)) (length rows) in
  page_slice p rows !! i = Some a -> page_slice p rows !! j = Some b -> i <> j ->
  art_key a = art_key b ->
  exists k s', display_paginated_articles md5_hex strftime_ymd cols date click rows s =
               (Err (DuplicateElementKey k), s').
Proof.
  intros Hd p Ha Hb Hij Hk.
  assert (Hl : rows <> []) by (intros ->; unfold page_slice in Ha; by rewrite drop_nil, take_nil in Ha).
  rewrite display_run by done. fold p.
  destruct (render_rows md5_hex strftime_ymd cols date ∅ (page_slice p rows) (set_page p s))
    as [[vs|e] s2] eqn:Hr.
  - destruct (render_rows_sound _ _ _ _ _ _ _ _ _ Hr) as (Hnd & _).
    exfalso. apply Hij. apply (NoDup_lookup _ _ _ (row_key md5_hex a) Hnd).
    + by rewrite list_lookup_fmap, Ha.
    + rewrite list_lookup_fmap, Hb. cbn. unfold row_key. by rewrite Hk.
  - destruct (render_rows_errors _ _ _ _ _ _ _ _ _ Hd Hr) as [k ->].
    exists k, s2. exact (st_bind_err _ _ _ _ _ Hr).
Qed.

(** C24: composition of drawing, a click and [on_toggle].  A row of the
    page is drawn with the flag the session holds for its checkbox,
    the sheet's flag when it holds none; clicking that checkbox makes
    Streamlit call [on_toggle] with the row's arguments, which waits the
    debounce delay and upserts the row's [ItemKey] with the negation of
    what the box showed. *)
Theorem click_toggles_row md5_hex strftime_ymd cols date click rows s items views p t rr s' i a v :
  display_paginated_articles md5_hex strftime_ymd cols date click rows s =
    (Ok (PageOf items views p t, rr), s') ->
  items !! i = Some a -> views !! i = Some v ->
  rv_checked v = default (art_read a) (ss_bools s !! row_key md5_hex a) /\
  on_toggle (click_checkbox v s') (rv_args v).1 (rv_args v).2 =
  (let! _ := sleep DEBOUNCE_MS in upsert_read_status SHEET_ID (art_key a) (negb (rv_checked v))).
Proof.
  intros H Ha Hv. destruct (display_shows _ _ _ _ _ _ _ _ _ _ _ _ _ H) as (_ & _ & _ & Hdr & _).
  destruct (Forall2_lookup_lr _ _ _ _ _ _ Hdr Ha Hv) as (_ & Hkey & Hargs & Hc).
  split; [exact Hc|]. unfold on_toggle, get_bool, click_checkbox. rewrite Hargs, <- Hkey. cbn.
  by rewrite lookup_insert_eq.
Qed.

(** ** Witnesses and scenarios

    [hashlib.md5] is replaced by the identity and [strftime] by a constant
    where a scenario needs them; the theorems hold for every function. *)

Definition ten_articles : list Article :=
  map (fun i => mkArticle [] (pretty i) false) (seq 0 10).

Definition page_one_session : Session := mkSession (Some 1%Z) ∅ "" 0 None None None.

Lemma required_drawable : drawable REQUIRED_COLS.
Proof. repeat constructor. Qed.

Lemma clamp_page_nonempty_witness :
  (0 <= clamp_page 5 (length (seq 0 10)) < total_pages (length (seq 0 10)))%Z /\
  page_slice (clamp_page 5 (length (seq 0 10))) (seq 0 10) <> [].
Proof. apply clamp_page_nonempty; [lia | discriminate]. Defined.

Lemma display_keeps_page_in_range_witness :
  exists p, ss_page (snd (display_paginated_articles (fun u => u) (fun _ => "") REQUIRED_COLS (fun _ => None)
                            ClickNext ten_articles page_one_session)) = Some p /\
            (0 <= p < total_pages (length ten_articles))%Z.
Proof.
  eapply (display_keeps_page_in_range (fun u => u) (fun _ => "") REQUIRED_COLS (fun _ => None)
            ClickNext ten_articles page_one_session); [discriminate|cbn; lia|].
  apply surjective_pairing.
Defined.

(** Two rows of one URL, on the first page. *)
Definition twin_articles : list Article :=
  [mkArticle [] "http://x/0" false; mkArticle [] "http://x/0" true; mkArticle [] "http://x/1" false].

Lemma display_duplicate_key_witness :
  exists k s', display_paginated_articles (fun u => u) (fun _ => "") REQUIRED_COLS (fun _ => None)
                 NoClick twin_articles page_one_session = (Err (DuplicateElementKey k), s').
Proof.
  apply (display_duplicate_key _ _ _ _ NoClick twin_articles page_one_session 0 1
           (mkArticle [] "http://x/0" false) (mkArticle [] "http://x/0" true));
    [exact required_drawable | reflexivity | reflexivity | lia | reflexivity].
Defined.

Lemma click_toggles_row_witness :
  match display_paginated_articles (fun u => u) (fun _ => "") REQUIRED_COLS (fun _ => None)
          NoClick ten_articles page_one_session with
  | (Ok (PageOf items views _ _, _), s') =>
      forall a v, items !! 1 = Some a -> views !! 1 = Some v ->
      rv_checked v = default (art_read a) (ss_bools page_one_session !! row_key (fun u => u) a) /\
      on_toggle (click_checkbox v s') (rv_args v).1 (rv_args v).2 =
      (let! _ := sleep DEBOUNCE_MS in upsert_read_status SHEET_ID (art_key a) (negb (rv_checked v)))
  | _ => False
  end.
Proof.
  destruct (display_paginated_articles _ _ _ _ NoClick ten_articles page_one_session)
    as [[[[|items views p t] rr]|e] s'] eqn:H;
    try (vm_compute in H; discriminate).
  intros a v Ha Hv. exact (click_toggles_row _ _ _ _ _ _ _ _ _ _ _ _ _ _ _ _ H Ha Hv).
Defined.

Example page_of_ten : page_slice (clamp_page 5 10) (seq 0 10) = [8; 9].
Proof. reflexivity. Qed.

(** An article another tab marked unread, drawn in a tab whose session
    still holds its checkbox as checked: the row is not dimmed (the
    sheet's flag) but the box shows a tick (the session's value). *)
Example stale_checkbox :
  let a := mkArticle ["2024-01-10"; "Ann"; "Title 0"; ""; "http://x/0"; "AI Algorithm"] "http://x/0" false in
  let s := mkSession None {[ row_key (fun u => u) a := true ]} "" 0 None None None in
  match (render_row (fun u => u) (fun _ => "2024-01-10") REQUIRED_COLS (fun _ => Some 20240110%Z) ∅ a s).1 with
  | Ok v => Some (head (rv_html v), rv_checked v)
  | Err _ => None
  end = Some (Some "<div class=''><font size=5>♦ <b>Title 0</b></font></div>", true).
Proof. vm_compute. reflexivity. Qed.
