(* ===== verification/Filters.v ===== *)
(** * Filters: the sidebar, the search box and the page reset of src/app.py

    Every interaction with the page reruns src/app.py from the top.  After
    [load_articles], lines 124-255 build the sidebar (the status radio with
    its counts, the category checkboxes with their select-all boxes),
    reset the page number when the search, the selection or the status
    choice changed since the last run, filter the articles by category and
    read status, sort them by date, filter them by the search term and hand
    the result to [display_paginated_articles].

    The run is a computation on the tab's [Session] in the state and error
    monad of the prelude: a [KeyError] for a missing column or a [re.error]
    for a bad search term ends the run with the session changes made so
    far, as an exception does in the script.

    Three library functions the script calls are parameters of the
    section: [pd.to_datetime(..., errors="coerce")], which infers one
    format from the whole column, is [to_datetime col cell]; and
    [Series.str.contains(term, case=False)], whose term is a regular
    expression compiled once, is [valid_regex term] and
    [regex_search term cell].  [sort_values("Date", ascending=False)] is
    pandas' quicksort, which does not promise any order between rows of
    the same date; the model sorts with stdpp's stable [merge_sort], and
    the theorems only use what every such sort gives: a permutation,
    ordered by date, newest first, rows without a date last. *)

From Stdlib Require Import Ascii String ZArith.
From stdpp Require Import base gmap strings list sorting pretty.
From S2P Require Import Prelude Sheets Retry Registry ReadCache Upsert App Display.

Local Open Scope st_scope.

Definition CATEGORY_COL : string := "Category (20-class)".

Definition ai_categories : list string := [
  "Agentic AI & AI Agents";
  "Retrieval-Augmented Generation (RAG)";
  "Multimodal AI (Vision/Audio/Video + Language)";
  "Prompt Engineering & In-Context Learning";
  "Fine-tuning & Embeddings";
  "Large Language Models (LLM)";
  "Natural Language Processing (non-LLM)";
  "Computer Vision (CV)";
  "Speech & Audio AI";
  "Deep Learning (non-LLM)";
  "Machine Learning (Classical)";
  "AI Algorithm";
  "AI Evaluation & Metrics";
  "AI Infrastructure, MLOps & Frameworks";
  "AI Applications (Business/Dev/Productivity)";
  "AI Policy, Governance & Safety"].

Definition non_ai_display_categories : list string := [
  "Data Science & Statistics";
  "Software Engineering & Programming";
  "Technology/Science";
  "Finance/Economics/Business";
  "Society/Culture/Other"].

(** ** The sidebar (lines 151-208) *)

(** A category checkbox: its widget key, the category it selects and the
    text it is shown with. *)
Record CatBox := mkCatBox { cb_key : string; cb_label : string; cb_display : string }.

(** [key=f"ai_{label}"] for each AI category. *)
Definition ai_boxes : list CatBox := map (fun l => mkCatBox ("ai_" +:+ l) l l) ai_categories.

(** [label = f"Non-AI {display_label}"], [key=f"nonai_{display_label}"]. *)
Definition nonai_boxes : list CatBox :=
  map (fun d => mkCatBox ("nonai_" +:+ d) ("Non-AI " +:+ d) d) non_ai_display_categories.

(** [(df["Category (20-class)"] == label).sum()] *)
Definition count_label (cats : list string) (label : string) : nat :=
  length (filter (fun c => c = label) cats).

(** The three options of the status radio, with their counts. *)
Definition status_options (n unread read : nat) : list string :=
  ["全部（" +:+ pretty n +:+ "）"; "僅未報告（" +:+ pretty unread +:+ "）";
   "僅已報告（" +:+ pretty read +:+ "）"].

(** [st.sidebar.radio(..., index=0)]: the option at the index the user
    picked, the first one by default. *)
Definition radio (options : list string) (i : nat) : string :=
  default (default "" (head options)) (options !! i).

(** Lines 167-173 and 188-195: when the select-all box changed since the
    last run, its value is pushed to the boxes of the categories present,
    then remembered under [prev_key]. *)
Definition sync_all (all_key prev_key : string) (boxes : list CatBox) (unique : list string)
    (s : Session) : Session :=
  let v := get_bool s all_key in
  if bool_decide (v = get_bool s prev_key) then s
  else set_bools (<[prev_key := v]>
         (foldl (fun m b => if bool_decide (cb_label b ∈ unique) then <[cb_key b := v]> m else m)
            (ss_bools s) boxes)) s.

(** Lines 175-183 and 197-206: the categories whose box is shown (present
    in the data) and checked, in the order of the list. *)
Definition picked (boxes : list CatBox) (unique : list string) (s : Session) : list string :=
  cb_label <$> filter (fun b => cb_label b ∈ unique /\ get_bool s (cb_key b) = true) boxes.

(** The texts of the boxes shown: [f"{label}（{cnt} 篇文章）"]. *)
Definition box_texts (boxes : list CatBox) (unique cats : list string) : list string :=
  (fun b => cb_display b +:+ "（" +:+ pretty (count_label cats (cb_label b)) +:+ " 篇文章）")
    <$> filter (fun b => cb_label b ∈ unique) boxes.

(** What the sidebar gives the rest of the run. *)
Record Sidebar := mkSidebar {
  sb_options : list string;   (** the status radio's options *)
  sb_choice : string;         (** [status_choice] *)
  sb_texts : list string;     (** the category boxes shown *)
  sb_picked : list string }.  (** [selected_labels] before [sorted(set(...))] *)

(** Lines 151-208, given the category of each row. *)
Definition sidebar (rows : list Article) (cat : Article -> string) (s : Session) : Session * Sidebar :=
  let total_read := length (filter (fun a => art_read a = true) rows) in
  let total_unread := length (filter (fun a => art_read a = false) rows) in
  let options := status_options (length rows) total_unread total_read in
  let choice := radio options (ss_status s) in
  let cats := map cat rows in
  let unique := remove_dups cats in
  let s1 := sync_all "ai__all" "ai__all_prev" ai_boxes unique s in
  let ai_sel := picked ai_boxes unique s1 in
  let s2 := sync_all "nonai__all" "nonai__all_prev" nonai_boxes unique s1 in
  let nonai_sel := picked nonai_boxes unique s2 in
  (s2, mkSidebar options choice (box_texts ai_boxes unique cats ++ box_texts nonai_boxes unique cats)
         (ai_sel ++ nonai_sel)).

(** ** The page reset (lines 210-227) *)

(** [sorted(set(selected_labels))], by code points ([String.le] compares
    the UTF-8 bytes, which order code points the same way). *)
Definition sorted_labels (l : list string) : list string := merge_sort String.le (remove_dups l).

(** [if st.session_state.get(k) != v: st.session_state.page = 0; ...] for
    the three inputs, after [page] is initialised. *)
Definition reset_page (term : string) (selected : list string) (choice : string) (s : Session) : Session :=
  let s := match ss_page s with None => set_page 0%Z s | Some _ => s end in
  let s := if bool_decide (ss_last_search s = Some term) then s
           else set_last_search term (set_page 0%Z s) in
  let s := if bool_decide (ss_last_selected s = Some selected) then s
           else set_last_selected selected (set_page 0%Z s) in
  if bool_decide (ss_last_status s = Some choice) then s
  else set_last_status choice (set_page 0%Z s).

(** Did an input change since the last run? *)
Definition inputs_changed (term : string) (selected : list string) (choice : string) (s : Session) : Prop :=
  ss_last_search s <> Some term \/ ss_last_selected s <> Some selected \/ ss_last_status s <> Some choice.

(** ** Filtering and sorting (lines 229-240) *)

(** Lines 230-233: the rows of the selected categories, all rows when none
    is selected. *)
Definition by_category (cat : Article -> string) (selected : list string) (rows : list Article) :
    list Article :=
  match selected with
  | [] => rows
  | _ :: _ => filter (fun a => cat a ∈ selected) rows
  end.

(** Lines 235-238. *)
Definition by_status (choice : string) (rows : list Article) : list Article :=
  if contains "僅未報告" choice then filter (fun a => art_read a = false) rows
  else if contains "僅已報告" choice then filter (fun a => art_read a = true) rows
  else rows.

(** Descending dates, [NaT] last: may [d1] come before [d2]? *)
Definition date_before (d1 d2 : option Z) : Prop :=
  match d1, d2 with
  | Some x, Some y => (y <= x)%Z
  | Some _, None => True
  | None, None => True
  | None, Some _ => False
  end.

#[export] Instance date_before_dec : RelDecision date_before.
Proof. intros [x|] [y|]; cbn; apply _. Defined.

Definition later_first (key : Article -> option Z) (a b : Article) : Prop := date_before (key a) (key b).

#[export] Instance later_first_dec key : RelDecision (later_first key).
Proof. intros a b. unfold later_first. apply _. Defined.

(** [sort_values("Date", ascending=False)] *)
Definition sort_by_date (key : Article -> option Z) (rows : list Article) : list Article :=
  merge_sort (later_first key) rows.

(** ** The run (lines 117-255) *)

(** What the main area shows below the search box. *)
Inductive Body :=
| NoMatches
    (** [st.info("無符合搜尋結果。")] *)
| Displayed (sh : Shown).

Record View := mkView {
  v_options : list string;  (** the status radio *)
  v_boxes : list string;    (** the category boxes *)
  v_found : option nat;     (** [搜尋結果（共 n 筆）], when searching *)
  v_body : Body }.

Section Script.

(** [pd.to_datetime(col, errors="coerce")] at a cell of the column [col]. *)
Context (to_datetime : list string -> string -> option Z).
(** [re.compile(term, re.IGNORECASE)] succeeds. *)
Context (valid_regex : string -> bool).
(** [re.search(term, cell, re.IGNORECASE) is not None]. *)
Context (regex_search : string -> string -> bool).
(** [hashlib.md5] and [strftime], for [display_paginated_articles]. *)
Context (md5_hex : string -> string) (strftime_ymd : Z -> string).

(** Lines 244-248: the rows whose title or subtitle matches the term. *)
Definition search_rows (term : string) (title sub : Article -> string) (rows : list Article) :
    list Article :=
  filter (fun a => regex_search term (title a) || regex_search term (sub a) = true) rows.

(** One run of lines 124-255 on the frame [load_articles] returned, with
    the button clicked in the previous run; the boolean is [True] when the
    run ends by [st.rerun()]. *)
Definition page_run (df : ArticleFrame) (click : Click) : ST Session Exn (View * bool) :=
  let rows := af_rows df in
  let cell i a := nth i (art_cells a) "" in
  let! ic := st_lift (column (af_cols df) CATEGORY_COL) in
  let! sb := st_state (sidebar rows (cell ic)) in
  let! s := st_get in
  let term := ss_search s in
  let selected := sorted_labels (sb_picked sb) in
  let! _ := st_modify (reset_page term selected (sb_choice sb)) in
  let filtered := by_status (sb_choice sb) (by_category (cell ic) selected rows) in
  let! id := st_lift (column (af_cols df) "Date") in
  let date a := to_datetime (map (cell id) rows) (cell id a) in
  let sorted := sort_by_date date filtered in
  let display := display_paginated_articles md5_hex strftime_ymd (af_cols df) date in
  let view := mkView (sb_options sb) (sb_texts sb) in
  match term with
  | EmptyString =>
      let! r := display click sorted in
      st_ret (view None (Displayed r.1), r.2)
  | String _ _ =>
      let! it := st_lift (column (af_cols df) "Title") in
      if valid_regex term then
        let! isub := st_lift (column (af_cols df) "Subtitle") in
        let found := search_rows term (cell it) (cell isub) sorted in
        match found with
        | [] => st_ret (view (Some 0) NoMatches, false)
        | _ :: _ =>
            let! r := display click found in
            st_ret (view (Some (length found)) (Displayed r.1), r.2)
        end
      else st_raise (ReError term)
  end.

(** The whole script: [load_articles], [st.stop()] on [None], then the
    page. *)
Definition app_run (click : Click) (w : World) (s : Session) :
    (result Exn (option (View * bool)) * World) * Session :=
  match load_articles w with
  | (Ok (Some df), w') =>
      match page_run df click s with
      | (Ok v, s') => ((Ok (Some v), w'), s')
      | (Err e, s') => ((Err e, w'), s')
      end
  | (Ok None, w') => ((Ok None, w'), s)
  | (Err e, w') => ((Err e, w'), s)
  end.

End Script.

(** ** The page reset *)

Lemma reset_page_fields term sel choice s :
  let s' := reset_page term sel choice s in
  ss_last_search s' = Some term /\ ss_last_selected s' = Some sel /\ ss_last_status s' = Some choice /\
  ss_bools s' = ss_bools s /\ ss_search s' = ss_search s /\ ss_status s' = ss_status s /\
  ss_page s' = Some (if bool_decide (inputs_changed term sel choice s) then 0%Z
                     else default 0%Z (ss_page s)).
Proof.
  destruct s as [p b q i ls lsel lst]. unfold reset_page, inputs_changed.
  destruct p; cbn; repeat (case_bool_decide; cbn in * ); naive_solver.
Qed.

Lemma clamp_page_0 n : clamp_page 0 n = 0%Z.
Proof. unfold clamp_page. lia. Qed.

(** C28: the page a run shows after the reset of lines 213-227: the first
    page when the search term, the selected categories or the status
    choice changed since the last run, otherwise the page of the session,
    clamped to the list. *)
Theorem page_after_reset md5_hex strftime_ymd cols date term sel choice s click rows items views p t rr s' :
  display_paginated_articles md5_hex strftime_ymd cols date click rows (reset_page term sel choice s) =
    (Ok (PageOf items views p t, rr), s') ->
  p = (if bool_decide (inputs_changed term sel choice s) then 0%Z
       else clamp_page (default 0%Z (ss_page s)) (length rows)) /\
  items = page_slice p rows.
Proof.
  intros H. destruct (display_shows _ _ _ _ _ _ _ _ _ _ _ _ _ H) as (-> & -> & _).
  split; [|done].
  destruct (reset_page_fields term sel choice s) as (_ & _ & _ & _ & _ & _ & ->). cbn.
  by case_bool_decide; rewrite ?clamp_page_0.
Qed.

(** ** The select-all boxes *)

Section SyncAll.
Context (all_key prev_key : string) (boxes : list CatBox) (unique : list string).

Definition set_boxes (v : bool) (m : gmap string bool) : gmap string bool :=
  foldl (fun m b => if bool_decide (cb_label b ∈ unique) then <[cb_key b := v]> m else m) m boxes.

Lemma set_boxes_keep v (bs : list CatBox) (m : gmap string bool) k :
  m !! k = Some v ->
  foldl (fun m b => if bool_decide (cb_label b ∈ unique) then <[cb_key b := v]> m else m) m bs !! k = Some v.
Proof.
  revert m. induction bs as [|b bs IH]; intros m Hm; [done|]. cbn. apply IH.
  case_bool_decide; [|done]. destruct (decide (cb_key b = k)) as [<-|].
  - by rewrite lookup_insert_eq.
  - by rewrite lookup_insert_ne.
Qed.

Lemma set_boxes_lookup v m b :
  b ∈ boxes -> cb_label b ∈ unique -> set_boxes v m !! cb_key b = Some v.
Proof.
  unfold set_boxes. revert m. induction boxes as [|b' bs IH]; intros m Hb Hu;
    [by apply elem_of_nil in Hb|].
  apply elem_of_cons in Hb as [->|Hb]; cbn.
  - apply set_boxes_keep. rewrite bool_decide_eq_true_2 by done. by rewrite lookup_insert_eq.
  - by apply IH.
Qed.

Lemma set_boxes_other v m k :
  (forall b, b ∈ boxes -> cb_key b <> k) -> set_boxes v m !! k = m !! k.
Proof.
  unfold set_boxes. revert m. induction boxes as [|b bs IH]; intros m Hk; [done|]. cbn.
  rewrite IH by (intros b' Hb'; apply Hk; set_solver).
  case_bool_decide; [|done]. rewrite lookup_insert_ne; [done|]. apply Hk. set_solver.
Qed.

(** A box of a category present shows the select-all value after the
    select-all box changed. *)
Lemma sync_all_box s b :
  get_bool s all_key <> get_bool s prev_key -> prev_key <> cb_key b ->
  b ∈ boxes -> cb_label b ∈ unique ->
  get_bool (sync_all all_key prev_key boxes unique s) (cb_key b) = get_bool s all_key.
Proof.
  intros Hch Hp Hb Hu. unfold sync_all. rewrite bool_decide_eq_false_2 by done.
  unfold get_bool at 1. cbn [ss_bools set_bools]. rewrite lookup_insert_ne by done.
  fold (set_boxes (get_bool s all_key) (ss_bools s)). by rewrite set_boxes_lookup.
Qed.

(** Keys that are neither the boxes' nor [prev_key] keep their value. *)
Lemma sync_all_other s k :
  k <> prev_key -> (forall b, b ∈ boxes -> cb_key b <> k) ->
  get_bool (sync_all all_key prev_key boxes unique s) k = get_bool s k.
Proof.
  intros Hp Hk. unfold sync_all. case_bool_decide; [done|].
  unfold get_bool at 1. cbn [ss_bools set_bools]. rewrite lookup_insert_ne by done.
  fold (set_boxes (get_bool s all_key) (ss_bools s)). by rewrite set_boxes_other.
Qed.

End SyncAll.

Lemma elem_of_picked boxes unique s l :
  l ∈ picked boxes unique s <->
  exists b, b ∈ boxes /\ cb_label b = l /\ l ∈ unique /\ get_bool s (cb_key b) = true.
Proof.
  unfold picked. rewrite list_elem_of_fmap. setoid_rewrite list_elem_of_filter. naive_solver.
Qed.

(** Cases over the sixteen AI categories. *)
Ltac ai_cases H :=
  repeat (apply elem_of_cons in H as [->|H]; [try (cbn; discriminate)|]);
  try (by apply elem_of_nil in H).

Lemma ai_box_in l : l ∈ ai_categories -> mkCatBox ("ai_" +:+ l) l l ∈ ai_boxes.
Proof. intros Hl. unfold ai_boxes. by apply (list_elem_of_fmap_2 (fun l => mkCatBox ("ai_" +:+ l) l l)). Qed.

Lemma ai_key_not_prev l : l ∈ ai_categories -> "ai__all_prev" <> "ai_" +:+ l.
Proof. intros Hl. ai_cases Hl. Qed.

Lemma ai_not_nonai_label l b : l ∈ ai_categories -> b ∈ nonai_boxes -> cb_label b <> l.
Proof.
  intros Hl Hb. unfold nonai_boxes in Hb. apply list_elem_of_fmap in Hb as (d & -> & _). cbn.
  ai_cases Hl.
Qed.

Lemma nonai_key_not_ai l b : b ∈ nonai_boxes -> cb_key b <> "ai_" +:+ l.
Proof.
  intros Hb. unfold nonai_boxes in Hb. apply list_elem_of_fmap in Hb as (d & -> & _).
  cbn. discriminate.
Qed.

Lemma ai_box_label b : b ∈ ai_boxes -> b = mkCatBox ("ai_" +:+ cb_label b) (cb_label b) (cb_label b).
Proof. unfold ai_boxes. intros Hb. apply list_elem_of_fmap in Hb as (l & -> & _). done. Qed.

(** C29: when the [全選 AI] box changed since the last run, every AI
    category present in the data gets its box set to the select-all value,
    and it is selected exactly when that value is [True]. *)
Theorem select_all_ai rows cat s l :
  get_bool s "ai__all" <> get_bool s "ai__all_prev" ->
  l ∈ ai_categories -> l ∈ map cat rows ->
  get_bool (sidebar rows cat s).1 ("ai_" +:+ l) = get_bool s "ai__all" /\
  (l ∈ sb_picked (sidebar rows cat s).2 <-> get_bool s "ai__all" = true).
Proof.
  intros Hch Hl Hrow. cbn [sidebar fst snd sb_picked].
  set (unique := remove_dups (map cat rows)).
  assert (Hu : l ∈ unique) by (by apply elem_of_remove_dups).
  set (s1 := sync_all "ai__all" "ai__all_prev" ai_boxes unique s).
  assert (H1 : get_bool s1 ("ai_" +:+ l) = get_bool s "ai__all").
  { apply (sync_all_box _ _ _ _ s (mkCatBox ("ai_" +:+ l) l l)); try done.
    - by apply ai_key_not_prev.
    - by apply ai_box_in. }
  assert (H2 : forall k, k = "ai_" +:+ l ->
            get_bool (sync_all "nonai__all" "nonai__all_prev" nonai_boxes unique s1) k = get_bool s1 k).
  { intros k ->. apply sync_all_other; [cbn; discriminate|]. intros b Hb. by apply nonai_key_not_ai. }
  split; [by rewrite H2|].
  rewrite elem_of_app, !elem_of_picked. split.
  - intros [(b & Hb & Hlab & _ & Hv)|(b & Hb & Hlab & _ & _)].
    + rewrite (ai_box_label b Hb), Hlab in Hv. cbn in Hv. by rewrite <- H1.
    + by destruct (ai_not_nonai_label l b Hl Hb).
  - intros Hv. left. exists (mkCatBox ("ai_" +:+ l) l l). split_and!; [by apply ai_box_in|done|done|].
    cbn. by rewrite H1.
Qed.

(** ** Filtering and sorting *)

(** The rows the page should list, as one condition on a row: a selected
    category (any, when none is selected) and the read state the status
    choice asks for. *)
Definition shown_spec (cat : Article -> string) (sel : list string) (choice : string) (a : Article) : Prop :=
  (sel = [] \/ cat a ∈ sel) /\
  (contains "僅未報告" choice = true -> art_read a = false) /\
  (contains "僅未報告" choice = false -> contains "僅已報告" choice = true -> art_read a = true).

#[export] Instance shown_spec_dec cat sel choice : forall a, Decision (shown_spec cat sel choice a).
Proof. intros a. unfold shown_spec. apply _. Defined.

#[export] Instance date_before_total : Total date_before.
Proof. intros [x|] [y|]; cbn; auto; lia. Qed.

#[export] Instance date_before_trans : Transitive date_before.
Proof. intros [x|] [y|] [z|]; cbn; auto; try lia; done. Qed.

#[export] Instance later_first_total key : Total (later_first key).
Proof. intros a b. apply date_before_total. Qed.

#[export] Instance later_first_trans key : Transitive (later_first key).
Proof. intros a b c. apply date_before_trans. Qed.

Lemma StronglySorted_filter {A} (R : relation A) (P : A -> Prop) `{!forall x, Decision (P x)} (l : list A) :
  StronglySorted R l -> StronglySorted R (filter P l).
Proof.
  induction 1 as [|x l _ IH HF]; [constructor|]. rewrite filter_cons.
  case_decide; [|done]. constructor; [done|].
  apply Forall_forall. intros y Hy. apply list_elem_of_filter in Hy as [_ Hy].
  by eapply Forall_forall in HF.
Qed.

Lemma filter_all {A} (P : A -> Prop) `{!forall x, Decision (P x)} (l : list A) :
  (forall x, P x) -> filter P l = l.
Proof.
  intros HP. induction l as [|x l IH]; [done|]. rewrite filter_cons_True by done. by rewrite IH.
Qed.

Lemma by_status_gen (u r : bool) cat sel rows :
  (if u then filter (fun a => art_read a = false) (by_category cat sel rows)
   else if r then filter (fun a => art_read a = true) (by_category cat sel rows)
   else by_category cat sel rows) =
  filter (fun a => (sel = [] \/ cat a ∈ sel) /\ (u = true -> art_read a = false) /\
                   (u = false -> r = true -> art_read a = true)) rows.
Proof.
  unfold by_category. destruct u, r, sel as [|l sel]; rewrite ?list_filter_filter;
    first [apply list_filter_iff | symmetry; apply filter_all]; naive_solver.
Qed.

Lemma by_status_by_category cat sel choice rows :
  by_status choice (by_category cat sel rows) = filter (shown_spec cat sel choice) rows.
Proof. apply by_status_gen. Qed.

(** C30: the list the page paginates is the reference filter of the
    articles, reordered: the rows of the selected categories and of the
    read state the status asks for (and, when searching, whose title or
    subtitle matches the term), each exactly as often as in the data, and
    ordered newest first with the rows without a date last. *)
Theorem visible_rows_spec regex_search key cat sel choice term title sub rows :
  let L := sort_by_date key (by_status choice (by_category cat sel rows)) in
  L ≡ₚ filter (shown_spec cat sel choice) rows /\ StronglySorted (later_first key) L /\
  search_rows regex_search term title sub L ≡ₚ
    filter (fun a => shown_spec cat sel choice a /\
                     regex_search term (title a) || regex_search term (sub a) = true) rows /\
  StronglySorted (later_first key) (search_rows regex_search term title sub L).
Proof.
  cbn zeta. unfold sort_by_date, search_rows. rewrite by_status_by_category.
  assert (Hs : StronglySorted (later_first key) (merge_sort (later_first key)
                 (filter (shown_spec cat sel choice) rows)))
    by (apply StronglySorted_merge_sort; [exact (later_first_trans key)|exact (later_first_total key)]).
  split_and!; [apply merge_sort_Permutation|done| |by apply StronglySorted_filter].
  rewrite merge_sort_Permutation, list_filter_filter. apply reflexive_eq, list_filter_iff. naive_solver.
Qed.

(** ** Reruns of a tab *)

(** What the user does before a run: every widget change reruns the
    script; a button's [st.rerun()] reruns it with nothing changed. *)
Inductive Event :=
| Typed (term : string)
| Chose (i : nat)
| Ticked (key : string) (v : bool)
| Pressed (c : Click)
| Rerun.

Definition apply_event (e : Event) (s : Session) : Session * Click :=
  match e with
  | Typed t => (mkSession (ss_page s) (ss_bools s) t (ss_status s)
                  (ss_last_search s) (ss_last_selected s) (ss_last_status s), NoClick)
  | Chose i => (mkSession (ss_page s) (ss_bools s) (ss_search s) i
                  (ss_last_search s) (ss_last_selected s) (ss_last_status s), NoClick)
  | Ticked k v => (set_bools (<[k := v]> (ss_bools s)) s, NoClick)
  | Pressed c => (s, c)
  | Rerun => (s, NoClick)
  end.

(** One run after one event, on whatever the data is at that moment. *)
Inductive ui_step to_datetime valid_regex regex_search md5_hex strftime_ymd : Session -> Session -> Prop :=
| ui_run e df s r s' :
    page_run to_datetime valid_regex regex_search md5_hex strftime_ymd df (apply_event e s).2
      (apply_event e s).1 = (r, s') ->
    ui_step to_datetime valid_regex regex_search md5_hex strftime_ymd s s'.

Definition page_nonneg (s : Session) : Prop := forall p, ss_page s = Some p -> (0 <= p)%Z.

(** [page_nonneg] is kept from one state to the next. *)
Definition keeps_nonneg (s s' : Session) : Prop := page_nonneg s -> page_nonneg s'.

#[export] Instance keeps_nonneg_preorder : PreOrder keeps_nonneg.
Proof. split; [intros s Hs; exact Hs|]. intros s1 s2 s3 H12 H23 H. by apply H23, H12. Qed.

Lemma sync_all_page all_key prev_key boxes unique s :
  ss_page (sync_all all_key prev_key boxes unique s) = ss_page s.
Proof. unfold sync_all. by case_bool_decide. Qed.

Lemma keeps_nonneg_display md5_hex strftime_ymd cols date click rows :
  keeps keeps_nonneg (display_paginated_articles md5_hex strftime_ymd cols date click rows).
Proof.
  intros s r s' H Hs p Hp. destruct (decide (rows = [])) as [->|Hl].
  - injection H as _ <-. by apply Hs.
  - assert (Hn : length rows <> 0) by (destruct rows; cbn; [done|lia]).
    assert (H0 : (0 <= default 0%Z (ss_page s))%Z) by (destruct (ss_page s) eqn:E; cbn; [by apply Hs|lia]).
    pose proof (clamp_page_range _ _ H0 Hn).
    destruct (display_page _ _ _ _ _ _ _ _ _ Hl H) as (p' & Hp' & Hr).
    rewrite Hp' in Hp. injection Hp as <-. lia.
Qed.

(** The sidebar changes only checkbox values. *)
Lemma sidebar_fields rows cat s :
  let s' := (sidebar rows cat s).1 in
  ss_page s' = ss_page s /\ ss_search s' = ss_search s /\ ss_status s' = ss_status s /\
  ss_last_status s' = ss_last_status s.
Proof.
  cbn. unfold sync_all. repeat case_bool_decide; cbn; auto.
Qed.

Lemma sidebar_nonneg rows cat s : page_nonneg s -> page_nonneg (sidebar rows cat s).1.
Proof. intros Hs p. destruct (sidebar_fields rows cat s) as [-> _]. apply Hs. Qed.

Lemma reset_page_nonneg term sel choice s : page_nonneg s -> page_nonneg (reset_page term sel choice s).
Proof.
  intros Hs p. destruct (reset_page_fields term sel choice s) as (_ & _ & _ & _ & _ & _ & ->).
  intros [= <-]. case_bool_decide; [lia|]. destruct (ss_page s) eqn:E; cbn; [by apply Hs|lia].
Qed.

Lemma keeps_nonneg_page_run to_datetime valid_regex regex_search md5_hex strftime_ymd df click :
  keeps keeps_nonneg (page_run to_datetime valid_regex regex_search md5_hex strftime_ymd df click).
Proof.
  unfold page_run. keeps_auto; repeat match goal with
  | |- keeps _ (st_state _) => apply keeps_state; intros s Hs; by apply sidebar_nonneg
  | |- keeps _ (st_modify _) => apply keeps_modify; intros s Hs; by apply reset_page_nonneg
  | |- keeps _ (display_paginated_articles _ _ _ _ _ _) => apply keeps_nonneg_display
  | |- keeps _ (match ?x with _ => _ end) => destruct x
  | |- keeps _ _ => progress keeps_auto
  end.
Qed.

(** C31: across any sequence of runs of a tab, whatever the user does and
    whatever the data is at each run, the page number in the session never
    becomes negative. *)
Theorem reachable_page_nonneg to_datetime valid_regex regex_search md5_hex strftime_ymd s0 s :
  rtc (ui_step to_datetime valid_regex regex_search md5_hex strftime_ymd) s0 s ->
  page_nonneg s0 -> page_nonneg s.
Proof.
  induction 1 as [s0|s0 s1 s2 Hstep _ IH]; [done|]. intros H0. apply IH.
  destruct Hstep as [e df s0 r s1 Hrun].
  apply (keeps_nonneg_page_run _ _ _ _ _ _ _ _ _ _ Hrun).
  destruct e; exact H0.
Qed.

(** C32: a search term that is not a regular expression makes the run
    raise [re.error] (after the page reset): [str.contains] is called with
    its default [regex=True]. *)
Theorem page_run_bad_regex to_datetime valid_regex regex_search md5_hex strftime_ymd df click s ic id it :
  column (af_cols df) CATEGORY_COL = Ok ic -> column (af_cols df) "Date" = Ok id ->
  column (af_cols df) "Title" = Ok it ->
  ss_search s <> "" -> valid_regex (ss_search s) = false ->
  (page_run to_datetime valid_regex regex_search md5_hex strftime_ymd df click s).1 =
  Err (ReError (ss_search s)).
Proof.
  intros Hc Hd Ht Hne Hv. unfold page_run, st_bind, st_lift, st_state, st_get, st_modify.
  rewrite Hc. cbv beta iota. rewrite Hd.
  destruct (sidebar_fields (af_rows df) (fun a => nth ic (art_cells a) "") s) as (_ & Hs & _).
  rewrite Hs. destruct (ss_search s) as [|c t]; [done|]. rewrite Ht. cbv beta iota. by rewrite Hv.
Qed.

Lemma string_app_cons c (x t : string) : String c x +:+ t = String c (x +:+ t).
Proof. reflexivity. Qed.

Lemma string_app_length (x y : string) : String.length (x +:+ y) = String.length x + String.length y.
Proof. induction x as [|c x IH]; [done|]. rewrite string_app_cons. cbn. by rewrite IH. Qed.

Lemma string_app_cancel_r (x y t : string) : x +:+ t = y +:+ t -> x = y.
Proof.
  intros H. apply (f_equal String.length) in H as Hl. rewrite !string_app_length in Hl.
  revert y H Hl. induction x as [|c x IH]; intros [|d y] H Hl; cbn in Hl; try (done || lia).
  rewrite !string_app_cons in H. injection H as -> H. f_equal. apply IH; [done|lia].
Qed.

(** In the [僅未報告] view the status choice is the option text with the
    unread count, and the text determines the count. *)
Lemma unread_choice rows cat s :
  ss_status s = 1 ->
  sb_choice (sidebar rows cat s).2 =
  "僅未報告（" +:+ pretty (length (filter (fun a => art_read a = false) rows)) +:+ "）".
Proof. intros H. cbn. by rewrite H. Qed.

Lemma unread_choice_inj (n m : nat) :
  "僅未報告（" +:+ pretty n +:+ "）" = "僅未報告（" +:+ pretty m +:+ "）" -> n = m.
Proof.
  intros Heq. apply (inj (String.app "僅未報告（")) in Heq. apply string_app_cancel_r in Heq.
  by apply (inj pretty) in Heq.
Qed.

(** C33: with the status radio on its second option ([僅未報告]), the
    status choice of a run changes whenever the number of unread articles
    does: the option text carries the count.  A toggle that marks an
    article read in that view therefore counts as a changed status choice,
    and the next run goes back to the first page. *)
Theorem unread_count_changes_choice rows rows' cat cat' s s' :
  ss_status s = 1 -> ss_status s' = 1 ->
  length (filter (fun a => art_read a = false) rows) <>
  length (filter (fun a => art_read a = false) rows') ->
  sb_choice (sidebar rows cat s).2 <> sb_choice (sidebar rows' cat' s').2.
Proof.
  intros H1 H1' Hn. rewrite !unread_choice by done. by intros ?%unread_choice_inj.
Qed.

Local Ltac shows_from H Hv :=
  lazymatch type of H with
  | context [display_paginated_articles ?a ?b ?c ?d ?e ?f ?g] =>
      destruct (display_paginated_articles a b c d e f g) as [[[r1 r2]|e'] s2] eqn:Hd; [|discriminate];
      injection H as <- _ _; cbn in Hv; injection Hv as ->;
      destruct (display_shows _ _ _ _ _ _ _ _ _ _ _ _ _ Hd) as (-> & _); eexists; split; [done|]; reflexivity
  end.

(** The page a run shows, with or without a search term: the session's
    page after the reset of lines 213-227, clamped to the list shown. *)
Lemma page_run_displayed to_datetime valid_regex regex_search md5_hex strftime_ymd df click s v rr s'
    items vs p t :
  page_run to_datetime valid_regex regex_search md5_hex strftime_ymd df click s = (Ok (v, rr), s') ->
  v_body v = Displayed (PageOf items vs p t) ->
  exists ic n, column (af_cols df) CATEGORY_COL = Ok ic /\
    let sb := sidebar (af_rows df) (fun a => nth ic (art_cells a) "") s in
    p = clamp_page (default 0%Z (ss_page (reset_page (ss_search s) (sorted_labels (sb_picked sb.2))
                                            (sb_choice sb.2) sb.1))) n.
Proof.
  intros H Hv. unfold page_run, st_bind, st_lift, st_state, st_get, st_modify in H.
  destruct (column (af_cols df) CATEGORY_COL) as [ic|e] eqn:Hc; [|discriminate].
  exists ic. cbv beta iota zeta in H.
  destruct (column (af_cols df) "Date") as [id|e]; [|discriminate].
  destruct (sidebar_fields (af_rows df) (fun a => nth ic (art_cells a) "") s) as (_ & Hq & _).
  destruct (sidebar (af_rows df) (fun a => nth ic (art_cells a) "") s) as [s1 sb] eqn:Hsb.
  cbn [fst snd] in H, Hq |- *. rewrite Hq in H.
  destruct (ss_search s) as [|c tm]; cbv beta in H; [shows_from H Hv|].
  destruct (column (af_cols df) "Title") as [it|e]; [|discriminate]. cbv beta iota in H.
  destruct (valid_regex _); [|discriminate].
  destruct (column (af_cols df) "Subtitle") as [isub|e]; [|discriminate]. cbv beta iota in H.
  destruct (search_rows _ _ _ _ _) as [|a found]; [injection H as <- _ _; discriminate|].
  shows_from H Hv.
Qed.

(** C35: a toggle in the [僅未報告] view sends the reader back to the first
    page.  When the status radio is on its second option and the choice
    the session remembers from the last run was made on data with another
    number of unread articles (a checkbox ticked in between marked one
    read), every page the next run shows is the first one, whatever the
    page of the session, the search term and the click: the option text
    carries the count, so the reset of lines 225-227 fires. *)
Theorem count_change_resets_page to_datetime valid_regex regex_search md5_hex strftime_ymd df click s
    v rr s' items vs p t rows0 cat0 s0 :
  ss_status s = 1 -> ss_status s0 = 1 ->
  ss_last_status s = Some (sb_choice (sidebar rows0 cat0 s0).2) ->
  length (filter (fun a => art_read a = false) rows0) <>
  length (filter (fun a => art_read a = false) (af_rows df)) ->
  page_run to_datetime valid_regex regex_search md5_hex strftime_ymd df click s = (Ok (v, rr), s') ->
  v_body v = Displayed (PageOf items vs p t) ->
  p = 0%Z.
Proof.
  intros H1 H0 Hlast Hn Hrun Hv.
  destruct (page_run_displayed _ _ _ _ _ _ _ _ _ _ _ _ _ _ _ Hrun Hv) as (ic & n & _ & ->).
  set (cat := fun a => nth ic (art_cells a) "").
  destruct (sidebar_fields (af_rows df) cat s) as (_ & _ & _ & Hls).
  destruct (reset_page_fields (ss_search s) (sorted_labels (sb_picked (sidebar (af_rows df) cat s).2))
              (sb_choice (sidebar (af_rows df) cat s).2) (sidebar (af_rows df) cat s).1)
    as (_ & _ & _ & _ & _ & _ & ->).
  rewrite bool_decide_true; [apply clamp_page_0|]. right; right. rewrite Hls, Hlast.
  rewrite !unread_choice by done. intros Heq. apply (inj Some), unread_choice_inj in Heq. by apply Hn.
Qed.

(** ** Scenarios

    Stand-ins for the library functions, used only to run the scenarios:
    ISO dates read as the number [yyyymmdd], and search terms without
    regular-expression metacharacters matched as text, ignoring ASCII
    case. *)

Fixpoint digits_value (acc : Z) (s : string) : option Z :=
  match s with
  | EmptyString => Some acc
  | String c s' =>
      if bool_decide (c = "-"%char) then digits_value acc s'
      else match Ascii.is_nat c with
           | Some d => digits_value (acc * 10 + Z.of_nat d)%Z s'
           | None => None
           end
  end.

Definition iso_date (col : list string) (cell : string) : option Z :=
  match cell with EmptyString => None | _ => digits_value 0 cell end.

Definition plain_term (term : string) : bool :=
  forallb (fun c => negb (bool_decide (c ∈ list_ascii_of_string ".^$*+?{}[]\|()")))
    (list_ascii_of_string term).

Definition plain_search (term cell : string) : bool := contains (lower term) (lower cell).

(** The number [yyyymmdd] printed as it reads. *)
Definition ymd_text (d : Z) : string := pretty d.

Definition article_row (i : nat) : list string :=
  ["2024-01-" +:+ pretty (10 + i); "Ann"; "Title " +:+ pretty i; "Sub"; "http://x/" +:+ pretty i;
   "AI Algorithm"].

Definition scenario_frame (read : nat -> bool) : ArticleFrame :=
  mkArticleFrame REQUIRED_COLS
    (map (fun i => mkArticle (article_row i) ("http://x/" +:+ pretty i) (read i)) (seq 0 10)).

Definition unread_session (page : option Z) : Session := mkSession page ∅ "" 1 None None None.

Lemma page_after_reset_witness :
  match display_paginated_articles (fun u => u) (fun _ => "") REQUIRED_COLS (fun _ => None) NoClick
          ten_articles (reset_page "rag" [] "x" page_one_session) with
  | (Ok (PageOf items _ p _, _), _) =>
      p = (if bool_decide (inputs_changed "rag" [] "x" page_one_session) then 0%Z
           else clamp_page (default 0%Z (ss_page page_one_session)) (length ten_articles)) /\
      items = page_slice p ten_articles
  | _ => False
  end.
Proof.
  destruct (display_paginated_articles _ _ _ _ NoClick ten_articles _)
    as [[[[|items views p t] rr]|e] s'] eqn:H;
    try (vm_compute in H; discriminate).
  exact (page_after_reset _ _ _ _ _ _ _ _ _ _ _ _ _ _ _ _ H).
Defined.

Definition all_ai_session : Session := mkSession None {[ "ai__all" := true ]} "" 0 None None None.

Lemma select_all_ai_witness :
  get_bool (sidebar (af_rows (scenario_frame (fun _ => false))) (fun a => nth 5 (art_cells a) "")
              all_ai_session).1 ("ai_" +:+ "AI Algorithm") = get_bool all_ai_session "ai__all" /\
  ("AI Algorithm" ∈ sb_picked (sidebar (af_rows (scenario_frame (fun _ => false)))
                                  (fun a => nth 5 (art_cells a) "") all_ai_session).2 <->
   get_bool all_ai_session "ai__all" = true).
Proof.
  apply select_all_ai; [vm_compute; discriminate | apply (bool_decide_unpack _); vm_compute; reflexivity ..].
Defined.

Lemma reachable_page_nonneg_witness :
  page_nonneg (page_run iso_date plain_term plain_search (fun u => u) ymd_text
                 (scenario_frame (fun _ => false)) NoClick page_one_session).2.
Proof.
  apply (reachable_page_nonneg iso_date plain_term plain_search (fun u => u) ymd_text page_one_session).
  - apply rtc_once. apply (ui_run _ _ _ _ _ Rerun (scenario_frame (fun _ => false)) _
                             (page_run iso_date plain_term plain_search (fun u => u) ymd_text
                                (scenario_frame (fun _ => false)) NoClick page_one_session).1).
    apply surjective_pairing.
  - intros p Hp. injection Hp as <-. lia.
Defined.

Definition bad_search_session : Session := mkSession None ∅ "RAG (" 0 None None None.

Lemma page_run_bad_regex_witness :
  (page_run iso_date plain_term plain_search (fun u => u) ymd_text (scenario_frame (fun _ => false)) NoClick
     bad_search_session).1 =
  Err (ReError (ss_search bad_search_session)).
Proof.
  apply (page_run_bad_regex _ _ _ _ _ _ _ _ 5 0 2); [reflexivity .. | discriminate | reflexivity].
Defined.

Lemma unread_count_changes_choice_witness :
  sb_choice (sidebar (af_rows (scenario_frame (fun _ => false))) (fun a => nth 5 (art_cells a) "")
               (unread_session (Some 1%Z))).2 <>
  sb_choice (sidebar (af_rows (scenario_frame (fun i => bool_decide (i = 9))))
               (fun a => nth 5 (art_cells a) "") (unread_session (Some 1%Z))).2.
Proof. apply unread_count_changes_choice; [reflexivity | reflexivity | vm_compute; lia]. Defined.

(** A tab on the second page of the [僅未報告] view, whose last run saw
    ten unread articles. *)
Definition unread_choice_of (read : nat -> bool) : string :=
  sb_choice (sidebar (af_rows (scenario_frame read)) (fun a => nth 5 (art_cells a) "") (unread_session None)).2.

Definition second_page_session : Session :=
  mkSession (Some 1%Z) ∅ "" 1 (Some "") (Some []) (Some (unread_choice_of (fun _ => false))).

Lemma count_change_resets_page_witness :
  match page_run iso_date plain_term plain_search (fun u => u) ymd_text
          (scenario_frame (fun i => bool_decide (i = 9))) NoClick second_page_session with
  | (Ok (v, _), _) =>
      match v_body v with Displayed (PageOf _ _ p _) => p = 0%Z | _ => False end
  | _ => False
  end.
Proof.
  assert (Hs : match page_run iso_date plain_term plain_search (fun u => u) ymd_text
                       (scenario_frame (fun i => bool_decide (i = 9))) NoClick second_page_session with
               | (Ok (v, _), _) => match v_body v with Displayed (PageOf _ _ _ _) => True | _ => False end
               | _ => False
               end) by (vm_compute; exact I).
  assert (Hn : length (filter (fun a => art_read a = false) (af_rows (scenario_frame (fun _ => false)))) <>
               length (filter (fun a => art_read a = false)
                         (af_rows (scenario_frame (fun i => bool_decide (i = 9))))))
    by (vm_compute; lia).
  destruct (page_run _ _ _ _ _ _ _ _) as [[[v rr]|e] s'] eqn:H; [|contradiction].
  destruct (v_body v) as [|[|items vs p t]] eqn:Hv; try contradiction.
  exact (count_change_resets_page iso_date plain_term plain_search (fun u => u) ymd_text
           (scenario_frame (fun i => bool_decide (i = 9))) NoClick
           second_page_session v rr s' items vs p t (af_rows (scenario_frame (fun _ => false)))
           (fun a => nth 5 (art_cells a) "") (unread_session None) eq_refl eq_refl eq_refl
           Hn H Hv).
Defined.

(** The whole script on a world, from a fresh tab on the [僅未報告] view:
    a first run, a click on the next-page button and the rerun it
    triggers, then a click on the checkbox drawn for the oldest article
    (on the second page, the list being sorted newest first), the
    [on_toggle] callback it triggers, and the next run. *)
Definition scenario_world : World :=
  mkWorld {[ SHEET_ID := mkBook [mkSheet 0 "Articles" 2000 26 (REQUIRED_COLS :: map article_row (seq 0 10));
                                 mkSheet 1 "ReadStatus" 2000 26 [["ItemKey"; "Read"]]] 2 ]}
    [] 0 [] [] (mkConfig (Some ∅) None []) (Some (mkClient (FromInfo ∅)))
    {[ SHEET_ID := mkSpreadsheet SHEET_ID ]} {[ SHEET_ID := app_map ]} ∅.

Definition run (click : Click) (ws : World * Session) : (result Exn (option (View * bool)) * World) * Session :=
  app_run iso_date plain_term plain_search (fun u => u) ymd_text click ws.1 ws.2.

Definition shown (r : (result Exn (option (View * bool)) * World) * Session) : option (Z * list RowView) :=
  match r.1.1 with
  | Ok (Some (v, _)) => match v_body v with Displayed (PageOf _ vs p _) => Some (p, vs) | _ => None end
  | _ => None
  end.

Definition next_state (r : (result Exn (option (View * bool)) * World) * Session) : World * Session :=
  (r.1.2, r.2).

(** A click on the checkbox drawn for [url], and the callback Streamlit
    runs before the next run. *)
Definition tick (url : string) (r : (result Exn (option (View * bool)) * World) * Session) : World * Session :=
  match shown r with
  | Some (_, vs) =>
      match list_find (fun v => (rv_args v).2 = url) vs with
      | Some (_, v) =>
          let s := click_checkbox v r.2 in
          ((on_toggle s (rv_args v).1 (rv_args v).2 r.1.2).2, s)
      | None => next_state r
      end
  | None => next_state r
  end.

Definition scenario_runs : list (option Z) :=
  let r1 := run NoClick (scenario_world, unread_session None) in
  let r2 := run ClickNext (next_state r1) in
  let r3 := run NoClick (next_state r2) in
  let r4 := run NoClick (tick "http://x/0" r3) in
  map (fun r => fst <$> shown r) [r1; r2; r3; r4].

(** The scenario of [count_change_resets_page]: the page shown
    goes 0, 0 (the click's run), 1 (the rerun), and back to 0 after the
    checkbox of a row of page 1 is ticked, although neither the search
    nor the selection changed. *)
Example toggle_resets_unread_page : scenario_runs = [Some 0%Z; Some 0%Z; Some 1%Z; Some 0%Z].
Proof. vm_compute. reflexivity. Qed.
