(* ===== verification/Concurrent.v ===== *)
(** * Concurrent: interleaved upserts of several sessions

    [upsert_read_status] (src/gsheets_io.py, lines 131-147) is a
    read-modify-write with no lock: it reads the status worksheet (lines
    136-139), decides from that snapshot between rewriting the flag cell of
    a row and appending a row (line 141), then writes (lines 142-145) and
    clears the snapshot cache (line 147).  Streamlit serves every browser
    tab from its own thread of one process, and other processes may write
    the same worksheet, so the reads and writes of several upserts
    interleave.

    [upsert_read] and [upsert_write] are the two halves of the function,
    and [upsert_split] proves that running one after the other is the
    function, on every state.  [cstep] runs one half of one pending upsert on the shared
    state; any interleaving of the halves of several upserts is a sequence
    of [cstep]s.  The invariant [cinv] shows what stays true in every
    interleaving: the worksheet keeps its shape, and a pending update still
    targets a row of its own key, because rows are only appended or have
    their flag cell rewritten.  Two theorems show what is lost:
    [racing_appends], the race the specification accepts (two upserts of
    a key with no row both append, the later row wins and the worksheet
    gets a duplicate), and [stale_update_masked], a write that lands and
    is masked by such a duplicate row.  The scenarios at the end run both
    on a concrete schedule of [cstep]s. *)

From Stdlib Require Import Ascii String ZArith.
From stdpp Require Import base gmap strings list.
From S2P Require Import Prelude Sheets Retry Registry ReadCache Upsert.

Local Open Scope st_scope.

(** What the read half decided (line 141). *)
Inductive Action := UpdateRow (row_no : nat) | AppendRow.

Definition decide_action (vals : Grid) (item_key : string) : result Exn Action :=
  match build_index (data_rows vals) with
  | Err e => Err e
  | Ok index =>
      Ok (match index !! item_key with Some row_no => UpdateRow row_no | None => AppendRow end)
  end.

(** Lines 136-141. *)
Definition upsert_read (sheet_id item_key : string) : M (Worksheet * Action) :=
  let! ws := get_or_create_worksheet sheet_id READ_STATUS status_headers in
  let! vals := safe_get_all_values ws in
  match decide_action vals item_key with
  | Err e => st_raise e
  | Ok a => st_ret (ws, a)
  end.

(** Lines 142-147. *)
Definition upsert_write (ws : Worksheet) (item_key : string) (read_state : bool) (a : Action) : M unit :=
  let! _ := match a with
            | UpdateRow row_no => safe_update_cell ws row_no 2 (flag_text read_state)
            | AppendRow => safe_append_row ws [item_key; flag_text read_state]
            end in
  cache_data_clear.

(** ** Interleavings *)

(** Where a pending upsert stands. *)
Inductive Phase :=
| Ready
| Decided (ws : Worksheet) (a : Action)
| Finished
| Failed (e : Exn).

Record Thread := mkThread { th_key : string; th_flag : bool; th_phase : Phase }.

Definition with_phase (t : Thread) (p : Phase) : Thread := mkThread (th_key t) (th_flag t) p.

(** One half of one pending upsert runs on the shared state. *)
Inductive cstep (sid : string) : World * list Thread -> World * list Thread -> Prop :=
| cstep_read w ts i t ws a w' :
    ts !! i = Some t -> th_phase t = Ready ->
    upsert_read sid (th_key t) w = (Ok (ws, a), w') ->
    cstep sid (w, ts) (w', <[i := with_phase t (Decided ws a)]> ts)
| cstep_write w ts i t ws a w' :
    ts !! i = Some t -> th_phase t = Decided ws a ->
    upsert_write ws (th_key t) (th_flag t) a w = (Ok tt, w') ->
    cstep sid (w, ts) (w', <[i := with_phase t Finished]> ts)
| cstep_read_fails w ts i t e w' :
    ts !! i = Some t -> th_phase t = Ready ->
    upsert_read sid (th_key t) w = (Err e, w') ->
    cstep sid (w, ts) (w', <[i := with_phase t (Failed e)]> ts)
| cstep_write_fails w ts i t ws a e w' :
    ts !! i = Some t -> th_phase t = Decided ws a ->
    upsert_write ws (th_key t) (th_flag t) a w = (Err e, w') ->
    cstep sid (w, ts) (w', <[i := with_phase t (Failed e)]> ts).

(** ** The two halves *)

(** [upsert_read_status] is its read half followed by its write half,
    on every state: splitting the function at line 141 changes nothing. *)
Theorem upsert_split sid k b w :
  upsert_read_status sid k b w = (let! r := upsert_read sid k in upsert_write r.1 k b r.2) w.
Proof.
  unfold upsert_read_status, upsert_read, upsert_write, decide_action. st_unfold.
  destruct (get_or_create_worksheet _ _ _ w) as [[ws|e] w1]; [|done].
  destruct (safe_get_all_values ws w1) as [[vals|e] w2]; [|done].
  destruct (build_index _) as [index|e]; [|done]. by destruct (index !! k).
Qed.

(** ** The status worksheet under interleaved upserts *)

(** Row [r] of the sheet (numbered from 1, the header being row 1) is a
    data row of key [k]. *)
Definition targets (cells : Grid) (r : nat) (k : string) : Prop :=
  2 <= r /\ exists v, cells !! (r - 1) = Some [k; v].

Definition pending_ok (cells : Grid) (k : string) (a : Action) : Prop :=
  match a with UpdateRow r => targets cells r k | AppendRow => True end.

(** What a well-formed status worksheet makes the read half decide. *)
Lemma decide_action_wf cells k :
  status_wf cells ->
  exists a, decide_action (fill_gaps (trim_rows cells)) k = Ok a /\ pending_ok cells k a.
Proof.
  intros (rows & Hcells & Hrows).
  destruct (status_wf_rows _ rows Hcells Hrows) as (Hread & Hdata & _ & Hidx).
  unfold decide_action. rewrite Hread, Hdata, Hidx.
  destruct (index_from row_key (fun j _ => j) 2 rows ∅ !! k) as [r|] eqn:Hk; [|by eexists].
  eexists; split; [reflexivity|]. cbn.
  destruct (index_from_lookup _ _ _ _ _ _ _ Hk)
    as [(pre & x & post & -> & Hx & _ & ->)|[_ He]]; [|by rewrite lookup_empty in He].
  assert (Hok : status_row_ok x) by (eapply Forall_forall; [exact Hrows|]; set_solver).
  destruct Hok as [Hlen _]. destruct x as [|k' [|v [|]]]; cbn in Hlen; try lia.
  cbn in Hx. subst k'. split; [lia|]. exists v. rewrite Hcells.
  replace (2 + length pre - 1) with (S (length pre)) by lia.
  change ((pre ++ [k; v] :: post) !! length pre = Some [k; v]). by rewrite list_lookup_middle.
Qed.

Lemma set_cell_targets cells r k f :
  targets cells r k -> set_cell cells r 2 f = <[r - 1 := [k; f]]> cells.
Proof.
  intros [_ [v Hv]]. unfold set_cell. rewrite Hv. cbn [from_option id].
  rewrite (set_pad_in_range "" [k; v] (2 - 1) f) by (cbn; lia). cbn.
  apply set_pad_in_range. eapply lookup_lt_Some, Hv.
Qed.

Lemma targets_insert cells r k f r' k' :
  targets cells r k -> targets cells r' k' -> targets (<[r - 1 := [k; f]]> cells) r' k'.
Proof.
  intros [Hr [v Hv]] [Hr' [v' Hv']]. split; [done|].
  destruct (decide (r - 1 = r' - 1)) as [He|Hne].
  - rewrite He in Hv |- *. rewrite Hv in Hv'. injection Hv' as <- _. exists f.
    apply list_lookup_insert_eq. eapply lookup_lt_Some, Hv.
  - exists v'. by rewrite list_lookup_insert_ne.
Qed.

(** Rewriting the flag of a row of the right key keeps the worksheet's
    shape and every other pending update's target. *)
Lemma update_keeps cells r k b :
  status_wf cells -> targets cells r k ->
  status_wf (set_cell cells r 2 (flag_text b)) /\
  (forall r' k', targets cells r' k' -> targets (set_cell cells r 2 (flag_text b)) r' k').
Proof.
  intros Hwf Ht. rewrite (set_cell_targets _ _ k) by done.
  split; [|intros r' k'; by apply targets_insert].
  destruct Hwf as (rows & -> & Hrows). destruct Ht as [Hr _].
  destruct (r - 1) as [|j] eqn:Hj; [lia|].
  exists (<[j := [k; flag_text b]]> rows). split; [done|].
  apply Forall_insert; [done|apply flag_text_ok].
Qed.

Lemma status_wf_trim cells : status_wf cells -> trim_rows cells = cells.
Proof.
  intros (rows & -> & Hrows). apply trim_rows_ok. constructor.
  - exists "Read". split; [done|discriminate].
  - eapply Forall_impl; [exact Hrows|]. by intros r [_ Hr].
Qed.

(** Appending a row keeps the worksheet's shape and every pending
    update's target. *)
Lemma append_keeps cells k b :
  status_wf cells ->
  status_wf (trim_rows cells ++ [[k; flag_text b]]) /\
  (forall r' k', targets cells r' k' -> targets (trim_rows cells ++ [[k; flag_text b]]) r' k').
Proof.
  intros Hwf. rewrite status_wf_trim by done. split.
  - destruct Hwf as (rows & -> & Hrows). exists (rows ++ [[k; flag_text b]]).
    split; [done|]. apply Forall_app; split; [done|]. constructor; [apply flag_text_ok|done].
  - intros r' k' [Hr [v Hv]]. split; [done|]. exists v.
    rewrite lookup_app_l; [done|]. eapply lookup_lt_Some, Hv.
Qed.

(** The row the read half chose, as the index gave it. *)
Definition action_row (a : Action) : option nat :=
  match a with UpdateRow r => Some r | AppendRow => None end.

Lemma written_keeps cells k b a :
  status_wf cells -> pending_ok cells k a ->
  status_wf (flag_written cells k b (action_row a)) /\
  (forall r' k', targets cells r' k' -> targets (flag_written cells k b (action_row a)) r' k').
Proof. destruct a; cbn; [apply update_keeps|intros; by apply append_keeps]. Qed.

(** ** The halves on a served network *)

Section Served.
Context (sid : string) (m : gmap string Worksheet) (ws : Worksheet).
Context (w : World) (s : Sheet).
Hypothesis (Hm : w_wsmaps w !! sid = Some m) (Hws : m !! READ_STATUS = Some ws).
Hypothesis (Hs : sheet_of ws (w_books w) = Ok s) (Hf : w_faults w = []).

Lemma upsert_read_served k a :
  decide_action (fill_gaps (trim_rows (sh_cells s))) k = Ok a ->
  upsert_read sid k w = (Ok (ws, a), settle (CallGetAll ws) (mkPlan None 1 []) w).
Proof.
  intros Ha. unfold upsert_read.
  rewrite (st_bind_ok _ _ _ ws w) by (by eapply get_or_create_hit).
  rewrite (st_bind_ok _ _ _ _ _ (safe_get_all_values_served ws w s Hs (served_nil _ Hf))).
  by rewrite Ha.
Qed.

Lemma upsert_write_served k b a :
  exists c bs, sheet_of ws bs = Ok (with_cells s (flag_written (sh_cells s) k b (action_row a))) /\
    (forall ws', ws_key ws' <> ws_key ws \/ ws_id ws' <> ws_id ws -> sheet_of ws' bs = sheet_of ws' (w_books w)) /\
    upsert_write ws k b a w = (Ok tt, set_data ∅ (set_books bs (settle c (mkPlan None 1 []) w))).
Proof.
  destruct (flag_write_served ws k b (action_row a) w s Hs (served_nil _ Hf)) as (c & bs & H1 & H2 & Hrun).
  exists c, bs. split_and!; [done|done|]. unfold upsert_write, st_bind at 1.
  replace (match a with UpdateRow row_no => _ | AppendRow => _ end)
    with (match action_row a with
          | Some row_no => safe_update_cell ws row_no 2 (flag_text b)
          | None => safe_append_row ws [k; flag_text b]
          end) by (by destruct a).
  by rewrite Hrun.
Qed.

End Served.

(** ** Racing appends *)

(** The read half appends a key no row has. *)
Lemma decide_action_absent cells k :
  status_wf cells -> Forall (fun r => row_key r <> k) cells ->
  decide_action (fill_gaps (trim_rows cells)) k = Ok AppendRow.
Proof.
  intros (rows & -> & Hrows) Hk. apply Forall_cons in Hk as [_ Hk].
  destruct (status_wf_rows _ rows eq_refl Hrows) as (Hread & Hdata & _ & Hidx).
  unfold decide_action. rewrite Hread, Hdata, Hidx, index_from_lookup_notin, lookup_empty; [done|].
  intros r Hr. exact (proj1 (Forall_forall _ _) Hk r Hr).
Qed.

(** C36: the race of two upserts of a key with no row.  On a well-formed
    status worksheet known to the cached title map, with the network up,
    when two upserts of a key absent from the worksheet both read before
    either writes, both decide to append and both return successfully:
    the worksheet gets two rows for the key, where one upsert appends one,
    and the flags the page reads are the old ones updated by the second
    write only, the first toggle being lost. *)
Theorem racing_appends sid m ws w s sigma k b1 b2 :
  w_wsmaps w !! sid = Some m -> m !! READ_STATUS = Some ws -> sheet_of ws (w_books w) = Ok s ->
  w_faults w = [] -> status_wf (sh_cells s) -> status_of_grid (sh_cells s) = Ok sigma ->
  Forall (fun r => row_key r <> k) (sh_cells s) ->
  exists w1 w2 w3 w4 s',
    upsert_read sid k w = (Ok (ws, AppendRow), w1) /\ upsert_read sid k w1 = (Ok (ws, AppendRow), w2) /\
    upsert_write ws k b1 AppendRow w2 = (Ok tt, w3) /\ upsert_write ws k b2 AppendRow w3 = (Ok tt, w4) /\
    sheet_of ws (w_books w4) = Ok s' /\
    sh_cells s' = sh_cells s ++ [[k; flag_text b1]; [k; flag_text b2]] /\
    status_wf (sh_cells s') /\ status_of_grid (sh_cells s') = Ok (upsert_spec k b2 sigma).
Proof.
  intros Hm Hn Hs Hf Hwf Hsig Hk.
  pose proof (decide_action_absent _ _ Hwf Hk) as Ha.
  pose proof (upsert_read_served sid m ws w s Hm Hn Hs Hf k _ Ha) as R1.
  set (w1 := settle (CallGetAll ws) (mkPlan None 1 []) w) in R1.
  pose proof (settle_faults_nil (CallGetAll ws) (mkPlan None 1 []) w Hf) as Hf1.
  pose proof (upsert_read_served sid m ws w1 s Hm Hn Hs Hf1 k _ Ha) as R2.
  set (w2 := settle (CallGetAll ws) (mkPlan None 1 []) w1) in R2.
  pose proof (settle_faults_nil (CallGetAll ws) (mkPlan None 1 []) w1 Hf1) as Hf2.
  destruct (upsert_write_served ws w2 s Hs Hf2 k b1 AppendRow) as (c1 & bs1 & Hs3 & _ & W1).
  cbn [action_row flag_written] in Hs3. rewrite (status_wf_trim _ Hwf) in Hs3.
  destruct (append_keeps _ k b1 Hwf) as [Hwf3 _]. rewrite (status_wf_trim _ Hwf) in Hwf3.
  set (w3 := set_data ∅ (set_books bs1 (settle c1 (mkPlan None 1 []) w2))) in W1.
  destruct (upsert_write_served ws w3 _ Hs3 (settle_faults_nil _ _ _ Hf2) k b2 AppendRow)
    as (c2 & bs2 & Hs4 & _ & W2).
  cbn [action_row flag_written sh_cells with_cells] in Hs4. rewrite (status_wf_trim _ Hwf3) in Hs4.
  destruct (append_keeps _ k b2 Hwf3) as [Hwf4 _]. rewrite (status_wf_trim _ Hwf3) in Hwf4.
  do 5 eexists. split_and!; [exact R1|exact R2|exact W1|exact W2|exact Hs4| |done|].
  - cbn. by rewrite <- app_assoc.
  - destruct Hwf as (rows & Hcells & Hrows).
    destruct (status_wf_rows _ rows Hcells Hrows) as (_ & _ & Hsig0 & _).
    rewrite Hsig in Hsig0. injection Hsig0 as ->. cbn [sh_cells with_cells]. rewrite Hcells.
    transitivity (status_of_grid (status_headers :: (rows ++ [[k; flag_text b1]]) ++ [[k; flag_text b2]]));
      [by rewrite <- !app_comm_cons|].
    assert (Hrows' : Forall status_row_ok ((rows ++ [[k; flag_text b1]]) ++ [[k; flag_text b2]])).
    { apply Forall_app; split; [apply Forall_app; split; [done|]|]; constructor; auto using flag_text_ok. }
    rewrite (proj1 (proj2 (proj2 (status_wf_rows _ _ eq_refl Hrows')))).
    rewrite !flags_of_snoc. cbn [row_key nth]. rewrite !parse_flag_text.
    unfold upsert_spec. by rewrite insert_insert_eq.
Qed.

(** ** Masked writes *)

(** Rewriting row [r] for key [k] leaves what the page reads unchanged
    when a later row also has key [k]: the index keeps the last row of a
    key, and the written row is not it. *)
Lemma flags_of_insert_shadowed rows i j k f v v' :
  rows !! i = Some [k; v] -> rows !! j = Some [k; v'] -> i < j ->
  flags_of (<[i := [k; f]]> rows) = flags_of rows.
Proof. intros Hi Hj Hij. unfold flags_of. by eapply index_from_insert_shadowed. Qed.

(** C40: a write that lands and is not what the page reads.  Once the
    status worksheet holds two rows for a key (two concurrent upserts
    that both found no row appended both, see [lost_update]), an upsert
    whose read half chose an earlier row of the key still succeeds on a
    served network and writes its flag into that row, yet the flags the
    page reads are those it read before: the later row masks the write,
    and the toggle is lost although the call returned successfully. *)
Theorem stale_update_masked ws w s k b r :
  sheet_of ws (w_books w) = Ok s -> w_faults w = [] ->
  status_wf (sh_cells s) -> targets (sh_cells s) r k ->
  (exists j v, r - 1 < j /\ sh_cells s !! j = Some [k; v]) ->
  exists w' s', upsert_write ws k b (UpdateRow r) w = (Ok tt, w') /\
    sheet_of ws (w_books w') = Ok s' /\
    sh_cells s' !! (r - 1) = Some [k; flag_text b] /\ status_wf (sh_cells s') /\
    status_of_grid (sh_cells s') = status_of_grid (sh_cells s).
Proof.
  intros Hs Hf Hwf Ht (j & v' & Hj & Hv').
  destruct (upsert_write_served ws w s Hs Hf k b (UpdateRow r)) as (c & bs & Hbs & _ & Hrun).
  eexists _, _. split; [exact Hrun|]. split; [exact Hbs|]. cbn [sh_cells with_cells action_row flag_written].
  destruct (update_keeps _ _ _ b Hwf Ht) as [Hwf' _].
  rewrite (set_cell_targets _ _ k) in Hwf' |- * by done.
  destruct Ht as [Hr [v Hv]]. split; [apply list_lookup_insert_eq; eapply lookup_lt_Some, Hv|].
  split; [done|]. destruct Hwf as (rows & Hcells & Hrows). rewrite Hcells in Hwf', Hv, Hv' |- *.
  destruct Hwf' as (rows' & Hcells' & Hrows').
  destruct (r - 1) as [|i] eqn:Hi; [lia|]. destruct j as [|j]; [lia|].
  cbn in Hcells', Hv, Hv'. injection Hcells' as Hrows'eq.
  rewrite (proj1 (proj2 (proj2 (status_wf_rows _ rows eq_refl Hrows)))).
  cbn. rewrite Hrows'eq.
  rewrite (proj1 (proj2 (proj2 (status_wf_rows _ rows' eq_refl Hrows')))).
  rewrite <- Hrows'eq. f_equal. eapply flags_of_insert_shadowed; [exact Hv|exact Hv'|lia].
Qed.

(** ** The invariant of interleavings *)

Section Interleaving.
Context (sid : string) (m : gmap string Worksheet) (ws : Worksheet).

(** The network is up, the status worksheet is in the cached title map
    and well-formed, and every upsert that has read and not yet written
    will write the status worksheet, at a row of its own key when it
    updates. *)
Definition cinv (st : World * list Thread) : Prop :=
  w_faults st.1 = [] /\ w_wsmaps st.1 !! sid = Some m /\ m !! READ_STATUS = Some ws /\
  exists s, sheet_of ws (w_books st.1) = Ok s /\ status_wf (sh_cells s) /\
    forall i t ws' a, st.2 !! i = Some t -> th_phase t = Decided ws' a ->
      ws' = ws /\ pending_ok (sh_cells s) (th_key t) a.

Lemma cinv_read w ts i t :
  cinv (w, ts) -> ts !! i = Some t -> th_phase t = Ready ->
  exists a, upsert_read sid (th_key t) w = (Ok (ws, a), settle (CallGetAll ws) (mkPlan None 1 []) w) /\
            cinv (settle (CallGetAll ws) (mkPlan None 1 []) w, <[i := with_phase t (Decided ws a)]> ts).
Proof.
  intros (Hf & Hm & Hws & s & Hs & Hwf & Hts) Hi Hr. cbn [fst snd] in *.
  destruct (decide_action_wf _ (th_key t) Hwf) as (a & Ha & Hok).
  exists a. split; [exact (upsert_read_served sid m ws w s Hm Hws Hs Hf _ _ Ha)|].
  split_and!; [by apply settle_faults_nil|done|done|]. exists s. split_and!; [done|done|].
  intros j t' ws' a' Hj Hp. cbn in Hj. apply list_lookup_insert_Some in Hj as [(<- & <- & _)|(_ & Hj)].
  - cbn in Hp. by injection Hp as <- <-.
  - by apply (Hts j t').
Qed.

Lemma cinv_write w ts i t a :
  cinv (w, ts) -> ts !! i = Some t -> th_phase t = Decided ws a ->
  exists w', upsert_write ws (th_key t) (th_flag t) a w = (Ok tt, w') /\
             cinv (w', <[i := with_phase t Finished]> ts).
Proof.
  intros (Hf & Hm & Hws & s & Hs & Hwf & Hts) Hi Hp. cbn [fst snd] in *.
  destruct (Hts i t ws a Hi Hp) as [_ Hok].
  destruct (upsert_write_served ws w s Hs Hf (th_key t) (th_flag t) a) as (c & bs & Hs' & _ & Hrun).
  destruct (written_keeps _ (th_key t) (th_flag t) a Hwf Hok) as [Hwf' Hkeep].
  eexists; split; [exact Hrun|]. cbn [fst snd].
  split_and!; [cbn; by rewrite Hf|done|done|]. eexists; split_and!; [exact Hs'|exact Hwf'|].
  intros j t' ws' a' Hj Hp'. apply list_lookup_insert_Some in Hj as [(<- & <- & _)|(_ & Hj)];
    [done|].
  destruct (Hts j t' ws' a' Hj Hp') as [-> Hok']. split; [done|].
  destruct a' as [r'|]; [by apply Hkeep|done].
Qed.

(** No half of an upsert fails under the invariant, and each step keeps it. *)
Lemma cstep_cinv st st' : cinv st -> cstep sid st st' -> cinv st'.
Proof.
  intros Hinv Hstep. destruct Hstep as [w ts i t ws' a w' Hi Hr Hrun|w ts i t ws' a w' Hi Hp Hrun
                                       |w ts i t e w' Hi Hr Hrun|w ts i t ws' a e w' Hi Hp Hrun].
  - destruct (cinv_read w ts i t Hinv Hi Hr) as (a' & Hrun' & Hinv').
    rewrite Hrun' in Hrun. by injection Hrun as <- <- <-.
  - assert (ws' = ws) as ->
      by (destruct Hinv as (_ & _ & _ & s & _ & _ & Hts); exact (proj1 (Hts i t ws' a Hi Hp))).
    destruct (cinv_write w ts i t a Hinv Hi Hp) as (w'' & Hrun' & Hinv').
    rewrite Hrun' in Hrun. by injection Hrun as <-.
  - destruct (cinv_read w ts i t Hinv Hi Hr) as (a' & Hrun' & _). congruence.
  - assert (ws' = ws) as ->
      by (destruct Hinv as (_ & _ & _ & s & _ & _ & Hts); exact (proj1 (Hts i t ws' a Hi Hp))).
    destruct (cinv_write w ts i t a Hinv Hi Hp) as (w'' & Hrun' & _). congruence.
Qed.

End Interleaving.

(** C37: in every interleaving of the halves of concurrent upserts on a
    well-formed status worksheet with the network up, the worksheet stays
    well-formed, no half fails, and every pending update still targets a
    row of its own key: a stale read never makes an upsert write into
    another item's row. *)
Theorem interleaving_safe sid m ws st st' :
  cinv sid m ws st -> rtc (cstep sid) st st' -> cinv sid m ws st'.
Proof. intros Hinv Hs. induction Hs as [|x y z Hxy _ IH]; [done|]. by apply IH, (cstep_cinv sid m ws x y). Qed.

(** ** Every pending upsert completes *)

(** Halves still to run. *)
Definition remaining (t : Thread) : nat :=
  match th_phase t with Ready => 2 | Decided _ _ => 1 | Finished | Failed _ => 0 end.

Definition not_failed (t : Thread) : Prop :=
  match th_phase t with Failed _ => False | _ => True end.

Definition key_flag (t : Thread) : string * bool := (th_key t, th_flag t).

Lemma sum_list_with_insert {A} (f : A -> nat) l i x y :
  l !! i = Some y -> sum_list_with f (<[i := x]> l) + f y = sum_list_with f l + f x.
Proof.
  revert i. induction l as [|z l IH]; intros [|i] Hi; simplify_eq/=; [lia|].
  specialize (IH i Hi). lia.
Qed.

(** Moving one thread to its next phase keeps the threads' keys and
    flags and their not having failed. *)
Lemma with_phase_keeps ts i t p :
  ts !! i = Some t -> (match p with Failed _ => False | _ => True end) ->
  Forall not_failed ts -> key_flag <$> <[i := with_phase t p]> ts = key_flag <$> ts /\
  Forall not_failed (<[i := with_phase t p]> ts).
Proof.
  intros Hi Hp Hnf. split; [|by apply Forall_insert].
  rewrite list_fmap_insert. apply list_insert_id. by rewrite list_lookup_fmap, Hi.
Qed.

(** C38: termination of the interleavings: from any state of the
    invariant in which no upsert has failed, some interleaving runs every
    pending upsert to its end; each one reads once and writes once. *)
Theorem upserts_complete sid m ws st :
  cinv sid m ws st -> Forall not_failed st.2 ->
  exists st', rtc (cstep sid) st st' /\ Forall (fun t => th_phase t = Finished) st'.2 /\
              key_flag <$> st'.2 = key_flag <$> st.2.
Proof.
  remember (sum_list_with remaining st.2) as n eqn:Hn. revert st Hn.
  induction n as [n IH] using lt_wf_ind. intros [w ts] Hn Hinv Hnf. cbn [fst snd] in *.
  destruct (list_find (fun t => remaining t <> 0) ts) as [[i t]|] eqn:Hfind.
  - apply list_find_Some in Hfind as (Hi & Hrem & _).
    destruct (th_phase t) as [|ws' a| |e] eqn:Hp; unfold remaining in Hrem; rewrite Hp in Hrem;
      try done.
    + destruct (cinv_read sid m ws w ts i t Hinv Hi Hp) as (a & Hrun & Hinv').
      destruct (with_phase_keeps ts i t (Decided ws a) Hi I Hnf) as [Hkf Hnf'].
      pose proof (sum_list_with_insert remaining ts i (with_phase t (Decided ws a)) t Hi) as Hsum.
      unfold remaining at 2 4 in Hsum. rewrite Hp in Hsum. cbn in Hsum.
      destruct (IH (sum_list_with remaining (<[i := with_phase t (Decided ws a)]> ts)) ltac:(lia)
                  (_, _) eq_refl Hinv' Hnf') as (st' & Hs & Hfin & Hkf').
      exists st'. split_and!; [|done|rewrite Hkf'; exact Hkf].
      eapply rtc_l; [|exact Hs]. by eapply cstep_read.
    + assert (ws' = ws) as ->
        by (destruct Hinv as (_ & _ & _ & s & _ & _ & Hts); exact (proj1 (Hts i t ws' a Hi Hp))).
      destruct (cinv_write sid m ws w ts i t a Hinv Hi Hp) as (w' & Hrun & Hinv').
      destruct (with_phase_keeps ts i t Finished Hi I Hnf) as [Hkf Hnf'].
      pose proof (sum_list_with_insert remaining ts i (with_phase t Finished) t Hi) as Hsum.
      unfold remaining at 2 4 in Hsum. rewrite Hp in Hsum. cbn in Hsum.
      destruct (IH (sum_list_with remaining (<[i := with_phase t Finished]> ts)) ltac:(lia)
                  (_, _) eq_refl Hinv' Hnf') as (st' & Hs & Hfin & Hkf').
      exists st'. split_and!; [|done|rewrite Hkf'; exact Hkf].
      eapply rtc_l; [|exact Hs]. by eapply cstep_write.
  - exists (w, ts). split_and!; [done| |done]. apply list_find_None in Hfind.
    apply Forall_forall. intros t Ht.
    eapply Forall_forall in Hfind, Hnf; [|done..]. unfold remaining, not_failed in *.
    destruct (th_phase t); naive_solver.
Qed.

(** ** Running a schedule *)

(** The next half of thread [i], as [cstep] runs it. *)
Definition exec1 (sid : string) (st : World * list Thread) (i : nat) : World * list Thread :=
  let '(w, ts) := st in
  match ts !! i with
  | Some t =>
      match th_phase t with
      | Ready =>
          match upsert_read sid (th_key t) w with
          | (Ok (ws, a), w') => (w', <[i := with_phase t (Decided ws a)]> ts)
          | (Err e, w') => (w', <[i := with_phase t (Failed e)]> ts)
          end
      | Decided ws a =>
          match upsert_write ws (th_key t) (th_flag t) a w with
          | (Ok _, w') => (w', <[i := with_phase t Finished]> ts)
          | (Err e, w') => (w', <[i := with_phase t (Failed e)]> ts)
          end
      | _ => st
      end
  | None => st
  end.

Definition runnable (ts : list Thread) (i : nat) : bool :=
  match ts !! i with
  | Some t => match th_phase t with Ready | Decided _ _ => true | _ => false end
  | None => false
  end.

Fixpoint exec (sid : string) (st : World * list Thread) (sched : list nat) : World * list Thread :=
  match sched with [] => st | i :: sched' => exec sid (exec1 sid st i) sched' end.

Fixpoint valid_schedule (sid : string) (st : World * list Thread) (sched : list nat) : bool :=
  match sched with
  | [] => true
  | i :: sched' => runnable st.2 i && valid_schedule sid (exec1 sid st i) sched'
  end.

Lemma exec1_cstep sid st i : runnable st.2 i = true -> cstep sid st (exec1 sid st i).
Proof.
  destruct st as [w ts]. unfold runnable, exec1. cbn [snd].
  destruct (ts !! i) as [t|] eqn:Hi; [|done]. destruct (th_phase t) as [|ws a| |] eqn:Hp; try done.
  - intros _. destruct (upsert_read sid (th_key t) w) as [[[ws a]|e] w'] eqn:Hr.
    + by eapply cstep_read. + by eapply cstep_read_fails.
  - intros _. destruct (upsert_write ws (th_key t) (th_flag t) a w) as [[[]|e] w'] eqn:Hr.
    + by eapply cstep_write. + by eapply cstep_write_fails.
Qed.

(** A schedule that only runs pending halves is an interleaving. *)
Lemma exec_rtc sid st sched : valid_schedule sid st sched = true -> rtc (cstep sid) st (exec sid st sched).
Proof.
  revert st. induction sched as [|i sched IH]; intros st H; cbn in *; [done|].
  apply andb_prop in H as [Hi H]. eapply rtc_l; [by apply exec1_cstep|]. by apply IH.
Qed.

(** ** Scenarios *)

Definition two_toggles (b1 b2 : bool) : list Thread :=
  [mkThread "http://a" b1 Ready; mkThread "http://a" b2 Ready].

(** The race the specification accepts.  Two upserts of the same key
    both read before either writes.  When the key has a row, both rewrite
    it and the later write wins: the first call returned successfully but
    its flag is gone.  When the key has no row, both append: the worksheet
    gets two rows for the key (the later one wins when indexed), where a
    single upsert appends exactly one. *)
Example lost_update :
  let present := exec "s1" (world_a, two_toggles false true) [0; 1; 0; 1] in
  let absent := exec "s1" (rc_world 30000, two_toggles false true) [0; 1; 0; 1] in
  valid_schedule "s1" (world_a, two_toggles false true) [0; 1; 0; 1] = true /\
  valid_schedule "s1" (rc_world 30000, two_toggles false true) [0; 1; 0; 1] = true /\
  status_cells present.1 = [["ItemKey"; "Read"]; ["http://a"; "true"]] /\
  status_cells absent.1 = [["ItemKey"; "Read"]; ["http://a"; "false"]; ["http://a"; "true"]] /\
  status_of_grid (status_cells absent.1) = Ok {[ "http://a" := true ]}.
Proof. vm_compute. auto. Qed.

(** The masked write, as a schedule.  A and B read the worksheet while
    the key has no row, so both will append; A appends, then C reads and
    decides to rewrite A's row; B appends a second row for the key; C
    rewrites A's row last.  The page and every later upsert index the key
    by its last row, B's: C's flag, written after every other, is masked
    ([stale_update_masked] in general). *)
Example masked_write_scenario :
  let ts := [mkThread "http://a" true Ready; mkThread "http://a" false Ready;
             mkThread "http://a" true Ready] in
  let sched := [0; 1; 0; 2; 1; 2] in
  let st := exec "s1" (rc_world 30000, ts) sched in
  valid_schedule "s1" (rc_world 30000, ts) sched = true /\
  (exists ws, th_phase <$> st.2 = [Finished; Finished; Finished] /\
     w_log st.1 = [CallGetAll ws; CallGetAll ws; CallAppend ws; CallGetAll ws; CallAppend ws;
                   CallUpdateCell ws 2 2]) /\
  status_cells st.1 = [["ItemKey"; "Read"]; ["http://a"; "true"]; ["http://a"; "false"]] /\
  status_of_grid (status_cells st.1) = Ok {[ "http://a" := false ]}.
Proof. vm_compute. split; [reflexivity|]. split; [eexists; split; reflexivity|auto]. Qed.

Lemma cinv_start ts :
  Forall (fun t => th_phase t = Ready) ts -> cinv "s1" rc_map status_ws (rc_world 30000, ts).
Proof.
  intros Hts. split_and!; [reflexivity|reflexivity|vm_compute; reflexivity|].
  exists status_sheet0. split_and!; [vm_compute; reflexivity|apply status_wf_header|].
  intros i t ws' a Hi Hp. cbn [snd] in Hi.
  rewrite (proj1 (Forall_lookup _ _) Hts i t Hi) in Hp. discriminate.
Qed.

Lemma interleaving_safe_witness :
  cinv "s1" rc_map status_ws (exec "s1" (rc_world 30000, two_toggles false true) [0; 1; 0; 1]).
Proof.
  apply (interleaving_safe "s1" rc_map status_ws (rc_world 30000, two_toggles false true)).
  - apply cinv_start. repeat constructor.
  - apply exec_rtc. vm_compute. reflexivity.
Defined.

Lemma upserts_complete_witness :
  exists st', rtc (cstep "s1") (rc_world 30000, two_toggles false true) st' /\
    Forall (fun t => th_phase t = Finished) st'.2 /\
    key_flag <$> st'.2 = key_flag <$> (rc_world 30000, two_toggles false true).2.
Proof.
  apply (upserts_complete "s1" rc_map status_ws).
  - apply cinv_start. repeat constructor.
  - repeat constructor.
Defined.

Definition dup_world : World := (exec "s1" (rc_world 30000, two_toggles false true) [0; 1; 0; 1]).1.
Definition dup_sheet : Sheet :=
  mkSheet 1 "ReadStatus" 2000 26 [["ItemKey"; "Read"]; ["http://a"; "false"]; ["http://a"; "true"]].

Lemma stale_update_masked_witness :
  exists w' s', upsert_write status_ws "http://a" true (UpdateRow 2) dup_world = (Ok tt, w') /\
    sheet_of status_ws (w_books w') = Ok s' /\
    sh_cells s' !! (2 - 1) = Some ["http://a"; flag_text true] /\ status_wf (sh_cells s') /\
    status_of_grid (sh_cells s') = status_of_grid (sh_cells dup_sheet).
Proof.
  apply stale_update_masked.
  - vm_compute. reflexivity.
  - vm_compute. reflexivity.
  - exists [["http://a"; "false"]; ["http://a"; "true"]].
    split; [reflexivity|]. repeat constructor; apply (flag_text_ok _ false) || apply (flag_text_ok _ true).
  - split; [lia|]. exists "false". reflexivity.
  - exists 2, "true". split; [lia|reflexivity].
Defined.

Lemma racing_appends_witness :
  exists w1 w2 w3 w4 s',
    upsert_read "s1" "http://a" (rc_world 30000) = (Ok (status_ws, AppendRow), w1) /\
    upsert_read "s1" "http://a" w1 = (Ok (status_ws, AppendRow), w2) /\
    upsert_write status_ws "http://a" false AppendRow w2 = (Ok tt, w3) /\
    upsert_write status_ws "http://a" true AppendRow w3 = (Ok tt, w4) /\
    sheet_of status_ws (w_books w4) = Ok s' /\
    sh_cells s' = sh_cells status_sheet0 ++ [["http://a"; flag_text false]; ["http://a"; flag_text true]] /\
    status_wf (sh_cells s') /\ status_of_grid (sh_cells s') = Ok (upsert_spec "http://a" true ∅).
Proof.
  apply (racing_appends "s1" rc_map status_ws (rc_world 30000) status_sheet0 ∅);
    [vm_compute; reflexivity .. | apply status_wf_header | vm_compute; reflexivity |].
  constructor; [cbn; discriminate|constructor].
Defined.
