(* ===== verification/System.v ===== *)
(** * System: several browser tabs over one process

    The deployed page is one Python process (one [World]: the remote
    spreadsheet as the process sees it, the fault schedule, the clock and
    the caches) serving several browser tabs, each with its own
    [st.session_state].  The system moves by four kinds of step:
    - a tab reruns src/app.py after an event ([run_tab]: [apply_event],
      then [app_run], which loads the articles and runs the page);
    - a checkbox drawn in a tab is clicked ([click_tab]: Streamlit stores
      the new value, then runs [on_toggle] with the row's arguments);
    - time passes ([elapse]);
    - the network changes ([set_faults]): any schedule of failures for
      the next requests.
    Each step runs to completion before the next one; how the two halves
    of concurrent toggles interleave is the subject of [Concurrent].

    The invariant [sys_inv]: both worksheets are in the cached title map
    and the status worksheet is well-formed, every snapshot of the read
    cache is typed ([Frames]), and every tab's page number is
    non-negative ([Filters]).  It holds in every state reachable from one
    where it holds (C39), whatever the tabs do and whatever the network
    does: page runs only read the spreadsheet, and an upsert either takes
    effect whole or not at all ([Upsert]). *)

From Stdlib Require Import Ascii String ZArith.
From stdpp Require Import base gmap strings list.
From S2P Require Import Prelude Sheets Retry Registry ReadCache Upsert App Frames Display Filters.

Local Open Scope st_scope.

Record Sys := mkSys { sys_world : World; sys_tabs : gmap nat Session }.

(** The session of a tab that has not run yet. *)
Definition fresh_session : Session := mkSession None ∅ "" 0 None None None.

Definition tab (st : Sys) (t : nat) : Session := default fresh_session (sys_tabs st !! t).

(** [d] milliseconds pass between two interactions. *)
Definition elapse (d : Z) (w : World) : World :=
  mkWorld (w_books w) (w_faults w) (w_clock w + d) (w_sleeps w) (w_log w) (w_config w)
    (w_client w) (w_opened w) (w_wsmaps w) (w_data w).

Section System.

Context (to_datetime : list string -> string -> option Z) (valid_regex : string -> bool)
  (regex_search : string -> string -> bool) (md5_hex : string -> string) (strftime_ymd : Z -> string).

(** Tab [t] reruns the script after the event [e]. *)
Definition run_tab (t : nat) (e : Event) (st : Sys) : Sys :=
  let '(s, click) := apply_event e (tab st t) in
  let '((_, w'), s') := app_run to_datetime valid_regex regex_search md5_hex strftime_ymd click
                           (sys_world st) s in
  mkSys w' (<[t := s']> (sys_tabs st)).

(** A click on the checkbox [v] drawn in tab [t]: the value is stored,
    then [on_change] runs; an exception it raises is shown in the tab. *)
Definition click_tab (t : nat) (v : RowView) (st : Sys) : Sys :=
  let s := click_checkbox v (tab st t) in
  mkSys (on_toggle s (rv_args v).1 (rv_args v).2 (sys_world st)).2 (<[t := s]> (sys_tabs st)).

Inductive sys_step : Sys -> Sys -> Prop :=
| step_run st t e : sys_step st (run_tab t e st)
| step_click st t v : sys_step st (click_tab t v st)
| step_time st d : (0 <= d)%Z -> sys_step st (mkSys (elapse d (sys_world st)) (sys_tabs st))
| step_network st fs : sys_step st (mkSys (set_faults fs (sys_world st)) (sys_tabs st)).

End System.

(** ** The invariant *)

(** Both worksheets are in the cached title map, and the status worksheet
    is well-formed. *)
Definition known_status (w : World) : Prop :=
  exists m wa wr sr, w_wsmaps w !! SHEET_ID = Some m /\ m !! DATA_SHEET_NAME = Some wa /\
    m !! READ_SHEET_NAME = Some wr /\ sheet_of wr (w_books w) = Ok sr /\ status_wf (sh_cells sr).

Definition sys_inv (st : Sys) : Prop :=
  known_status (sys_world st) /\ cache_typed (sys_world st) /\
  map_Forall (fun _ s => page_nonneg s) (sys_tabs st).

(** ** Reads *)

(** What a read leaves as it was: the spreadsheet and the title maps. *)
Definition reads_only (w w' : World) : Prop := w_books w' = w_books w /\ w_wsmaps w' = w_wsmaps w.

Lemma known_status_reads w w' : reads_only w w' -> known_status w -> known_status w'.
Proof.
  intros [Hb Hm] (m & wa & wr & sr & H1 & H2 & H3 & H4 & H5).
  exists m, wa, wr, sr. rewrite Hb, Hm. auto.
Qed.

Lemma safe_get_all_values_reads ws w r w' : safe_get_all_values ws w = (r, w') -> reads_only w w'.
Proof.
  destruct r as [vals|e]; intros H.
  - apply safe_get_all_values_ok_inv in H as (p & _ & ->). done.
  - by apply with_retry_err_inv in H as [p ->]; [|apply reading_get_all_values_fatal].
Qed.

Lemma read_sheet_reads sid n m ws w r w' :
  w_wsmaps w !! sid = Some m -> m !! n = Some ws -> read_sheet_to_df sid n w = (r, w') -> reads_only w w'.
Proof.
  intros Hm Hn.
  assert (Hu : forall r1 w1, read_sheet_uncached sid n w = (r1, w1) -> reads_only w w1).
  { intros r1 w1. unfold read_sheet_uncached.
    rewrite (st_bind_ok _ _ _ ws w) by (by eapply get_or_create_hit). unfold st_bind.
    destruct (safe_get_all_values ws w) as [[v|e] w2] eqn:Hg; st_unfold; intros [= _ <-];
      exact (safe_get_all_values_reads _ _ _ _ Hg). }
  assert (Hr : refresh sid n w = (r, w') -> reads_only w w').
  { unfold refresh. destruct (read_sheet_uncached sid n w) as [[f|e] w1] eqn:H1; intros [= _ <-];
      exact (Hu _ _ eq_refl). }
  unfold read_sheet_to_df. destruct (w_data w !! (sid, n)) as [e|]; [|exact Hr].
  destruct (fresh_entry _ e); [intros [= _ <-]; done|exact Hr].
Qed.

(** With both worksheets known, loading the articles only reads. *)
Lemma load_articles_reads m wa wr w r w' :
  w_wsmaps w !! SHEET_ID = Some m -> m !! DATA_SHEET_NAME = Some wa -> m !! READ_SHEET_NAME = Some wr ->
  load_articles w = (r, w') -> reads_only w w'.
Proof.
  intros Hm Ha Hr. unfold load_articles, st_bind at 1.
  destruct (read_sheet_to_df SHEET_ID DATA_SHEET_NAME w) as [[df|e] w1] eqn:H1;
    pose proof (read_sheet_reads _ _ _ _ _ _ _ Hm Ha H1) as [Hb1 Hm1]; [|intros [= _ <-]; done].
  assert (Hm1' : w_wsmaps w1 !! SHEET_ID = Some m) by (rewrite Hm1; exact Hm).
  destruct (frame_empty df).
  { rewrite (st_bind_ok _ _ _ wa w1) by (by eapply get_or_create_hit). intros [= _ <-]. done. }
  destruct (column_index _ "URL"); [|intros [= _ <-]; done].
  unfold st_bind at 1.
  destruct (read_sheet_to_df SHEET_ID READ_SHEET_NAME w1) as [[rs|e] w2] eqn:H2;
    destruct (read_sheet_reads _ _ _ _ _ _ _ Hm1' Hr H2) as [Hb2 Hm2];
    [destruct (status_flags rs); [destruct (_ && _)|]|]; intros [= _ <-]; split; congruence.
Qed.

(** ** Toggles *)

(** Whatever the network does, a toggle keeps the title maps and leaves
    the status worksheet well-formed. *)
Lemma on_toggle_status s chk k w r w' m wr sr :
  w_wsmaps w !! SHEET_ID = Some m -> m !! READ_SHEET_NAME = Some wr ->
  sheet_of wr (w_books w) = Ok sr -> status_wf (sh_cells sr) ->
  on_toggle s chk k w = (r, w') ->
  w_wsmaps w' = w_wsmaps w /\ exists sr', sheet_of wr (w_books w') = Ok sr' /\ status_wf (sh_cells sr').
Proof.
  intros Hm Hr Hs Hwf. unfold on_toggle, st_bind at 1, sleep, st_modify.
  set (w0 := slept DEBOUNCE_MS w). intros H.
  split; [exact (upsert_keeps_wsmaps _ _ _ w0 _ _ _ _ Hm Hr H)|].
  destruct r as [[]|e].
  - exact (upsert_ok_wf _ _ _ w0 _ _ _ _ Hm Hr Hs Hwf H).
  - exists sr. rewrite (upsert_err_books _ _ _ w0 _ _ _ _ Hm Hr H). by split.
Qed.

Lemma known_status_on_toggle s chk k w r w' :
  known_status w -> on_toggle s chk k w = (r, w') -> known_status w'.
Proof.
  intros (m & wa & wr & sr & Hm & Ha & Hr & Hs & Hwf) H.
  destruct (on_toggle_status _ _ _ _ _ _ _ _ _ Hm Hr Hs Hwf H) as (Hm' & sr' & Hs' & Hwf').
  exists m, wa, wr, sr'. rewrite Hm'. auto.
Qed.

(** ** Runs of a tab *)

Lemma app_run_parts to_datetime valid_regex regex_search md5_hex strftime_ymd click w s r w' s' :
  app_run to_datetime valid_regex regex_search md5_hex strftime_ymd click w s = ((r, w'), s') ->
  (exists r0, load_articles w = (r0, w')) /\
  (s' = s \/ exists df r1, page_run to_datetime valid_regex regex_search md5_hex strftime_ymd df click s = (r1, s')).
Proof.
  unfold app_run. destruct (load_articles w) as [[[df|]|e] w1];
    [destruct (page_run _ _ _ _ _ df click s) as [[v|e] s1] eqn:Hp|..];
    intros H; injection H; intros; subst; eauto 8.
Qed.

Lemma apply_event_nonneg e s : page_nonneg s -> page_nonneg (apply_event e s).1.
Proof. intros H. by destruct e. Qed.

Lemma sys_step_inv to_datetime valid_regex regex_search md5_hex strftime_ymd st st' :
  sys_step to_datetime valid_regex regex_search md5_hex strftime_ymd st st' -> sys_inv st -> sys_inv st'.
Proof.
  intros Hstep (Hk & Hc & Ht).
  assert (Htab : forall t, page_nonneg (tab st t)).
  { intros t. unfold tab. destruct (sys_tabs st !! t) as [s|] eqn:E; [exact (Ht _ _ E)|].
    intros p [=]. }
  destruct Hstep as [st t e|st t v|st d Hd|st fs].
  - unfold run_tab. destruct (apply_event e (tab st t)) as [s click] eqn:He.
    pose proof (apply_event_nonneg e _ (Htab t)) as Hs. rewrite He in Hs.
    destruct (app_run _ _ _ _ _ click (sys_world st) s) as [[r w'] s'] eqn:Ha.
    destruct (app_run_parts _ _ _ _ _ _ _ _ _ _ _ Ha) as ([r0 Hl] & Hs').
    destruct Hk as (m & wa & wr & sr & Hm & Hda & Hr & Hsr & Hwf).
    split_and!; cbn.
    + apply (known_status_reads (sys_world st)); [exact (load_articles_reads _ _ _ _ _ _ Hm Hda Hr Hl)|].
      exists m, wa, wr, sr. auto.
    + exact (keeps_typed_load_articles _ _ _ Hl Hc).
    + apply map_Forall_insert_2; [|exact Ht].
      destruct Hs' as [->|(df & r1 & Hp)]; [exact Hs|].
      exact (keeps_nonneg_page_run _ _ _ _ _ _ _ _ _ _ Hp Hs).
  - unfold click_tab. destruct (on_toggle _ _ _ (sys_world st)) as [r w'] eqn:Ho.
    split_and!; cbn.
    + exact (known_status_on_toggle _ _ _ _ _ _ Hk Ho).
    + exact (keeps_typed_on_toggle _ _ _ _ _ _ Ho Hc).
    + apply map_Forall_insert_2; [exact (Htab t)|exact Ht].
  - done.
  - done.
Qed.

(** ** Property *)

(** C39: the invariant of the deployed system.  From a state where both
    worksheets are known, the status worksheet is well-formed, the read
    cache is typed and every tab's page number is non-negative, every
    sequence of reruns of any tab, checkbox clicks (with any arguments),
    passing time and network failures leads to a state where all of this
    still holds. *)
Theorem system_invariant to_datetime valid_regex regex_search md5_hex strftime_ymd st st' :
  rtc (sys_step to_datetime valid_regex regex_search md5_hex strftime_ymd) st st' ->
  sys_inv st -> sys_inv st'.
Proof.
  induction 1 as [st|st1 st2 st3 Hs _ IH]; [done|]. intros H.
  exact (IH (sys_step_inv _ _ _ _ _ _ _ Hs H)).
Qed.

(** ** Witness

    Two tabs on the world of [App]: tab 0 runs and ticks the box of
    [http://a]; the network then fails the next two requests, so tab 0's
    second click raises; a minute passes and tab 1 runs. *)

Definition demo_box : RowView := mkRowView [] "readchk_a" false ("readchk_a", "http://a").

Definition demo_trace : Sys :=
  let run := run_tab iso_date plain_term plain_search (fun u => u) ymd_text in
  let st1 := run 0 Rerun (mkSys app_world ∅) in
  let st2 := click_tab 0 demo_box st1 in
  let st3 := mkSys (set_faults [Some e503; Some e403] (sys_world st2)) (sys_tabs st2) in
  let st4 := click_tab 0 demo_box st3 in
  let st5 := mkSys (elapse 60000 (sys_world st4)) (sys_tabs st4) in
  run 1 Rerun st5.

Lemma app_world_inv : sys_inv (mkSys app_world ∅).
Proof.
  split_and!; [|apply map_Forall_empty|apply map_Forall_empty].
  exists app_map, (mkWorksheet SHEET_ID 0 "Articles"), (mkWorksheet SHEET_ID 1 "ReadStatus"), app_status.
  split_and!; [vm_compute; reflexivity ..|].
  exists [["http://a"; "false"]]. split; [reflexivity|].
  repeat constructor. eexists; split; [reflexivity|discriminate].
Qed.

Lemma system_invariant_witness : sys_inv demo_trace.
Proof.
  apply (system_invariant iso_date plain_term plain_search (fun u => u) ymd_text (mkSys app_world ∅));
    [|exact app_world_inv].
  unfold demo_trace; cbv zeta.
  eapply rtc_r; [|apply step_run]. eapply rtc_r; [|apply step_time; lia].
  eapply rtc_r; [|apply step_click]. eapply rtc_r; [|apply step_network].
  eapply rtc_r; [|apply step_click]. eapply rtc_r; [|apply step_run].
  apply rtc_refl.
Defined.
